(** * Grove PN532 NFC driver: frame codec, sessions and text storage

    A shallow embedding of [grove-pn532.ts] (the Mifare Classic driver, called
    variant A below) and of the older NDEF driver for 4-byte-page tags
    (variant B), followed by theorems about the natural-language specification.

    Modelling conventions.
    - A TypeScript [number] held in an array is an integer or [NaN]; the value
      [undefined] obtained by reading an array out of range behaves as [NaN]
      in every context of this program (arithmetic, comparisons, byte store),
      so both are the constructor [NaN] of [num].
    - [message.length/16+1] is a floating-point division.  All such values
      here are multiples of 1/16 far below 2^53, so IEEE arithmetic is exact
      on them and they are modelled as rationals [Q].
    - A [Buffer] is a list of bytes ([Z] in 0..255); reading a Buffer out of
      range yields 0, and [slice(offset, length)] takes [length] bytes from
      [offset], clamped to the buffer.
    - Strings are byte strings ([string]); [charCodeAt] out of range is [NaN].
    - Serial debug output, LED icons and pauses are not part of the state.
    - The state carries two logs the program itself does not keep: the
      buffers written to the bus, and for each of them the session variables
      as they were when it was written.  They let a property speak of what
      was sent, and of the order of a write relative to the assignments.
    - Of variant B, the write path is embedded ([write4Bytes], [formatAsNdef],
      [writeNDEFText]) and, of its read path, the record search loop of
      [readNDEFText]. *)

From Stdlib Require Import ZArith List String Ascii QArith Qround Lia Lqa Bool.
Import ListNotations.
Local Open Scope Z_scope.

(** ** Numbers and arrays *)

Inductive num : Type :=
| Num (z : Z)
| NaN.

Definition nadd (a b : num) : num :=
  match a, b with
  | Num x, Num y => Num (x + y)
  | _, _ => NaN
  end.

Definition nsub (a b : num) : num :=
  match a, b with
  | Num x, Num y => Num (x - y)
  | _, _ => NaN
  end.

(** The [%] operator: the remainder has the sign of the dividend. *)
Definition nrem (a b : num) : num :=
  match a, b with
  | Num x, Num y => if y =? 0 then NaN else Num (Z.rem x y)
  | _, _ => NaN
  end.

(** [arr[i] = v]: overwrites inside the array, extends it at its end, and
    leaves holes (reading as [undefined]) when [i] is beyond the end. *)
Fixpoint arr_set {A : Type} (hole : A) (arr : list A) (i : nat) (v : A) : list A :=
  match i, arr with
  | O, [] => [v]
  | O, _ :: t => v :: t
  | S i', [] => hole :: arr_set hole [] i' v
  | S i', x :: t => x :: arr_set hole t i' v
  end.

(** [arr[i]] on a [number[]]. *)
Definition arr_get (arr : list num) (i : nat) : num := nth i arr NaN.

(** [for (let i = start; i < stop; i++) body(i)] for integer bounds. *)
Definition for_loop {S : Type} (start stop : nat) (body : nat -> S -> S) (s : S) : S :=
  fold_left (fun acc i => body i acc) (seq start (stop - start)) s.

Definition for_upto {S : Type} (n : nat) (body : nat -> S -> S) (s : S) : S :=
  for_loop 0 n body s.

(** The number of turns of [for (let i = start; i < bound; i++)] when the
    bound is a fraction: the integers [k >= 0] with [start + k < bound]
    (see [iterations_spec]). *)
Definition iterations (start bound : Q) : nat :=
  Z.to_nat (Qceiling (bound - start)).

Definition Qltb (x y : Q) : bool := negb (Qle_bool y x).

(** An array index held in a fractional variable; every such variable of this
    program holds an integer when it is used as an index. *)
Definition index_of (q : Q) : nat := Z.to_nat (Qfloor q).

Definition concatNumArr (firstArr secondArr : list num) : list num :=
  let result := [] in
  let result :=
    for_upto (List.length firstArr)
      (fun i result => arr_set NaN result i (arr_get firstArr i)) result in
  let result :=
    for_upto (List.length secondArr)
      (fun i result => arr_set NaN result (List.length firstArr + i) (arr_get secondArr i))
      result in
  result.

(** ** Buffers *)

(** [setNumber(NumberFormat.UInt8LE, i, v)]: the low byte of [v]; [NaN] and
    [undefined] store 0. *)
Definition to_uint8 (v : num) : Z :=
  match v with
  | Num z => z mod 256
  | NaN => 0
  end.

(** The buffer [writeBuffer] fills from a number array. *)
Definition toBuffer (arr : list num) : list Z := map to_uint8 arr.

(** [buf[i]] and [buf.getNumber(NumberFormat.UInt8LE, i)]. *)
Definition buf_get (buf : list Z) (i : nat) : Z := nth i buf 0.

(** [buf.slice(offset, length)]. *)
Definition slice (buf : list Z) (offset length : nat) : list Z :=
  firstn length (skipn offset buf).

(** The buffer [pins.i2cReadBuffer(ADDRESS, n)] hands out: exactly [n] bytes,
    the device's bytes first, zero-padded. *)
Definition read_buffer (n : nat) (raw : list Z) : list Z :=
  firstn n (map (fun b => b mod 256) raw ++ repeat 0 n).

(** ** Frame codec *)

Definition makeCommand (command : list num) : list num :=
  let len := Z.of_nat (List.length command) in
  let length_checksum := 0x100 - Z.rem len 0x100 in
  let preCommand := [Num 0x00; Num 0x00; Num 0xFF; Num len; Num length_checksum] in
  let allBytes := Num 0 in
  let allBytes :=
    for_upto (List.length command)
      (fun i allBytes => nadd allBytes (arr_get command i)) allBytes in
  let data_checksum := nsub (Num 0x100) (nrem allBytes (Num 0x100)) in
  let postCommand := [data_checksum; Num 0x00] in
  let fullCommand := concatNumArr (concatNumArr preCommand command) postCommand in
  fullCommand.

(** The pure part of [readFrame]: the announced length is read at offset 4 of
    the 64-byte read, and [len + 8] bytes are kept. *)
Definition readFrame_slice (buffer : list Z) : list Z :=
  let len := buf_get buffer 4 in
  let outputFrame := slice buffer 0 (Z.to_nat (len + 8)) in
  outputFrame.

(** The test [outputFrame[0] != 0x01] of [readFrame], which only reports. *)
Definition start_marker_ok (outputFrame : list Z) : bool :=
  buf_get outputFrame 0 =? 0x01.

(** ** Hexadecimal printing *)

Definition chars : list string :=
  ["0"; "1"; "2"; "3"; "4"; "5"; "6"; "7"; "8"; "9"; "A"; "B"; "C"; "D"; "E"; "F"]%string.

(** The [while (nrCopy > 0)] loop of [decToHex]; [None] when the fuel runs out. *)
Fixpoint decToHex_loop (fuel : nat) (nrCopy : Z) (result : string) : option string :=
  if nrCopy >? 0 then
    match fuel with
    | O => None
    | S fuel' =>
        let remainder := Z.rem nrCopy 16 in
        let result := (nth (Z.to_nat remainder) chars "" ++ result)%string in
        let nrCopy := (nrCopy - remainder) / 16 in
        decToHex_loop fuel' nrCopy result
    end
  else Some result.

Definition decToHex_fuel (fuel : nat) (decNr : num) : option string :=
  match decNr with
  | NaN => Some ""%string
  | Num z =>
      if z =? 0 then Some "00"%string
      else
        match decToHex_loop fuel z "" with
        | None => None
        | Some result => Some (if z <? 17 then ("0" ++ result)%string else result)
        end
  end.

(** One loop turn divides [nrCopy] by 16, so [nrCopy] turns are more than
    enough (see [decToHex_fuel_enough]). *)
Definition decToHex (decNr : num) : string :=
  let fuel := match decNr with Num z => Z.to_nat z | NaN => O end in
  match decToHex_fuel fuel decNr with
  | Some s => s
  | None => ""%string
  end.

(** ** Strings *)

Definition charCodeAt (s : string) (i : nat) : num :=
  match String.get i s with
  | Some c => Num (Z.of_nat (nat_of_ascii c))
  | None => NaN
  end.

Definition fromCharCode (code : Z) : string :=
  String (ascii_of_nat (Z.to_nat code)) EmptyString.

(** ** The bus and the driver state *)

(** The I2C bus at the fixed address [0x24]: the device consumes the buffers
    written to it and answers read requests with whatever it has staged. *)
Class Bus (D : Type) : Type := {
  bus_write : list Z -> D -> D;
  bus_read : nat -> D -> list Z * D
}.

(** The module-level variables of the driver, the device, and the buffers
    written to the bus so far (oldest first); [session_log] keeps, for each of
    these buffers, the values [targetID] and [targetNFCID] had at the moment
    it was written. *)
Record state (D : Type) : Type := mkState {
  targetID : Z;
  targetNFCID : list num;
  running : bool;
  sent : list (list Z);
  session_log : list (Z * list num);
  dev : D
}.

Arguments mkState {D}.
Arguments targetID {D}.
Arguments targetNFCID {D}.
Arguments running {D}.
Arguments sent {D}.
Arguments session_log {D}.
Arguments dev {D}.

Definition M (D A : Type) : Type := state D -> A * state D.

Definition ret {D A : Type} (a : A) : M D A := fun s => (a, s).

Definition bind {D A B : Type} (m : M D A) (k : A -> M D B) : M D B :=
  fun s => let (a, s') := m s in k a s'.

Declare Scope drv_scope.
Delimit Scope drv_scope with drv.
Notation "x <- c ;; k" := (bind c (fun x => k))
  (at level 61, c at next level, right associativity) : drv_scope.
Notation "c ;; k" := (bind c (fun _ => k))
  (at level 61, right associativity) : drv_scope.

Definition exec {D A : Type} (m : M D A) (s : state D) : state D := snd (m s).
Definition eval {D A : Type} (m : M D A) (s : state D) : A := fst (m s).

Definition get_targetID {D : Type} : M D Z := fun s => (targetID s, s).
Definition get_targetNFCID {D : Type} : M D (list num) := fun s => (targetNFCID s, s).
Definition get_running {D : Type} : M D bool := fun s => (running s, s).

Definition set_targetID {D : Type} (v : Z) : M D unit :=
  fun s => (tt, mkState v (targetNFCID s) (running s) (sent s) (session_log s) (dev s)).

Definition set_targetNFCID {D : Type} (v : list num) : M D unit :=
  fun s => (tt, mkState (targetID s) v (running s) (sent s) (session_log s) (dev s)).

Definition set_running {D : Type} (v : bool) : M D unit :=
  fun s => (tt, mkState (targetID s) (targetNFCID s) v (sent s) (session_log s) (dev s)).

(** A monadic [for] loop threading an accumulator. *)
Fixpoint forM_list {D A : Type} (l : list nat) (body : nat -> A -> M D A) (a : A) : M D A :=
  match l with
  | [] => ret a
  | i :: l' => bind (body i a) (fun a' => forM_list l' body a')
  end.

Definition forM {D A : Type} (start stop : nat) (body : nat -> A -> M D A) (a : A) : M D A :=
  forM_list (seq start (stop - start)) body a.

Section Driver.

Context {D : Type} `{Bus D}.
Local Open Scope drv_scope.

(** [pins.i2cWriteBuffer(ADDRESS, buf)] *)
Definition i2cWriteBuffer (buf : list Z) : M D unit :=
  fun s => (tt, mkState (targetID s) (targetNFCID s) (running s)
                        (sent s ++ [buf])
                        (session_log s ++ [(targetID s, targetNFCID s)])
                        (bus_write buf (dev s))).

(** [pins.i2cReadBuffer(ADDRESS, n)] *)
Definition i2cReadBuffer (n : nat) : M D (list Z) :=
  fun s => let (raw, d) := bus_read n (dev s) in
           (read_buffer n raw,
            mkState (targetID s) (targetNFCID s) (running s) (sent s) (session_log s) d).

Definition ACK_FRAME : list num :=
  [Num 0x01; Num 0x00; Num 0x00; Num 0xFF; Num 0x00; Num 0xFF; Num 0x00].

(** [b != arr[i]] between a buffer byte and an array element. *)
Definition differs (b : Z) (v : num) : bool :=
  match v with
  | Num z => negb (b =? z)
  | NaN => true
  end.

(** The comparison loop of [checkOutput], with its early [return false]. *)
Fixpoint checkOutput_loop (outputFrame : list Z) (arr : list num) (i : nat) : bool :=
  match arr with
  | [] => true
  | v :: arr' =>
      if differs (buf_get outputFrame i) v then false
      else checkOutput_loop outputFrame arr' (S i)
  end.

Definition checkOutput (arr : list num) : M D bool :=
  outputFrame <- i2cReadBuffer (List.length arr) ;;
  ret (checkOutput_loop outputFrame arr 0).

Definition writeBuffer (arr : list num) : M D unit :=
  let inputFrame := toBuffer arr in
  i2cWriteBuffer inputFrame.

Definition readFrame : M D (list Z) :=
  buffer <- i2cReadBuffer 64 ;;
  ret (readFrame_slice buffer).

Definition wakeup_frame : list num :=
  [Num 0x00; Num 0x00; Num 0xFF; Num 0x03; Num 0xFD; Num 0xD4; Num 0x14; Num 0x01;
   Num 0x17; Num 0x00].

Definition wakeupOK : list num :=
  [Num 0x01; Num 0x00; Num 0x00; Num 0xFF; Num 0x02; Num 0xFE; Num 0xD5; Num 0x15;
   Num 0x16].

Definition wakeup : M D unit :=
  i2cWriteBuffer [0] ;;
  writeBuffer wakeup_frame ;;
  validAck <- checkOutput ACK_FRAME ;;
  validWakeupOK <- checkOutput wakeupOK ;;
  if validAck && validWakeupOK then set_running true else ret tt.

Definition listTarget : list num :=
  [Num 0x00; Num 0x00; Num 0xFF; Num 0x04; Num 0xFC; Num 0xD4; Num 0x4A; Num 0x01;
   Num 0x00; Num 0xE1; Num 0x00].

(** The test of [findPassiveTarget] on the response frame. *)
Definition target_seen (outputFrame : list Z) : bool :=
  (buf_get outputFrame 0 =? 0x01) && (buf_get outputFrame 8 =? 0x01).

(** The opening statements of [findPassiveTarget]: the session is emptied. *)
Definition findPassiveTarget_reset : M D unit :=
  set_targetID 0 ;;
  set_targetNFCID [Num 0; Num 0; Num 0; Num 0].

(** The InListPassiveTarget exchange of [findPassiveTarget]: the command is
    written, the acknowledgement is compared (the result is dropped) and the
    response frame is read. *)
Definition inListPassiveTarget : M D (list Z) :=
  writeBuffer listTarget ;;
  _ <- checkOutput ACK_FRAME ;;
  outputFrame <- readFrame ;;
  ret outputFrame.

(** [findPassiveTarget]; the two drivers differ only in the offset at which
    they read the UID ([14] in variant A, [12] in variant B). *)
Definition findPassiveTarget_at (uid_offset : nat) : M D unit :=
  findPassiveTarget_reset ;;
  outputFrame <- inListPassiveTarget ;;
  if target_seen outputFrame then
    set_targetID 1 ;;
    id <- get_targetNFCID ;;
    let id := arr_set NaN id 0 (Num (buf_get outputFrame uid_offset)) in
    let id := arr_set NaN id 1 (Num (buf_get outputFrame (uid_offset + 1))) in
    let id := arr_set NaN id 2 (Num (buf_get outputFrame (uid_offset + 2))) in
    let id := arr_set NaN id 3 (Num (buf_get outputFrame (uid_offset + 3))) in
    set_targetNFCID id
  else ret tt.

End Driver.

(** ** Variant A: Mifare Classic, 16-byte blocks ([grove-pn532.ts]) *)

Module VariantA.

Section Driver.

Context {D : Type} `{Bus D}.
Local Open Scope drv_scope.

Definition targetKey : list num :=
  [Num 0xFF; Num 0xFF; Num 0xFF; Num 0xFF; Num 0xFF; Num 0xFF].

(** The blocks that store text data. *)
Definition dataBlocks : list num :=
  map Num [5; 6; 8; 9; 10; 12; 13; 14; 16; 17; 18; 20; 21; 22].

Definition findPassiveTarget : M D unit := findPassiveTarget_at 14.

Definition authenticate (address : num) : M D bool :=
  targetID <- get_targetID ;;
  targetNFCID <- get_targetNFCID ;;
  let command :=
    concatNumArr [Num 0xD4; Num 0x40; Num targetID; Num 0x60; address]
                 (concatNumArr targetKey targetNFCID) in
  let fullCommand := makeCommand command in
  writeBuffer fullCommand ;;
  _ <- checkOutput ACK_FRAME ;;
  authResponse <- readFrame ;;
  let success := buf_get authResponse 7 =? 0x00 in
  ret success.

Definition read16Bytes (address : num) : M D (list Z) :=
  _ <- authenticate address ;;
  let command := [Num 0xD4; Num 0x40; Num 0x01; Num 0x30; address] in
  let fullCommand := makeCommand command in
  writeBuffer fullCommand ;;
  _ <- checkOutput ACK_FRAME ;;
  outputFrame <- readFrame ;;
  ret outputFrame.

Definition write16Bytes (data : list num) (address : num) : M D unit :=
  _ <- authenticate address ;;
  (* a length other than 16 is only reported *)
  (if negb (Nat.eqb (List.length data) 16) then ret tt else ret tt) ;;
  targetID <- get_targetID ;;
  let command := concatNumArr [Num 0xD4; Num 0x40; Num targetID; Num 0xA0; address] data in
  let fullCommand := makeCommand command in
  writeBuffer fullCommand ;;
  _ <- checkOutput ACK_FRAME ;;
  ret tt.

Definition getNFCID : M D string :=
  findPassiveTarget ;;
  targetID <- get_targetID ;;
  if negb (targetID =? 0) then
    targetNFCID <- get_targetNFCID ;;
    let result :=
      for_upto 4 (fun i result => (result ++ decToHex (arr_get targetNFCID i))%string)
               ""%string in
    ret result
  else ret ""%string.

(** The block contents [writeText] prepares from the (already truncated)
    message: the body of its first loop. *)
Definition writeText_data (message : string) : list (list num) :=
  let blocksNeeded := (inject_Z (Z.of_nat (String.length message)) / 16 + 1)%Q in
  for_upto (iterations 0 blocksNeeded)
    (fun i data =>
       let blockData : list num := [] in
       let len :=
         (inject_Z (Z.of_nat (String.length message)) - (blocksNeeded - 1) * 16)%Q in
       let len := if Qltb (inject_Z (Z.of_nat i)) (blocksNeeded - 1)%Q then 16%Q else len in
       let blockData :=
         for_upto (iterations 0 len)
           (fun j blockData => arr_set NaN blockData j (charCodeAt message (i * 16 + j)))
           blockData in
       let blockData :=
         for_upto (iterations len 16)
           (fun k blockData => arr_set NaN blockData (index_of len + k) (Num 0))
           blockData in
       arr_set [] data i blockData)
    [].

(** The header block: the text length, then zeros. *)
Definition writeText_header (message : string) : list num :=
  for_loop 1 16 (fun k header => arr_set NaN header k (Num 0))
           [Num (Z.of_nat (String.length message))].

Definition writeText (message : string) : M D unit :=
  running <- get_running ;;
  (if negb running then wakeup else ret tt) ;;
  findPassiveTarget ;;
  targetID <- get_targetID ;;
  if targetID =? 1 then
    let maxStringLength := (16 * List.length dataBlocks)%nat in
    let message :=
      if (maxStringLength <? String.length message)%nat
      then substring 0 maxStringLength message
      else message in
    let blocksNeeded := (inject_Z (Z.of_nat (String.length message)) / 16 + 1)%Q in
    let data := writeText_data message in
    let header := writeText_header message in
    write16Bytes header (Num 0x04) ;;
    forM 0 (iterations 0 blocksNeeded)
      (fun j _ => write16Bytes (nth j data []) (arr_get dataBlocks j)) tt
  else ret tt.

Definition readText : M D string :=
  running <- get_running ;;
  (if negb running then wakeup else ret tt) ;;
  findPassiveTarget ;;
  let textMessage := ""%string in
  targetID <- get_targetID ;;
  if targetID =? 1 then
    outputFrame <- read16Bytes (Num 0x04) ;;
    let messageLength := buf_get outputFrame 9 in
    let blocksNeeded := (inject_Z messageLength / 16 + 1)%Q in
    forM 0 (iterations 0 blocksNeeded)
      (fun j textMessage =>
         messageFrame <- read16Bytes (arr_get dataBlocks j) ;;
         let message := slice messageFrame 9 16 in
         let len := (inject_Z messageLength - (blocksNeeded - 1) * 16)%Q in
         let len := if Qltb (inject_Z (Z.of_nat j)) (blocksNeeded - 1)%Q then 16%Q else len in
         ret (for_upto (iterations 0 len)
                (fun i textMessage =>
                   (textMessage ++ fromCharCode (buf_get message i))%string)
                textMessage))
      textMessage
  else ret textMessage.

End Driver.

End VariantA.

(** ** Variant B: 4-byte pages, NDEF text record *)

Module VariantB.

Section Driver.

Context {D : Type} `{Bus D}.
Local Open Scope drv_scope.

Definition findPassiveTarget : M D unit := findPassiveTarget_at 12.

Definition write4Bytes (data : list num) (address : Z) : M D unit :=
  (* a length other than 4 is only reported *)
  (if negb (Nat.eqb (List.length data) 4) then ret tt else ret tt) ;;
  (* an address above 0x28 is only reported (the message ends in Aborting!) *)
  (if address >? 0x28 then ret tt else ret tt) ;;
  targetID <- get_targetID ;;
  let command :=
    concatNumArr [Num 0xD4; Num 0x40; Num targetID; Num 0xA2; Num address] data in
  let fullCommand := makeCommand command in
  writeBuffer fullCommand ;;
  _ <- checkOutput ACK_FRAME ;;
  ret tt.

Definition formatAsNdef : M D unit :=
  running <- get_running ;;
  (if negb running then wakeup else ret tt) ;;
  findPassiveTarget ;;
  targetID <- get_targetID ;;
  if targetID =? 1 then
    let address := 0x04 in
    let page1 := [Num 0x03; Num 0x04; Num 0xD8; Num 0x00] in
    write4Bytes page1 address ;;
    let address := address + 1 in
    let page2 := [Num 0x00; Num 0x00; Num 0xFE; Num 0x00] in
    write4Bytes page2 address ;;
    let address := address + 1 in
    let zeroArr4 := [Num 0x00; Num 0x00; Num 0x00; Num 0x00] in
    (* while (address < 0x28) write4Bytes(zeroArr4, address++) *)
    forM (Z.to_nat address) 0x28
      (fun address _ => write4Bytes zeroArr4 (Z.of_nat address)) tt
  else ret tt.

(** The loop of [writeNDEFText] over the characters: a page is written each
    time four bytes are collected. *)
Definition writeNDEFText_chars (charsToWrite : string) (pageToAdd : list num) (address : Z)
  : M D (list num * Z) :=
  forM 0 (String.length charsToWrite)
    (fun posInString st =>
       let '(pageToAdd, address) := st in
       let pageToAdd :=
         arr_set NaN pageToAdd (List.length pageToAdd) (charCodeAt charsToWrite posInString) in
       if Nat.eqb (List.length pageToAdd) 4 then
         write4Bytes pageToAdd address ;;
         ret ([], address + 1)
       else ret (pageToAdd, address))
    (pageToAdd, address).

(** [while (pageToAdd.length < 4) pageToAdd[pageToAdd.length] = 0x00] *)
Definition pad_page (pageToAdd : list num) : list num :=
  for_loop (List.length pageToAdd) 4
    (fun i pageToAdd => arr_set NaN pageToAdd (List.length pageToAdd) (Num 0x00))
    pageToAdd.

Definition writeNDEFText (charsToWrite : string) : M D unit :=
  running <- get_running ;;
  (if negb running then wakeup else ret tt) ;;
  findPassiveTarget ;;
  targetID <- get_targetID ;;
  if targetID =? 1 then
    formatAsNdef ;;
    let maxStringLength := ((0x29 - 0x04) * 4 - 1)%nat in
    if (maxStringLength <? String.length charsToWrite)%nat then ret tt
    else
      let address := 0x04 in
      let length := Z.of_nat (String.length charsToWrite) in
      let page1 := [Num 0x03; Num (0x07 + length); Num 0xD1; Num 0x01] in
      write4Bytes page1 address ;;
      let address := address + 1 in
      let page2 := [Num (length + 0x03); Num 0x54; Num 0x02; Num 0x64] in
      write4Bytes page2 address ;;
      let address := address + 1 in
      let pageToAdd := [Num 0x65] in
      st <- writeNDEFText_chars charsToWrite pageToAdd address ;;
      let '(pageToAdd, address) := st in
      let pageToAdd := arr_set NaN pageToAdd (List.length pageToAdd) (Num 0xFE) in
      let pageToAdd := pad_page pageToAdd in
      write4Bytes pageToAdd address
  else ret tt.

End Driver.

End VariantB.

(** The search loop of [readNDEFText] over the response to the read of page
    4: the first offset [l] from 9 on, below [outputFrame.length - 2], that
    holds [0x03] with [0x54] five bytes later gives the start offset and the
    length of the text; [(-1, -1)] when there is none.  The result is the
    pair [(startByte, messageLength)]. *)
Fixpoint readNDEFText_scan_loop (outputFrame : list Z) (offsets : list nat) : Z * Z :=
  match offsets with
  | [] => (-1, -1)
  | l :: offsets' =>
      let m := buf_get outputFrame l in
      let n := buf_get outputFrame (l + 5) in
      if (m =? 0x03) && (n =? 0x54) then
        let messageLength :=
          buf_get outputFrame (l + 4) - Z.land (buf_get outputFrame (l + 6)) 0x3F - 1 in
        let startByte := Z.of_nat l + 7 + Z.land (buf_get outputFrame (l + 6)) 0x3F in
        (startByte, messageLength)
      else readNDEFText_scan_loop outputFrame offsets'
  end.

Definition readNDEFText_scan (outputFrame : list Z) : Z * Z :=
  readNDEFText_scan_loop outputFrame (seq 9 (List.length outputFrame - 2 - 9)).

(** ** A simulated reader and card

    The environment the driver talks to, used to run it on concrete inputs:
    a PN532 that acknowledges every command frame and stages its response for
    the following reads, in front of a card that stores what is written to it
    and returns it on reads.  A response is the ready byte [0x01] followed by
    a frame in the format of [makeCommand]. *)

Record pn532 : Type := mkPn532 {
  card_present : bool;
  card_uid : list Z;
  card_mem : list (Z * list Z);
  staged : list (list Z)
}.

Definition ack_bytes : list Z := [0x01; 0x00; 0x00; 0xFF; 0x00; 0xFF; 0x00].

Definition response (payload : list Z) : list Z :=
  0x01 :: toBuffer (makeCommand (map Num payload)).

Fixpoint card_lookup (mem : list (Z * list Z)) (address : Z) : list Z :=
  match mem with
  | [] => repeat 0 16
  | (a, d) :: mem' => if a =? address then d else card_lookup mem' address
  end.

Definition stage (d : pn532) (frames : list (list Z)) : pn532 :=
  mkPn532 (card_present d) (card_uid d) (card_mem d) frames.

Definition store (d : pn532) (address : Z) (data : list Z) : pn532 :=
  mkPn532 (card_present d) (card_uid d) ((address, data) :: card_mem d) (staged d).

Definition pn532_write (frame : list Z) (d : pn532) : pn532 :=
  match skipn 5 frame with
  | 0xD4 :: 0x14 :: _ => stage d [ack_bytes; response [0xD5; 0x15]]
  | 0xD4 :: 0x4A :: _ =>
      if card_present d
      then stage d [ack_bytes;
                    response ([0xD5; 0x4B; 0x01; 0x01; 0x00; 0x04; 0x08; 0x04] ++ card_uid d)]
      else stage d [ack_bytes]
  | 0xD4 :: 0x40 :: _ :: 0x60 :: _ => stage d [ack_bytes; response [0xD5; 0x41; 0x00]]
  | 0xD4 :: 0x40 :: _ :: 0x30 :: address :: _ =>
      stage d [ack_bytes; response ([0xD5; 0x41; 0x00] ++ card_lookup (card_mem d) address)]
  | 0xD4 :: 0x40 :: _ :: 0xA0 :: address :: rest =>
      stage (store d address (firstn 16 rest)) [ack_bytes; response [0xD5; 0x41; 0x00]]
  | 0xD4 :: 0x40 :: _ :: 0xA2 :: address :: rest =>
      stage (store d address (firstn 4 rest)) [ack_bytes; response [0xD5; 0x41; 0x00]]
  | _ => d
  end.

Definition pn532_read (n : nat) (d : pn532) : list Z * pn532 :=
  match staged d with
  | [] => ([], d)
  | f :: rest => (f, stage d rest)
  end.

#[export] Instance pn532_bus : Bus pn532 := {
  bus_write := pn532_write;
  bus_read := pn532_read
}.

(** A bus on which nothing ever answers: every read is padded with zeros. *)
#[export] Instance silent_bus : Bus unit := {
  bus_write := fun _ d => d;
  bus_read := fun _ d => ([], d)
}.

(** A blank card with UID [uid] in front of the reader, and no card at all. *)
Definition with_card (uid : list Z) : pn532 := mkPn532 true uid [] [].
Definition no_card : pn532 := mkPn532 false [0; 0; 0; 0] [] [].

(** The driver as loaded: no target, not running, nothing sent yet. *)
Definition initial {D : Type} (d : D) : state D :=
  mkState 0 [Num 0; Num 0; Num 0; Num 0] false [] [] d.

(** ** Reading the bus log *)

(** A buffer written to the bus is a Mifare write targeted at [a]: an
    InDataExchange frame ([D4 40 tg]) whose command byte is [cmd] ([0xA0]
    writes a 16-byte block, [0xA2] a 4-byte page) and whose address byte is
    [a]. *)
Definition is_write_cmd (cmd a : Z) (frame : list Z) : bool :=
  match skipn 5 frame with
  | 0xD4 :: 0x40 :: _ :: c :: a' :: _ => (c =? cmd) && (a' =? a)
  | _ => false
  end.

Definition is_write (cmd : Z) (frame : list Z) : bool :=
  match skipn 5 frame with
  | 0xD4 :: 0x40 :: _ :: c :: _ :: _ => c =? cmd
  | _ => false
  end.

(** The addresses of the writes in a bus log, in order. *)
Definition written_addresses (cmd : Z) (log : list (list Z)) : list Z :=
  flat_map (fun frame =>
              if is_write cmd frame then [buf_get frame 9] else []) log.

Definition string_of_bytes (l : list Z) : string :=
  fold_right (fun b s => String (ascii_of_nat (Z.to_nat b)) s) EmptyString l.


(** ** Vocabulary of the properties *)

Definition byte_sum (l : list Z) : Z := fold_right Z.add 0 l.

Definition is_byte (b : Z) : Prop := 0 <= b < 256.

(** The sum accumulated by [makeCommand]. *)
Definition command_sum (command : list num) : num := fold_left nadd command (Num 0).

(** The bytes [writeBuffer] puts on the bus for the command [payload]. *)
Definition wire (payload : list Z) : list Z := toBuffer (makeCommand (map Num payload)).

(** [s'] differs from [s] only by the device state and by [frames] written
    to the bus. *)
Definition only_sends {D : Type} (s s' : state D) (frames : list (list Z)) : Prop :=
  targetID s' = targetID s
  /\ targetNFCID s' = targetNFCID s
  /\ running s' = running s
  /\ sent s' = sent s ++ frames.

(** Between [s] and [s'] exactly one buffer was written to the bus, [frame],
    and at the moment of the write [targetID] was [tid] and [targetNFCID]
    was [uid]. *)
Definition issued_with {D : Type} (s s' : state D) (frame : list Z)
           (tid : Z) (uid : list num) : Prop :=
  sent s' = sent s ++ [frame]
  /\ session_log s' = session_log s ++ [(tid, uid)].

(** The empty session. *)
Definition no_target {D : Type} (s : state D) : Prop :=
  targetID s = 0 /\ targetNFCID s = [Num 0; Num 0; Num 0; Num 0].

(** The response frame that a call of [findPassiveTarget] from [s] reads. *)
Definition discovery_response {D : Type} `{Bus D} (s : state D) : list Z :=
  eval inListPassiveTarget (exec findPassiveTarget_reset s).

(** Both sentinel bytes of a discovery response are present. *)
Definition shows_target (outputFrame : list Z) : Prop :=
  buf_get outputFrame 0 = 0x01 /\ buf_get outputFrame 8 = 0x01.

(** The command frames of variant A, as they appear on the bus. *)
Definition auth_frame (tid : Z) (uid : list num) (address : num) : list Z :=
  toBuffer (makeCommand
              (concatNumArr [Num 0xD4; Num 0x40; Num tid; Num 0x60; address]
                            (concatNumArr VariantA.targetKey uid))).

Definition read_frame (address : num) : list Z :=
  toBuffer (makeCommand [Num 0xD4; Num 0x40; Num 0x01; Num 0x30; address]).

Definition write_frame (tid : Z) (address : num) (data : list num) : list Z :=
  toBuffer (makeCommand
              (concatNumArr [Num 0xD4; Num 0x40; Num tid; Num 0xA0; address] data)).

(** The page write of variant B, as it appears on the bus. *)
Definition page_frame (tid : Z) (address : Z) (data : list num) : list Z :=
  toBuffer (makeCommand
              (concatNumArr [Num 0xD4; Num 0x40; Num tid; Num 0xA2; Num address] data)).

(** The addresses of the page writes found in a bus log. *)
Definition page_writes (log : list (list Z)) : list Z := written_addresses 0xA2 log.

(** The addresses of the block writes found in a bus log. *)
Definition block_writes (log : list (list Z)) : list Z := written_addresses 0xA0 log.

(** The statements every public operation of variant B starts with. *)
Definition open_session {D : Type} `{Bus D} : M D unit :=
  bind get_running (fun running =>
  bind (if negb running then wakeup else ret tt) (fun _ =>
  VariantB.findPassiveTarget)).

(** A frame is not a block write targeted at a reserved address (a sector
    trailer, [a mod 4 = 3]). *)
Definition spares_trailers (frame : list Z) : Prop :=
  forall a : Z, a mod 4 = 3 -> is_write_cmd 0xA0 a frame = false.

(** Running [m] keeps every buffer of the bus log within [P]. *)
Definition keeps {D A : Type} (P : list Z -> Prop) (m : M D A) : Prop :=
  forall s : state D, Forall P (sent s) -> Forall P (sent (exec m s)).

(** Write-then-read on the simulated card, a message of [n] letters, and a
    string padded with NUL characters to a whole number of 16-byte blocks. *)
Definition readback (message : string) : string :=
  eval VariantA.readText
       (exec (VariantA.writeText message) (initial (with_card [1; 2; 3; 4]))).

Definition letters (n : nat) : string :=
  string_of_bytes (map (fun i => 0x41 + Z.of_nat (i mod 26)) (seq 0 n)).

Definition padded (s : string) : string :=
  (s ++ string_of_bytes (repeat 0 ((16 - String.length s mod 16) mod 16)))%string.

(** Inputs of the examples. *)
Definition read_block4 : list Z := [0xD4; 0x40; 0x01; 0x30; 0x04].
Definition text225 : string := string_of_bytes (map Z.of_nat (seq 1 225)).
Definition nul15 : string := string_of_bytes (repeat 0 15).
Definition text224 : string := string_of_bytes (repeat 0x41 224).
Definition text147 : string := string_of_bytes (repeat 0x41 147).
Definition text148 : string := string_of_bytes (repeat 0x41 148).
Definition card1234 : state pn532 := initial (with_card [1; 2; 3; 4]).
Definition card_uid16 : state pn532 := initial (with_card [0x10; 0x20; 0x30; 0x40]).
Definition stale_session : state pn532 :=
  mkState 1 [Num 0xDE; Num 0xAD; Num 0xBE; Num 0xEF] true [] [] no_card.
Definition after_write_A : state pn532 := exec (VariantA.writeText "A") card1234.
Definition after_write_224 : state pn532 := exec (VariantA.writeText text224) card1234.
Definition after_ndef_147 : state pn532 := exec (VariantB.writeNDEFText text147) card1234.
Definition after_ndef_148 : state pn532 := exec (VariantB.writeNDEFText text148) card1234.

(** Running [m] leaves the observation [f] of the state as it was. *)
Definition unchanged {D A X : Type} (f : state D -> X) (m : M D A) : Prop :=
  forall s : state D, f (exec m s) = f s.

(** The block writes of a state's bus log. *)
Definition block_log {D : Type} (s : state D) : list Z := block_writes (sent s).

(** The statements [writeText] and [readText] start with. *)
Definition open_sessionA {D : Type} `{Bus D} : M D unit :=
  bind get_running (fun running =>
  bind (if negb running then wakeup else ret tt) (fun _ =>
  VariantA.findPassiveTarget)).

(** The state in which [authenticate] reads its response. *)
Definition before_auth_response {D : Type} `{Bus D} (address : num) (s : state D)
  : state D :=
  exec (checkOutput ACK_FRAME)
       (exec (writeBuffer
                (makeCommand
                   (concatNumArr
                      [Num 0xD4; Num 0x40; Num (targetID s); Num 0x60; address]
                      (concatNumArr VariantA.targetKey (targetNFCID s)))))
             s).

(** The contents [writeText] prepares for its block [i]: sixteen character
    codes while text is left, sixteen zeros afterwards. *)
Definition text_block (message : string) (i : nat) : list num :=
  if (16 * i <? String.length message)%nat
  then map (fun j => charCodeAt message (i * 16 + j)) (seq 0 16)
  else repeat (Num 0) 16.

(** The text [writeText] stores: the message cut to 224 characters. *)
Definition stored_text (message : string) : string :=
  if (224 <? String.length message)%nat then substring 0 224 message else message.

(** The authentication and the write that [write16Bytes] sends. *)
Definition write_exchange (tid : Z) (uid : list num) (address : num) (data : list num)
  : list (list Z) :=
  [auth_frame tid uid address; write_frame tid address data].

(** The authentication and the read that [read16Bytes] sends. *)
Definition read_exchange (tid : Z) (uid : list num) (address : num) : list (list Z) :=
  [auth_frame tid uid address; read_frame address].

(** The number of characters [readText] takes from block [j] when the header
    announces [messageLength] characters. *)
Definition taken_from_block (messageLength : Z) (j : nat) : nat :=
  let blocksNeeded := (inject_Z messageLength / 16 + 1)%Q in
  let len := (inject_Z messageLength - (blocksNeeded - 1) * 16)%Q in
  let len := if Qltb (inject_Z (Z.of_nat j)) (blocksNeeded - 1)%Q then 16%Q else len in
  iterations 0 len.

(** The loop of [writeNDEFText] over the characters as a function of their
    codes: the pages it writes, then the page under construction and the
    next address. *)
Fixpoint collect_pages (pageToAdd : list num) (address : Z) (codes : list num)
  : list (Z * list num) * (list num * Z) :=
  match codes with
  | [] => ([], (pageToAdd, address))
  | c :: codes' =>
      let pageToAdd := pageToAdd ++ [c] in
      if Nat.eqb (List.length pageToAdd) 4
      then let (pages, st) := collect_pages [] (address + 1) codes' in
           ((address, pageToAdd) :: pages, st)
      else collect_pages pageToAdd address codes'
  end.

(** The bytes of an NDEF text record after its two header pages: the last
    letter of the language code, the text, the terminator and zeros. *)
Definition ndef_payload (charsToWrite : string) : list num :=
  Num 0x65 :: map (charCodeAt charsToWrite) (seq 0 (String.length charsToWrite))
  ++ [Num 0xFE; Num 0x00; Num 0x00; Num 0x00].

(** Page [i] of a byte sequence cut into pages of four. *)
Definition page_of (bytes : list num) (i : nat) : list num :=
  firstn 4 (skipn (4 * i) bytes).

(** The page writes of an NDEF text record, as they appear on the bus. *)
Definition ndef_record_frames (tid : Z) (charsToWrite : string) : list (list Z) :=
  let n := String.length charsToWrite in
  [page_frame tid 0x04 [Num 0x03; Num (0x07 + Z.of_nat n); Num 0xD1; Num 0x01];
   page_frame tid 0x05 [Num (Z.of_nat n + 0x03); Num 0x54; Num 0x02; Num 0x64]]
  ++ map (fun i => page_frame tid (6 + Z.of_nat i) (page_of (ndef_payload charsToWrite) i))
         (seq 0 ((n + 5) / 4)).

(** The page writes of [formatAsNdef], as they appear on the bus. *)
Definition format_frames (tid : Z) : list (list Z) :=
  page_frame tid 0x04 [Num 0x03; Num 0x04; Num 0xD8; Num 0x00]
  :: page_frame tid 0x05 [Num 0x00; Num 0x00; Num 0xFE; Num 0x00]
  :: map (fun a => page_frame tid (Z.of_nat a) [Num 0x00; Num 0x00; Num 0x00; Num 0x00])
         (seq 6 34).

(** Reading a string of hexadecimal digits back as a number: the value of a
    character is taken from its code, [0] to [9] and [A] to [F]. *)
Definition hex_digit (c : ascii) : option Z :=
  let code := Z.of_nat (nat_of_ascii c) in
  if (48 <=? code) && (code <=? 57) then Some (code - 48)
  else if (65 <=? code) && (code <=? 70) then Some (code - 55)
  else None.

Fixpoint hex_parse (s : string) (acc : Z) : option Z :=
  match s with
  | EmptyString => Some acc
  | String c s' =>
      match hex_digit c with
      | Some d => hex_parse s' (acc * 16 + d)
      | None => None
      end
  end.

Definition hex_value (s : string) : option Z := hex_parse s 0.

(** The two header pages of an NDEF text record of [n] characters, as bytes. *)
Definition ndef_header (n : Z) : list Z :=
  toBuffer [Num 0x03; Num (0x07 + n); Num 0xD1; Num 0x01;
            Num (n + 0x03); Num 0x54; Num 0x02; Num 0x64].

(** * Properties *)

(** ** Arrays built by index assignment *)

Lemma arr_set_end {A : Type} (hole : A) (arr : list A) (v : A) :
  arr_set hole arr (List.length arr) v = arr ++ [v].
Proof.
  induction arr as [|x t IH]; simpl; [reflexivity|].
  now rewrite IH.
Qed.

Lemma fill_from {A : Type} (hole : A) (f : nat -> A) (k : nat) :
  forall (pre : list A) (off : nat),
    List.length pre = off ->
    fold_left (fun acc i => arr_set hole acc (off + i) (f i)) (seq 0 k) pre
    = pre ++ map f (seq 0 k).
Proof.
  induction k as [|k IH]; intros pre off Hlen.
  - simpl. now rewrite app_nil_r.
  - rewrite seq_S, fold_left_app, map_app. simpl.
    rewrite (IH pre off Hlen).
    replace (off + k)%nat with (List.length (pre ++ map f (seq 0 k))).
    + rewrite arr_set_end. now rewrite <- app_assoc.
    + rewrite length_app, length_map, length_seq. lia.
Qed.

Lemma fill_from_nil {A : Type} (hole : A) (f : nat -> A) (k : nat) :
  fold_left (fun acc i => arr_set hole acc i (f i)) (seq 0 k) [] = map f (seq 0 k).
Proof.
  exact (fill_from hole f k [] 0 eq_refl).
Qed.

Lemma nth_indices {A : Type} (d : A) (l : list A) :
  map (fun i => nth i l d) (seq 0 (List.length l)) = l.
Proof.
  induction l as [|x t IH]; simpl; [reflexivity|].
  f_equal. rewrite <- seq_shift, map_map. exact IH.
Qed.

Lemma fold_indices {A S : Type} (g : S -> A -> S) (d : A) (l : list A) (a : S) :
  fold_left (fun acc i => g acc (nth i l d)) (seq 0 (List.length l)) a = fold_left g l a.
Proof.
  rewrite <- (nth_indices d l) at 2.
  generalize (seq 0 (List.length l)) a.
  intros idx. induction idx as [|i idx IH]; intros a0; simpl; [reflexivity|].
  apply IH.
Qed.

Lemma concatNumArr_app (firstArr secondArr : list num) :
  concatNumArr firstArr secondArr = firstArr ++ secondArr.
Proof.
  unfold concatNumArr, for_upto, for_loop, arr_get.
  rewrite !Nat.sub_0_r.
  rewrite (fill_from_nil NaN (fun i => nth i firstArr NaN) (List.length firstArr)).
  rewrite nth_indices.
  rewrite (fill_from NaN (fun i => nth i secondArr NaN) (List.length secondArr)
                     firstArr (List.length firstArr) eq_refl).
  now rewrite nth_indices.
Qed.

(** ** Loops with a fractional bound, and the loop of [decToHex] *)

(** [iterations start bound] counts the turns of
    [for (let i = start; i < bound; i++)]: turn [k] runs exactly when
    [start + k < bound]. *)
Lemma iterations_spec (start bound : Q) (k : nat) :
  (k < iterations start bound)%nat <-> (start + inject_Z (Z.of_nat k) < bound)%Q.
Proof.
  unfold iterations.
  assert (Hq : (start + inject_Z (Z.of_nat k) < bound)%Q
               <-> (inject_Z (Z.of_nat k) < bound - start)%Q) by (split; intros; lra).
  rewrite Hq. set (q := (bound - start)%Q).
  split.
  - intros Hk.
    assert (Hz : (Z.of_nat k <= Qceiling q - 1)%Z) by lia.
    rewrite Zle_Qle in Hz.
    eapply Qle_lt_trans; [exact Hz|]. apply Qceiling_lt.
  - intros Hk.
    assert (Hz : (inject_Z (Z.of_nat k) < inject_Z (Qceiling q))%Q).
    { eapply Qlt_le_trans; [exact Hk|]. apply Qle_ceiling. }
    rewrite <- Zlt_Qlt in Hz. lia.
Qed.

Lemma decToHex_loop_total (fuel : nat) :
  forall (nrCopy : Z) (result : string),
    (Z.to_nat nrCopy <= fuel)%nat ->
    exists r, decToHex_loop fuel nrCopy result = Some r.
Proof.
  induction fuel as [|fuel IH]; intros nrCopy result Hfuel.
  - simpl. destruct (nrCopy >? 0) eqn:E; [|eauto].
    apply Z.gtb_lt in E. lia.
  - simpl. destruct (nrCopy >? 0) eqn:E; [|eauto].
    apply Z.gtb_lt in E. apply IH.
    rewrite Z.rem_mod_nonneg by lia.
    assert (Hdiv : (nrCopy - nrCopy mod 16) / 16 = nrCopy / 16).
    { pose proof (Z.div_mod nrCopy 16 ltac:(lia)) as Hd.
      replace (nrCopy - nrCopy mod 16) with (nrCopy / 16 * 16) by lia.
      apply Z.div_mul. lia. }
    rewrite Hdiv.
    pose proof (Z.div_lt nrCopy 16 ltac:(lia) ltac:(lia)).
    pose proof (Z.div_pos nrCopy 16 ltac:(lia) ltac:(lia)).
    lia.
Qed.

(** [decToHex] never runs out of fuel: its loop terminates on every number. *)
Lemma decToHex_fuel_enough (decNr : num) :
  decToHex_fuel (match decNr with Num z => Z.to_nat z | NaN => O end) decNr
  = Some (decToHex decNr).
Proof.
  unfold decToHex. destruct decNr as [z|]; [|reflexivity].
  unfold decToHex_fuel.
  destruct (z =? 0); [reflexivity|].
  destruct (decToHex_loop_total (Z.to_nat z) z "" (le_n _)) as [r Hr].
  rewrite Hr. reflexivity.
Qed.

(** Every byte but 16 is printed with exactly two characters. *)
Lemma decToHex_byte_length (b : Z) :
  is_byte b -> b <> 16 -> String.length (decToHex (Num b)) = 2%nat.
Proof.
  intros Hb H16.
  assert (Hall : forallb (fun n => Nat.eqb n 16
                                   || Nat.eqb (String.length (decToHex (Num (Z.of_nat n)))) 2)
                         (seq 0 256) = true) by (vm_compute; reflexivity).
  rewrite forallb_forall in Hall.
  specialize (Hall (Z.to_nat b)).
  unfold is_byte in Hb.
  rewrite Z2Nat.id in Hall by lia.
  assert (Hin : In (Z.to_nat b) (seq 0 256)) by (apply in_seq; lia).
  apply Hall in Hin. apply orb_true_iff in Hin.
  destruct Hin as [Heq|Heq]; apply Nat.eqb_eq in Heq; [lia|exact Heq].
Qed.

Lemma string_length_append (s1 s2 : string) :
  String.length (s1 ++ s2) = (String.length s1 + String.length s2)%nat.
Proof.
  induction s1 as [|c s1 IH]; simpl; [reflexivity|]. now rewrite IH.
Qed.

Lemma Forall_firstn_bytes (n : nat) (l : list Z) :
  Forall is_byte l -> Forall is_byte (firstn n l).
Proof.
  intros Hl. revert n.
  induction Hl as [|b l Hb _ IH]; intros [|n]; simpl; constructor; auto.
Qed.

Lemma read_buffer_bytes (n : nat) (raw : list Z) : Forall is_byte (read_buffer n raw).
Proof.
  unfold read_buffer. apply Forall_firstn_bytes. apply Forall_app. split.
  - apply Forall_map. apply Forall_forall. intros b _.
    unfold is_byte. apply Z.mod_pos_bound. lia.
  - apply Forall_forall. intros b Hin. apply repeat_spec in Hin. subst b.
    unfold is_byte. lia.
Qed.

Lemma readFrame_slice_bytes (buffer : list Z) :
  Forall is_byte buffer -> Forall is_byte (readFrame_slice buffer).
Proof.
  intros Hb. unfold readFrame_slice, slice. now apply Forall_firstn_bytes.
Qed.

Lemma buf_get_byte (buf : list Z) (i : nat) :
  Forall is_byte buf -> is_byte (buf_get buf i).
Proof.
  intros Hb. unfold buf_get.
  destruct (Nat.lt_ge_cases i (List.length buf)) as [Hi|Hi].
  - rewrite Forall_forall in Hb. apply Hb. now apply nth_In.
  - rewrite nth_overflow by exact Hi. unfold is_byte. lia.
Qed.

(** ** The frame codec *)

Lemma makeCommand_layout (command : list num) :
  makeCommand command
  = [Num 0x00; Num 0x00; Num 0xFF; Num (Z.of_nat (List.length command));
     Num (0x100 - Z.rem (Z.of_nat (List.length command)) 0x100)]
    ++ command
    ++ [nsub (Num 0x100) (nrem (command_sum command) (Num 0x100)); Num 0x00].
Proof.
  unfold makeCommand, command_sum, for_upto, for_loop, arr_get.
  rewrite !concatNumArr_app, Nat.sub_0_r, fold_indices.
  now rewrite <- app_assoc.
Qed.

Lemma command_sum_bytes (payload : list Z) (a : Z) :
  fold_left nadd (map Num payload) (Num a) = Num (a + byte_sum payload).
Proof.
  revert a. induction payload as [|b t IH]; intros a; simpl.
  - now rewrite Z.add_0_r.
  - rewrite IH. f_equal. lia.
Qed.

Lemma byte_sum_nonneg (payload : list Z) :
  Forall is_byte payload -> 0 <= byte_sum payload.
Proof.
  induction 1 as [|b t Hb _ IH]; simpl; [lia|]. unfold is_byte in Hb. lia.
Qed.

Lemma toBuffer_bytes (payload : list Z) :
  Forall is_byte payload -> toBuffer (map Num payload) = payload.
Proof.
  unfold toBuffer.
  induction 1 as [|b t Hb _ IH]; simpl; [reflexivity|].
  rewrite IH. f_equal.
  apply Z.mod_small. exact Hb.
Qed.

Lemma wire_layout (payload : list Z) :
  Forall is_byte payload ->
  wire payload
  = [0x00; 0x00; 0xFF; Z.of_nat (List.length payload) mod 256;
     (0x100 - Z.of_nat (List.length payload)) mod 0x100]
    ++ payload
    ++ [(0x100 - byte_sum payload mod 0x100) mod 0x100; 0x00].
Proof.
  intros Hb. unfold wire. rewrite makeCommand_layout.
  unfold toBuffer. rewrite !map_app. fold (toBuffer (map Num payload)).
  rewrite (toBuffer_bytes payload Hb).
  unfold command_sum. rewrite command_sum_bytes, length_map.
  pose proof (byte_sum_nonneg payload Hb) as Hs.
  cbn [map nrem nsub to_uint8 app].
  change (0x100 =? 0) with false. cbv iota.
  cbn [to_uint8].
  rewrite !Z.rem_mod_nonneg by lia.
  rewrite Zminus_mod_idemp_r.
  reflexivity.
Qed.

Lemma nth_after {A : Type} (d : A) (pre l post : list A) (k : nat) :
  k = (List.length pre + List.length l)%nat ->
  nth k (pre ++ l ++ post) d = nth 0 post d.
Proof.
  intros ->.
  rewrite app_nth2 by lia.
  rewrite app_nth2 by lia.
  f_equal. lia.
Qed.

Lemma slice_middle (pre l post : list Z) :
  slice (pre ++ l ++ post) (List.length pre) (List.length l) = l.
Proof.
  unfold slice.
  rewrite skipn_app, Nat.sub_diag, skipn_all. simpl.
  rewrite firstn_app, Nat.sub_diag, firstn_all. simpl.
  apply app_nil_r.
Qed.

Lemma firstn_zeros (k n : nat) :
  (k <= n)%nat -> firstn k (repeat 0 n) = repeat 0 k.
Proof.
  revert n. induction k as [|k IH]; intros n Hk; [reflexivity|].
  destruct n as [|n]; [lia|]. simpl. f_equal. apply IH. lia.
Qed.

Lemma read_buffer_short (n : nat) (raw : list Z) :
  Forall is_byte raw -> (List.length raw <= n)%nat ->
  read_buffer n raw = raw ++ repeat 0 (n - List.length raw).
Proof.
  intros Hb Hn. unfold read_buffer.
  assert (map (fun b => b mod 256) raw = raw) as ->.
  { clear Hn. induction Hb as [|b t Hb _ IH]; simpl; [reflexivity|].
    rewrite IH. f_equal. apply Z.mod_small. exact Hb. }
  rewrite firstn_app.
  rewrite firstn_all2 by lia.
  f_equal.
  apply firstn_zeros. lia.
Qed.

Lemma wire_is_bytes (payload : list Z) :
  Forall is_byte payload -> Forall is_byte (wire payload).
Proof.
  intros Hb. rewrite (wire_layout payload Hb).
  repeat (apply Forall_cons; [unfold is_byte; try lia; apply Z.mod_pos_bound; lia|]).
  apply Forall_app. split; [exact Hb|].
  repeat (apply Forall_cons; [unfold is_byte; try lia; apply Z.mod_pos_bound; lia|]).
  constructor.
Qed.

(** C2, as stated, fails: the data checksum of the read-block-4 command is not
    [0xC7], so the encoded frame is not [00 00 FF 05 FB D4 40 01 30 04 C7 00]. *)
Lemma read_block4_checksum_is_not_0xC7 :
  toBuffer (makeCommand (map Num [0xD4; 0x40; 0x01; 0x30; 0x04]))
  <> [0x00; 0x00; 0xFF; 0x05; 0xFB; 0xD4; 0x40; 0x01; 0x30; 0x04; 0xC7; 0x00].
Proof.
  vm_compute. intros Heq. discriminate Heq.
Qed.

(** C2 (amended): encoding the payload [D4 40 01 30 04] produces exactly the
    frame [00 00 FF 05 FB D4 40 01 30 04 B7 00]: the length checksum is [0xFB]
    and the data checksum is [0xB7], which is [0x100] minus the payload sum
    [0x149] modulo [0x100]. *)
Theorem read_block4_frame :
  makeCommand (map Num [0xD4; 0x40; 0x01; 0x30; 0x04])
  = map Num [0x00; 0x00; 0xFF; 0x05; 0xFB; 0xD4; 0x40; 0x01; 0x30; 0x04; 0xB7; 0x00]
  /\ toBuffer (makeCommand (map Num [0xD4; 0x40; 0x01; 0x30; 0x04]))
     = [0x00; 0x00; 0xFF; 0x05; 0xFB; 0xD4; 0x40; 0x01; 0x30; 0x04; 0xB7; 0x00]
  /\ byte_sum [0xD4; 0x40; 0x01; 0x30; 0x04] = 0x149
  /\ 0x100 - 0x149 mod 0x100 = 0xB7.
Proof.
  repeat split; reflexivity.
Qed.

(** C3, as stated, fails: for the empty payload the array returned by
    [makeCommand] holds [0x100] as length checksum and as data checksum, which
    is neither [(0x100 - 0) mod 0x100 = 0] nor a single byte. *)
Lemma empty_command_checksums_are_256 :
  arr_get (makeCommand []) 4 = Num 0x100
  /\ arr_get (makeCommand []) 5 = Num 0x100
  /\ arr_get (makeCommand []) 4 <> Num ((0x100 - 0) mod 0x100)
  /\ arr_get (makeCommand []) 5 <> Num ((0x100 - byte_sum [] mod 0x100) mod 0x100)
  /\ ~ is_byte 0x100.
Proof.
  repeat split; try reflexivity;
    try (vm_compute; intros Heq; discriminate Heq).
  unfold is_byte. lia.
Qed.

(** C3 (amended): for every byte payload, the array returned by [makeCommand]
    holds [0x100 - (length mod 0x100)] and [0x100 - (sum mod 0x100)], both
    between 1 and [0x100]; the bytes that [writeBuffer] stores from them equal
    [(0x100 - length) mod 0x100] and [(0x100 - sum mod 0x100) mod 0x100] and
    lie in 0..255. *)
Theorem makeCommand_checksums (payload : list Z) :
  Forall is_byte payload ->
  let n := List.length payload in
  let fullCommand := makeCommand (map Num payload) in
  let frame := toBuffer fullCommand in
  arr_get fullCommand 4 = Num (0x100 - Z.of_nat n mod 0x100)
  /\ arr_get fullCommand (5 + n) = Num (0x100 - byte_sum payload mod 0x100)
  /\ 1 <= 0x100 - Z.of_nat n mod 0x100 <= 0x100
  /\ 1 <= 0x100 - byte_sum payload mod 0x100 <= 0x100
  /\ buf_get frame 4 = (0x100 - Z.of_nat n) mod 0x100
  /\ buf_get frame (5 + n) = (0x100 - byte_sum payload mod 0x100) mod 0x100
  /\ is_byte (buf_get frame 4)
  /\ is_byte (buf_get frame (5 + n)).
Proof.
  intros Hb n fullCommand frame.
  pose proof (byte_sum_nonneg payload Hb) as Hs.
  pose proof (Z.mod_pos_bound (Z.of_nat n) 0x100 ltac:(lia)) as Hn.
  pose proof (Z.mod_pos_bound (byte_sum payload) 0x100 ltac:(lia)) as Hm.
  assert (Hframe4 : buf_get frame 4 = (0x100 - Z.of_nat n) mod 0x100).
  { unfold frame, fullCommand. fold (wire payload).
    rewrite (wire_layout payload Hb). reflexivity. }
  assert (Hframe5 : buf_get frame (5 + n)
                    = (0x100 - byte_sum payload mod 0x100) mod 0x100).
  { unfold frame, fullCommand. fold (wire payload).
    rewrite (wire_layout payload Hb). unfold buf_get.
    rewrite (nth_after 0 [_; _; _; _; _] payload _ (5 + n)) by reflexivity.
    reflexivity. }
  split; [|split; [|split; [lia|split; [lia|split;
    [exact Hframe4|split; [exact Hframe5|split]]]]]].
  - unfold fullCommand, arr_get. rewrite makeCommand_layout, length_map.
    cbn [app nth]. rewrite Z.rem_mod_nonneg by lia. reflexivity.
  - unfold fullCommand, arr_get. rewrite makeCommand_layout.
    rewrite (nth_after NaN [_; _; _; _; _] (map Num payload) _ (5 + n))
      by (rewrite length_map; reflexivity).
    unfold command_sum. rewrite command_sum_bytes.
    cbn [nth nrem nsub]. change (0x100 =? 0) with false. cbv iota.
    rewrite Z.rem_mod_nonneg by lia. reflexivity.
  - rewrite Hframe4. apply Z.mod_pos_bound. lia.
  - rewrite Hframe5. apply Z.mod_pos_bound. lia.
Qed.

Lemma makeCommand_checksums_witness :
  Forall is_byte [0xD4; 0x40; 0x01; 0xA0; 0x05; 0x46]
  /\ buf_get (toBuffer (makeCommand (map Num [0xD4; 0x40; 0x01; 0xA0; 0x05; 0x46]))) 11 = 0.
Proof.
  assert (Hb : Forall is_byte [0xD4; 0x40; 0x01; 0xA0; 0x05; 0x46]).
  { repeat constructor; unfold is_byte; lia. }
  split; [exact Hb|].
  pose proof (makeCommand_checksums [0xD4; 0x40; 0x01; 0xA0; 0x05; 0x46] Hb) as Hc.
  cbv zeta in Hc.
  destruct Hc as (_ & _ & _ & _ & _ & H6 & _).
  exact H6.
Defined.

Lemma checksum_cancels (a : Z) : (a + (0x100 - a mod 0x100) mod 0x100) mod 0x100 = 0.
Proof.
  rewrite Z.add_mod_idemp_r by lia.
  pose proof (Z.div_mod a 0x100 ltac:(lia)) as Hd.
  replace (a + (0x100 - a mod 0x100)) with ((a / 0x100 + 1) * 0x100) by lia.
  apply Z.mod_mul. lia.
Qed.

(** C1, as stated, fails: [readFrame] applied to the bytes of an encoded
    command takes its length from offset 4, where a command carries the length
    checksum ([0xFB], not 5), reports the frame because its first byte is not
    the ready byte [0x01], and the region it would take for the data is not
    the payload. *)
Lemma readFrame_of_encoded_command :
  start_marker_ok (readFrame_slice (read_buffer 64 (wire read_block4))) = false
  /\ buf_get (readFrame_slice (read_buffer 64 (wire read_block4))) 4 = 0xFB
  /\ List.length (readFrame_slice (read_buffer 64 (wire read_block4))) = 64%nat
  /\ readFrame_slice (read_buffer 64 (wire read_block4)) <> wire read_block4
  /\ slice (readFrame_slice (read_buffer 64 (wire read_block4))) 6
           (List.length read_block4) <> read_block4
  /\ slice (readFrame_slice (read_buffer 64 (wire read_block4))) 6 0xFB <> read_block4.
Proof.
  vm_compute.
  repeat split; try (intros Heq; discriminate Heq).
Qed.

(** C1 (amended): for every byte payload of length 0 to 255, the frame that
    is written to the bus carries the payload unchanged at offsets 5.., its
    length byte and length checksum add up to 0 modulo 256, and so do the
    payload sum and the data checksum.  [readFrame] itself checks no checksum
    and expects the ready byte [0x01] the device puts before a frame: on
    [0x01] followed by the encoded frame, for a payload of at most 56 bytes
    (the read is 64 bytes long), it returns exactly these bytes, they pass its
    start test, and the payload sits at offsets 6... *)
Theorem frame_roundtrip (payload : list Z) :
  Forall is_byte payload ->
  (List.length payload <= 255)%nat ->
  let n := List.length payload in
  let frame := wire payload in
  slice frame 5 n = payload
  /\ buf_get frame 3 = Z.of_nat n
  /\ (buf_get frame 3 + buf_get frame 4) mod 0x100 = 0
  /\ (byte_sum payload + buf_get frame (5 + n)) mod 0x100 = 0
  /\ ((n <= 56)%nat ->
      let outputFrame := readFrame_slice (read_buffer 64 (0x01 :: frame)) in
      outputFrame = 0x01 :: frame
      /\ start_marker_ok outputFrame = true
      /\ slice outputFrame 6 n = payload).
Proof.
  intros Hb Hlen n frame.
  pose proof (wire_layout payload Hb) as Hw. fold frame in Hw. fold n in Hw.
  assert (Hn : Z.of_nat n mod 256 = Z.of_nat n) by (apply Z.mod_small; lia).
  assert (Hslice : slice frame 5 n = payload).
  { rewrite Hw. exact (slice_middle [_; _; _; _; _] payload _). }
  assert (H3 : buf_get frame 3 = Z.of_nat n).
  { rewrite Hw. unfold buf_get. cbn [app nth]. exact Hn. }
  split; [exact Hslice|]. split; [exact H3|]. split; [|split].
  - rewrite H3. rewrite Hw. unfold buf_get. cbn [app nth].
    rewrite Z.add_mod_idemp_r by lia.
    replace (Z.of_nat n + (0x100 - Z.of_nat n)) with (1 * 0x100) by lia.
    apply Z.mod_mul. lia.
  - rewrite Hw. unfold buf_get.
    rewrite (nth_after 0 [_; _; _; _; _] payload _ (5 + n)) by reflexivity.
    cbn [nth]. apply checksum_cancels.
  - intros Hn56 outputFrame.
    assert (Hflen : List.length frame = (n + 7)%nat).
    { rewrite Hw. rewrite !length_app. simpl. fold n. lia. }
    assert (Hbuf : read_buffer 64 (0x01 :: frame)
                   = (0x01 :: frame) ++ repeat 0 (64 - (n + 8))).
    { rewrite read_buffer_short.
      - simpl List.length. rewrite Hflen. do 2 f_equal. lia.
      - apply Forall_cons; [unfold is_byte; lia|]. apply wire_is_bytes. exact Hb.
      - simpl List.length. rewrite Hflen. lia. }
    assert (Hout : outputFrame = 0x01 :: frame).
    { unfold outputFrame, readFrame_slice, slice. rewrite Hbuf.
      assert (H4 : buf_get ((0x01 :: frame) ++ repeat 0 (64 - (n + 8))) 4 = Z.of_nat n).
      { unfold buf_get. rewrite Hw. cbn [app nth]. exact Hn. }
      rewrite H4. cbn [skipn].
      replace (Z.to_nat (Z.of_nat n + 8)) with (List.length (0x01 :: frame))
        by (simpl List.length; rewrite Hflen; lia).
      rewrite firstn_app, Nat.sub_diag, firstn_all. simpl. now rewrite app_nil_r. }
    split; [exact Hout|]. rewrite Hout. split; [reflexivity|].
    exact Hslice.
Qed.

Lemma frame_roundtrip_witness :
  Forall is_byte [0xD4; 0x40; 0x01; 0x30; 0x04]
  /\ (List.length [0xD4; 0x40; 0x01; 0x30; 0x04] <= 255)%nat
  /\ slice (wire [0xD4; 0x40; 0x01; 0x30; 0x04]) 5 5 = [0xD4; 0x40; 0x01; 0x30; 0x04].
Proof.
  assert (Hb : Forall is_byte [0xD4; 0x40; 0x01; 0x30; 0x04]).
  { repeat constructor; unfold is_byte; lia. }
  assert (Hl : (List.length [0xD4; 0x40; 0x01; 0x30; 0x04] <= 255)%nat).
  { simpl. lia. }
  split; [exact Hb|]. split; [exact Hl|].
  exact (proj1 (frame_roundtrip [0xD4; 0x40; 0x01; 0x30; 0x04] Hb Hl)).
Defined.

(** ** Running the driver: what each function sends *)

Section Traces.

Context {D : Type} `{Bus D}.
Local Open Scope drv_scope.

Lemma exec_bind {A B : Type} (m : M D A) (k : A -> M D B) (s : state D) :
  exec (bind m k) s = exec (k (eval m s)) (exec m s).
Proof.
  unfold exec, eval, bind. destruct (m s) as [a s']. reflexivity.
Qed.

Lemma eval_bind {A B : Type} (m : M D A) (k : A -> M D B) (s : state D) :
  eval (bind m k) s = eval (k (eval m s)) (exec m s).
Proof.
  unfold exec, eval, bind. destruct (m s) as [a s']. reflexivity.
Qed.

Lemma exec_ret {A : Type} (a : A) (s : state D) : exec (ret a) s = s.
Proof. reflexivity. Qed.

Lemma exec_if {A : Type} (b : bool) (m1 m2 : M D A) (s : state D) :
  exec (if b then m1 else m2) s = if b then exec m1 s else exec m2 s.
Proof. destruct b; reflexivity. Qed.

Lemma exec_get_running (s : state D) : exec get_running s = s.
Proof. reflexivity. Qed.

Lemma eval_get_running (s : state D) : eval get_running s = running s.
Proof. reflexivity. Qed.

Lemma exec_get_targetID (s : state D) : exec get_targetID s = s.
Proof. reflexivity. Qed.

Lemma eval_get_targetID (s : state D) : eval get_targetID s = targetID s.
Proof. reflexivity. Qed.

Lemma exec_get_targetNFCID (s : state D) : exec get_targetNFCID s = s.
Proof. reflexivity. Qed.

Lemma eval_get_targetNFCID (s : state D) : eval get_targetNFCID s = targetNFCID s.
Proof. reflexivity. Qed.

Lemma only_sends_refl (s : state D) : only_sends s s [].
Proof.
  unfold only_sends. now rewrite app_nil_r.
Qed.

Lemma only_sends_trans (s s1 s2 : state D) (f1 f2 : list (list Z)) :
  only_sends s s1 f1 -> only_sends s1 s2 f2 -> only_sends s s2 (f1 ++ f2).
Proof.
  unfold only_sends. intros (Ha & Hb & Hc & Hd) (Ha' & Hb' & Hc' & Hd').
  repeat split; try congruence.
  rewrite Hd', Hd. now rewrite app_assoc.
Qed.

Lemma writeBuffer_sends (arr : list num) (s : state D) :
  only_sends s (exec (writeBuffer arr) s) [toBuffer arr].
Proof.
  unfold only_sends. repeat split.
Qed.

Lemma i2cReadBuffer_sends (n : nat) (s : state D) :
  only_sends s (exec (i2cReadBuffer n) s) [].
Proof.
  unfold only_sends, exec, i2cReadBuffer.
  destruct (bus_read n (dev s)) as [raw d]. simpl.
  now rewrite app_nil_r.
Qed.

Lemma checkOutput_sends (arr : list num) (s : state D) :
  only_sends s (exec (checkOutput arr) s) [].
Proof.
  unfold checkOutput. rewrite exec_bind, exec_ret.
  apply i2cReadBuffer_sends.
Qed.

Lemma readFrame_sends (s : state D) :
  only_sends s (exec readFrame s) [].
Proof.
  unfold readFrame. rewrite exec_bind, exec_ret.
  apply i2cReadBuffer_sends.
Qed.

(** One command exchange: the frame is written, then the acknowledgement and
    the response frame are read. *)
Lemma exchange_sends (arr : list num) (s : state D) :
  only_sends s (exec readFrame (exec (checkOutput ACK_FRAME) (exec (writeBuffer arr) s)))
             [toBuffer arr].
Proof.
  change [toBuffer arr] with (([toBuffer arr] ++ []) ++ []).
  eapply only_sends_trans; [|apply readFrame_sends].
  eapply only_sends_trans; [|apply checkOutput_sends].
  apply writeBuffer_sends.
Qed.

Lemma wakeup_sends (s : state D) :
  targetID (exec wakeup s) = targetID s
  /\ targetNFCID (exec wakeup s) = targetNFCID s
  /\ sent (exec wakeup s) = sent s ++ [[0]; toBuffer wakeup_frame].
Proof.
  unfold wakeup. rewrite !exec_bind.
  set (s1 := exec (i2cWriteBuffer [0]) s).
  set (s2 := exec (writeBuffer wakeup_frame) s1).
  set (s3 := exec (checkOutput ACK_FRAME) s2).
  set (s4 := exec (checkOutput wakeupOK) s3).
  assert (H4 : only_sends s s4 [[0]; toBuffer wakeup_frame]).
  { change [[0]; toBuffer wakeup_frame]
      with ((([[0]] ++ [toBuffer wakeup_frame]) ++ []) ++ []).
    eapply only_sends_trans; [|apply checkOutput_sends].
    eapply only_sends_trans; [|apply checkOutput_sends].
    eapply only_sends_trans; [|apply writeBuffer_sends].
    unfold only_sends. repeat split. }
  destruct H4 as (Ha & Hb & _ & Hd).
  destruct (_ && _); simpl; auto.
Qed.

Lemma reset_state (s : state D) :
  exec findPassiveTarget_reset s
  = mkState 0 [Num 0; Num 0; Num 0; Num 0] (running s) (sent s) (session_log s) (dev s).
Proof. reflexivity. Qed.

Lemma inListPassiveTarget_sends (s : state D) :
  only_sends s (exec inListPassiveTarget s) [toBuffer listTarget].
Proof.
  unfold inListPassiveTarget. rewrite !exec_bind, exec_ret.
  apply exchange_sends.
Qed.

(** The state [findPassiveTarget] ends in, from the response it read. *)
Lemma findPassiveTarget_at_exec (uid_offset : nat) (s : state D) :
  let s0 := exec findPassiveTarget_reset s in
  let outputFrame := eval inListPassiveTarget s0 in
  let s' := exec (findPassiveTarget_at uid_offset) s in
  running s' = running s
  /\ sent s' = sent s ++ [toBuffer listTarget]
  /\ targetID s' = (if target_seen outputFrame then 1 else 0)
  /\ targetNFCID s'
     = (if target_seen outputFrame
        then [Num (buf_get outputFrame uid_offset);
              Num (buf_get outputFrame (uid_offset + 1));
              Num (buf_get outputFrame (uid_offset + 2));
              Num (buf_get outputFrame (uid_offset + 3))]
        else [Num 0; Num 0; Num 0; Num 0]).
Proof.
  intros s0 outputFrame s'.
  unfold s', findPassiveTarget_at. rewrite !exec_bind.
  fold s0. fold outputFrame.
  destruct (inListPassiveTarget_sends s0) as (Ha & Hb & Hc & Hd).
  destruct (target_seen outputFrame).
  - rewrite !exec_bind. cbn [exec eval set_targetID set_targetNFCID get_targetNFCID
                             snd fst targetID targetNFCID running sent dev].
    rewrite Hb, Hc, Hd. unfold s0. rewrite reset_state. cbn. auto.
  - rewrite exec_ret. rewrite Ha, Hb, Hc, Hd. unfold s0. rewrite reset_state. cbn. auto.
Qed.

End Traces.

(** ** Target discovery *)

Section Discovery.

Context {D : Type} `{Bus D}.

Lemma target_seen_false (outputFrame : list Z) :
  ~ shows_target outputFrame -> target_seen outputFrame = false.
Proof.
  unfold shows_target, target_seen. intros Hn.
  destruct (buf_get outputFrame 0 =? 1) eqn:E0; [|reflexivity].
  destruct (buf_get outputFrame 8 =? 1) eqn:E8; [|reflexivity].
  exfalso. apply Hn. split; now apply Z.eqb_eq.
Qed.

Lemma findPassiveTarget_at_no_target (uid_offset : nat) (s : state D) :
  ~ shows_target (discovery_response s) ->
  no_target (exec (findPassiveTarget_at uid_offset) s).
Proof.
  intros Hn. apply target_seen_false in Hn.
  destruct (findPassiveTarget_at_exec uid_offset s) as (_ & _ & Hid & Huid).
  unfold discovery_response in Hn. rewrite Hn in Hid, Huid.
  split; assumption.
Qed.

Lemma findPassiveTarget_at_reset_first (uid_offset : nat) (s : state D) :
  let s0 := exec findPassiveTarget_reset s in
  no_target s0 /\ sent s0 = sent s /\ session_log s0 = session_log s /\ dev s0 = dev s.
Proof.
  intros s0. unfold s0. rewrite reset_state. cbn.
  repeat split.
Qed.

Lemma session_log_i2cReadBuffer (n : nat) (s : state D) :
  session_log (exec (i2cReadBuffer n) s) = session_log s.
Proof.
  unfold exec, i2cReadBuffer. destruct (bus_read n (dev s)). reflexivity.
Qed.

Lemma session_log_inListPassiveTarget (s : state D) :
  session_log (exec inListPassiveTarget s)
  = session_log s ++ [(targetID s, targetNFCID s)].
Proof.
  unfold inListPassiveTarget, readFrame, checkOutput.
  rewrite !exec_bind, !exec_ret.
  rewrite !session_log_i2cReadBuffer.
  reflexivity.
Qed.

(** The one buffer a discovery writes is the discovery command, and it is
    written while the session is empty, whatever the session held before. *)
Lemma findPassiveTarget_at_issued (uid_offset : nat) (s : state D) :
  issued_with s (exec (findPassiveTarget_at uid_offset) s) (toBuffer listTarget)
              0 [Num 0; Num 0; Num 0; Num 0].
Proof.
  split.
  - now destruct (findPassiveTarget_at_exec uid_offset s) as (_ & Hs & _).
  - unfold findPassiveTarget_at. rewrite !exec_bind.
    set (s0 := exec findPassiveTarget_reset s).
    assert (Hlog : session_log (exec inListPassiveTarget s0)
                   = session_log s ++ [(0, [Num 0; Num 0; Num 0; Num 0])]).
    { rewrite session_log_inListPassiveTarget. unfold s0. rewrite reset_state.
      reflexivity. }
    destruct (target_seen (eval inListPassiveTarget s0)).
    + rewrite !exec_bind. exact Hlog.
    + rewrite exec_ret. exact Hlog.
Qed.

(** C9: [findPassiveTarget], in both drivers, writes one buffer to the bus,
    the discovery command, and at the moment it writes it [targetID] is 0 and
    the UID is [0,0,0,0], whatever the session held when the call started:
    the reset comes before the command.  When the response does not show both
    sentinel bytes ([0x01] at offset 0 and at offset 8) the call ends with
    [targetID = 0] and an all-zero UID; so two consecutive calls that see no
    target both end in that state. *)
Theorem discovery_reset_and_idempotence (s : state D) :
  let s0 := exec findPassiveTarget_reset s in
  let sA := exec VariantA.findPassiveTarget s in
  let sB := exec VariantB.findPassiveTarget s in
  (no_target s0 /\ sent s0 = sent s /\ dev s0 = dev s)
  /\ issued_with s sA (toBuffer listTarget) 0 [Num 0; Num 0; Num 0; Num 0]
  /\ issued_with s sB (toBuffer listTarget) 0 [Num 0; Num 0; Num 0; Num 0]
  /\ (~ shows_target (discovery_response s) -> no_target sA /\ no_target sB)
  /\ (~ shows_target (discovery_response s) ->
      ~ shows_target (discovery_response sA) ->
      no_target sA /\ no_target (exec VariantA.findPassiveTarget sA))
  /\ (~ shows_target (discovery_response s) ->
      ~ shows_target (discovery_response sB) ->
      no_target sB /\ no_target (exec VariantB.findPassiveTarget sB)).
Proof.
  intros s0 sA sB.
  destruct (findPassiveTarget_at_reset_first 14 s) as (Hr & Hs & _ & Hd).
  split; [auto|].
  split; [apply findPassiveTarget_at_issued|].
  split; [apply findPassiveTarget_at_issued|].
  split; [|split].
  - intros Hn. split; apply findPassiveTarget_at_no_target; exact Hn.
  - intros Hn Hn'. split; apply findPassiveTarget_at_no_target; assumption.
  - intros Hn Hn'. split; apply findPassiveTarget_at_no_target; assumption.
Qed.

End Discovery.

(** With no card in front of the simulated reader, and a session that still
    holds an earlier target (target 1, UID [DE AD BE EF]), the discovery
    command goes out under the empty session, and two discoveries in a row
    both end empty. *)
Lemma discovery_reset_and_idempotence_witness :
  ~ shows_target (discovery_response stale_session)
  /\ ~ shows_target (discovery_response (exec VariantA.findPassiveTarget stale_session))
  /\ targetID stale_session = 1
  /\ session_log (exec VariantA.findPassiveTarget stale_session)
     = [(0, [Num 0; Num 0; Num 0; Num 0])]
  /\ no_target (exec VariantA.findPassiveTarget stale_session)
  /\ no_target (exec VariantA.findPassiveTarget
                     (exec VariantA.findPassiveTarget stale_session)).
Proof.
  assert (H1 : ~ shows_target (discovery_response stale_session)).
  { unfold shows_target. vm_compute. intros [Ha _]. discriminate Ha. }
  assert (H2 : ~ shows_target
                 (discovery_response (exec VariantA.findPassiveTarget stale_session))).
  { unfold shows_target. vm_compute. intros [Ha _]. discriminate Ha. }
  split; [exact H1|]. split; [exact H2|]. split; [reflexivity|].
  split.
  - exact (proj2 (proj1 (proj2 (discovery_reset_and_idempotence stale_session)))).
  - exact (proj1 (proj2 (proj2 (proj2 (proj2
             (discovery_reset_and_idempotence stale_session))))) H1 H2).
Defined.

(** ** Variant A: block transactions *)

Section BlocksA.

Context {D : Type} `{Bus D}.

Lemma authenticate_sends (address : num) (s : state D) :
  only_sends s (exec (VariantA.authenticate address) s)
             [auth_frame (targetID s) (targetNFCID s) address].
Proof.
  unfold VariantA.authenticate. rewrite !exec_bind, exec_ret.
  apply exchange_sends.
Qed.

Lemma read16Bytes_sends (address : num) (s : state D) :
  only_sends (exec (VariantA.authenticate address) s)
             (exec (VariantA.read16Bytes address) s)
             [read_frame address].
Proof.
  unfold VariantA.read16Bytes. rewrite !exec_bind, exec_ret.
  apply exchange_sends.
Qed.

Lemma write16Bytes_sends (data : list num) (address : num) (s : state D) :
  only_sends (exec (VariantA.authenticate address) s)
             (exec (VariantA.write16Bytes data address) s)
             [write_frame (targetID s) address data].
Proof.
  unfold VariantA.write16Bytes. rewrite !exec_bind, exec_ret.
  set (sa := exec (VariantA.authenticate address) s).
  destruct (authenticate_sends address s) as (Hid & _).
  fold sa in Hid.
  replace (exec (if negb (Nat.eqb (List.length data) 16) then ret tt else ret tt) sa)
    with sa by (destruct (negb _); reflexivity).
  cbn [eval get_targetID fst exec snd].
  rewrite <- Hid.
  change [write_frame (targetID sa) address data]
    with ([write_frame (targetID sa) address data] ++ []).
  eapply only_sends_trans; [|apply checkOutput_sends].
  apply writeBuffer_sends.
Qed.


End BlocksA.


(** On a silent bus offset 7 reads 0 and [authenticate] reports success; the
    same command follows. *)
Lemma authentication_reports_success_on_silent_bus :
  eval (VariantA.authenticate (Num 0x04)) (initial tt) = true
  /\ sent (exec (VariantA.read16Bytes (Num 0x04)) (initial tt))
     = sent (exec (VariantA.authenticate (Num 0x04)) (initial tt))
       ++ [read_frame (Num 0x04)].
Proof.
  split; reflexivity.
Qed.

(** ** Variant A: no write is targeted at a sector trailer *)

Lemma is_write_cmd_frame (cmd a tid : Z) (c address : num) (rest : list num) :
  is_write_cmd cmd a
    (toBuffer (makeCommand ([Num 0xD4; Num 0x40; Num tid; c; address] ++ rest)))
  = (to_uint8 c =? cmd) && (to_uint8 address =? a).
Proof.
  unfold is_write_cmd. rewrite makeCommand_layout.
  cbn [toBuffer map app skipn to_uint8].
  change (0xD4 mod 256) with 0xD4. change (0x40 mod 256) with 0x40.
  generalize (tid mod 256) (to_uint8 c) (to_uint8 address). intros t c' a'.
  reflexivity.
Qed.

Lemma dataBlocks_spare_trailers (j : nat) :
  to_uint8 (arr_get VariantA.dataBlocks j) mod 4 <> 3.
Proof.
  do 14 (destruct j as [|j]; [vm_compute; intros Heq; discriminate Heq|]).
  unfold arr_get, VariantA.dataBlocks.
  rewrite nth_overflow by (simpl; lia).
  vm_compute. intros Heq. discriminate Heq.
Qed.

Lemma fixed_frames_spare_trailers :
  spares_trailers [0]
  /\ spares_trailers (toBuffer wakeup_frame)
  /\ spares_trailers (toBuffer listTarget).
Proof.
  repeat split; intros a _; reflexivity.
Qed.

Lemma auth_frame_spares_trailers (tid : Z) (uid : list num) (address : num) :
  spares_trailers (auth_frame tid uid address).
Proof.
  intros a _. unfold auth_frame. rewrite concatNumArr_app.
  rewrite is_write_cmd_frame. reflexivity.
Qed.

Lemma read_frame_spares_trailers (address : num) :
  spares_trailers (read_frame address).
Proof.
  intros a _. unfold read_frame.
  change [Num 212; Num 64; Num 1; Num 48; address]
    with ([Num 212; Num 64; Num 1; Num 48; address] ++ []).
  rewrite is_write_cmd_frame. reflexivity.
Qed.

Lemma write_frame_spares_trailers (tid : Z) (address : num) (data : list num) :
  to_uint8 address mod 4 <> 3 ->
  spares_trailers (write_frame tid address data).
Proof.
  intros Haddr a Ha. unfold write_frame. rewrite concatNumArr_app.
  rewrite is_write_cmd_frame.
  destruct (to_uint8 address =? a) eqn:E; [|apply andb_false_r].
  apply Z.eqb_eq in E. congruence.
Qed.

Section TrailersA.

Context {D : Type} `{Bus D}.

Lemma keeps_ret (P : list Z -> Prop) {A : Type} (a : A) : keeps P (ret (D := D) a).
Proof. intros s Hs. exact Hs. Qed.

Lemma keeps_bind (P : list Z -> Prop) {A B : Type} (m : M D A) (k : A -> M D B) :
  keeps P m -> (forall a, keeps P (k a)) -> keeps P (bind m k).
Proof.
  intros Hm Hk s Hs. rewrite exec_bind. apply Hk. apply Hm. exact Hs.
Qed.

Lemma keeps_if (P : list Z -> Prop) {A : Type} (b : bool) (m1 m2 : M D A) :
  keeps P m1 -> keeps P m2 -> keeps P (if b then m1 else m2).
Proof. destruct b; auto. Qed.

Lemma keeps_forM_list (P : list Z -> Prop) {A : Type} (body : nat -> A -> M D A)
      (l : list nat) :
  (forall i a, keeps P (body i a)) -> forall a, keeps P (forM_list l body a).
Proof.
  intros Hbody. induction l as [|i l IH]; intros a.
  - apply keeps_ret.
  - simpl. apply keeps_bind; [apply Hbody|exact IH].
Qed.

Lemma keeps_only_sends (P : list Z -> Prop) (s s' : state D) (frames : list (list Z)) :
  only_sends s s' frames -> Forall P frames -> Forall P (sent s) -> Forall P (sent s').
Proof.
  intros (_ & _ & _ & Hs) Hf Hp. rewrite Hs. apply Forall_app. split; assumption.
Qed.

Lemma keeps_get_running (P : list Z -> Prop) : keeps P (get_running (D := D)).
Proof. intros s Hs. exact Hs. Qed.

Lemma keeps_get_targetID (P : list Z -> Prop) : keeps P (get_targetID (D := D)).
Proof. intros s Hs. exact Hs. Qed.

Lemma keeps_get_targetNFCID (P : list Z -> Prop) : keeps P (get_targetNFCID (D := D)).
Proof. intros s Hs. exact Hs. Qed.

Lemma keeps_wakeup : keeps spares_trailers wakeup.
Proof.
  intros s Hs. destruct (wakeup_sends s) as (_ & _ & Hw). rewrite Hw.
  destruct fixed_frames_spare_trailers as (H0 & H1 & _).
  apply Forall_app. split; [exact Hs|]. repeat constructor; assumption.
Qed.

Lemma keeps_findPassiveTarget : keeps spares_trailers VariantA.findPassiveTarget.
Proof.
  intros s Hs. destruct (findPassiveTarget_at_exec 14 s) as (_ & Hw & _).
  unfold VariantA.findPassiveTarget. rewrite Hw.
  destruct fixed_frames_spare_trailers as (_ & _ & H2).
  apply Forall_app. split; [exact Hs|]. repeat constructor; assumption.
Qed.

Lemma keeps_authenticate (address : num) :
  keeps spares_trailers (VariantA.authenticate address).
Proof.
  intros s Hs. eapply keeps_only_sends; [apply authenticate_sends| |exact Hs].
  constructor; [apply auth_frame_spares_trailers|constructor].
Qed.

Lemma keeps_read16Bytes (address : num) :
  keeps spares_trailers (VariantA.read16Bytes address).
Proof.
  intros s Hs. eapply keeps_only_sends; [apply read16Bytes_sends| |].
  - constructor; [apply read_frame_spares_trailers|constructor].
  - apply keeps_authenticate. exact Hs.
Qed.

Lemma keeps_write16Bytes (data : list num) (address : num) :
  to_uint8 address mod 4 <> 3 ->
  keeps spares_trailers (VariantA.write16Bytes data address).
Proof.
  intros Haddr s Hs. eapply keeps_only_sends; [apply write16Bytes_sends| |].
  - constructor; [apply write_frame_spares_trailers; exact Haddr|constructor].
  - apply keeps_authenticate. exact Hs.
Qed.

(** The reserved-address invariant of variant A: no public operation writes
    to the bus a block write targeted at an address [a] with [a mod 4 = 3],
    for every message, every device and every state of the driver. *)
Lemma public_operations_spare_trailers (message : string) :
  keeps spares_trailers (VariantA.writeText message)
  /\ keeps spares_trailers VariantA.readText
  /\ keeps spares_trailers VariantA.getNFCID.
Proof.
  split; [|split].
  - unfold VariantA.writeText.
    apply keeps_bind; [apply keeps_get_running|intros running].
    apply keeps_bind; [apply keeps_if; [apply keeps_wakeup|apply keeps_ret]|intros _].
    apply keeps_bind; [apply keeps_findPassiveTarget|intros _].
    apply keeps_bind; [apply keeps_get_targetID|intros tid].
    apply keeps_if; [|apply keeps_ret].
    cbv zeta.
    apply keeps_bind.
    + apply keeps_write16Bytes. vm_compute. intros Heq. discriminate Heq.
    + intros _. unfold forM. apply keeps_forM_list. intros j _.
      apply keeps_write16Bytes. apply dataBlocks_spare_trailers.
  - unfold VariantA.readText.
    apply keeps_bind; [apply keeps_get_running|intros running].
    apply keeps_bind; [apply keeps_if; [apply keeps_wakeup|apply keeps_ret]|intros _].
    apply keeps_bind; [apply keeps_findPassiveTarget|intros _].
    cbv zeta.
    apply keeps_bind; [apply keeps_get_targetID|intros tid].
    apply keeps_if; [|apply keeps_ret].
    apply keeps_bind; [apply keeps_read16Bytes|intros outputFrame].
    unfold forM. apply keeps_forM_list. intros j textMessage.
    apply keeps_bind; [apply keeps_read16Bytes|intros messageFrame].
    apply keeps_ret.
  - unfold VariantA.getNFCID.
    apply keeps_bind; [apply keeps_findPassiveTarget|intros _].
    apply keeps_bind; [apply keeps_get_targetID|intros tid].
    apply keeps_if; [|apply keeps_ret].
    apply keeps_bind; [apply keeps_get_targetNFCID|intros uid].
    apply keeps_ret.
Qed.

(** The header address and the data blocks avoid the reserved set. *)
Lemma allowed_blocks_spare_trailers :
  Forall (fun a => a mod 4 <> 3) (0x04 :: toBuffer VariantA.dataBlocks).
Proof.
  repeat constructor; vm_compute; intros Heq; discriminate Heq.
Qed.

Lemma eval_readFrame_bytes (s : state D) : Forall is_byte (eval readFrame s).
Proof.
  unfold readFrame, eval, bind, i2cReadBuffer.
  destruct (bus_read 64 (dev s)) as [raw d]. simpl.
  apply readFrame_slice_bytes. apply read_buffer_bytes.
Qed.

Lemma eval_inListPassiveTarget_bytes (s : state D) :
  Forall is_byte (eval inListPassiveTarget s).
Proof.
  unfold inListPassiveTarget. rewrite !eval_bind.
  apply eval_readFrame_bytes.
Qed.

(** What [getNFCID] returns: the empty string when discovery ends without a
    target, and eight characters when it ends with a target none of whose
    UID bytes is [0x10]. *)
Lemma getNFCID_result (s : state D) :
  let s' := exec VariantA.getNFCID s in
  let result := eval VariantA.getNFCID s in
  s' = exec VariantA.findPassiveTarget s
  /\ (targetID s' = 0 -> result = ""%string)
  /\ (targetID s' = 1 -> ~ In (Num 0x10) (targetNFCID s') ->
      String.length result = 8%nat).
Proof.
  intros s' result.
  assert (Hs' : s' = exec VariantA.findPassiveTarget s).
  { unfold s', VariantA.getNFCID. rewrite !exec_bind.
    rewrite eval_get_targetID, exec_get_targetID.
    destruct (negb _); [|reflexivity].
    rewrite exec_bind. reflexivity. }
  assert (Hr : result
               = if negb (targetID s' =? 0)
                 then for_upto 4 (fun i result =>
                                    (result ++ decToHex (arr_get (targetNFCID s') i))%string)
                               ""%string
                 else ""%string).
  { rewrite Hs'. unfold result, VariantA.getNFCID. rewrite !eval_bind.
    rewrite eval_get_targetID, exec_get_targetID.
    destruct (negb _); [|reflexivity].
    rewrite eval_bind. reflexivity. }
  split; [exact Hs'|]. split.
  - intros H0. rewrite Hr, H0. reflexivity.
  - intros H1 Hno. rewrite Hr, H1. cbn [Z.eqb negb].
    destruct (findPassiveTarget_at_exec 14 s) as (_ & _ & Hid & Huid).
    fold (VariantA.findPassiveTarget (D := D)) in Hid, Huid.
    rewrite <- Hs' in Hid, Huid.
    set (outputFrame := eval inListPassiveTarget (exec findPassiveTarget_reset s)) in *.
    pose proof (eval_inListPassiveTarget_bytes (exec findPassiveTarget_reset s)) as Hb.
    fold outputFrame in Hb.
    destruct (target_seen outputFrame); [|rewrite Hid in H1; discriminate H1].
    rewrite Huid in Hno |- *.
    unfold for_upto, for_loop, arr_get. cbn [seq Nat.sub fold_left nth].
    rewrite !string_length_append.
    rewrite !decToHex_byte_length;
      try (apply buf_get_byte; exact Hb);
      try (intros Heq; apply Hno; rewrite <- Heq; simpl; tauto).
    reflexivity.
Qed.

End TrailersA.

(** ** Variant A: the public operations on the simulated card *)

(** C10: a UID byte of 16 ([0x10]) is printed with three characters: after a
    successful discovery of the UID [10 20 30 40], [getNFCID] returns the
    nine characters [010203040], not eight. *)
Theorem getNFCID_uid_byte_16 :
  eval VariantA.getNFCID card_uid16 = "010203040"%string
  /\ targetID (exec VariantA.getNFCID card_uid16) = 1
  /\ targetNFCID (exec VariantA.getNFCID card_uid16)
     = [Num 0x10; Num 0x20; Num 0x30; Num 0x40]
  /\ decToHex (Num 0x10) = "010"%string
  /\ String.length (eval VariantA.getNFCID card_uid16) = 9%nat.
Proof.
  repeat split; reflexivity.
Qed.

(** C4: writing the one-character string [A] and reading it back yields 16
    characters, [A] followed by 15 NUL characters.  The card holds the right
    header ([01 00 ..]) and the right data block ([41 00 ..]); [readText]
    computes the length of the last block as
    [messageLength - (messageLength/16+1-1)*16], which is 0 in floating-point
    arithmetic, and then takes all 16 bytes because [0 < 1/16]. *)
Theorem writeText_readText_A :
  eval VariantA.readText after_write_A = ("A" ++ nul15)%string
  /\ eval VariantA.readText after_write_A <> "A"%string
  /\ card_lookup (card_mem (dev after_write_A)) 0x04 = 1 :: repeat 0 15
  /\ card_lookup (card_mem (dev after_write_A)) 0x05 = 0x41 :: repeat 0 15.
Proof.
  vm_compute. repeat split. intros Heq. discriminate Heq.
Qed.

(** The same happens at every length that is not a multiple of 16: for each
    length up to 240, the message of that many letters comes back cut to 224
    characters and padded with NUL characters to whole blocks. *)
Lemma readback_pads_to_whole_blocks (n : nat) :
  (n <= 240)%nat ->
  readback (letters n) = padded (letters (Nat.min n 224)).
Proof.
  intros Hn.
  assert (Hall : forallb (fun k => String.eqb (readback (letters k))
                                              (padded (letters (Nat.min k 224))))
                         (seq 0 241) = true) by (vm_compute; reflexivity).
  rewrite forallb_forall in Hall.
  apply String.eqb_eq. apply Hall. apply in_seq. lia.
Qed.

(** Messages that fill whole blocks do come back unchanged, and a message
    of 225 characters comes back as its first 224 characters. *)
Lemma writeText_readText_whole_blocks :
  eval VariantA.readText (exec (VariantA.writeText "ABCDEFGHIJKLMNOP") card1234)
  = "ABCDEFGHIJKLMNOP"%string
  /\ eval VariantA.readText (exec (VariantA.writeText text225) card1234)
     = substring 0 224 text225.
Proof.
  vm_compute. split; reflexivity.
Qed.

(** C7: for a message of 224 characters (the announced capacity)
    [writeText] issues a sixteenth write, [write16Bytes(data[14],
    dataBlocks[14])], one past the end of [dataBlocks]; the address is
    [undefined], stored as byte [0x00] on the bus, which is neither [0x04]
    nor an element of [dataBlocks]. *)
Theorem writeText_224_writes_outside_dataBlocks :
  block_writes (sent after_write_224)
  = [4; 5; 6; 8; 9; 10; 12; 13; 14; 16; 17; 18; 20; 21; 22; 0]
  /\ arr_get VariantA.dataBlocks 14 = NaN
  /\ ~ In 0 (4 :: toBuffer VariantA.dataBlocks).
Proof.
  vm_compute. repeat split.
  intros Hin. repeat (destruct Hin as [Heq|Hin]; [discriminate Heq|]). exact Hin.
Qed.

(** ** Variant B: page writes *)

Section PagesB.

Context {D : Type} `{Bus D}.
Local Open Scope drv_scope.

Lemma write4Bytes_sends (data : list num) (address : Z) (s : state D) :
  only_sends s (exec (VariantB.write4Bytes data address) s)
             [page_frame (targetID s) address data].
Proof.
  unfold VariantB.write4Bytes. rewrite !exec_bind, exec_ret.
  replace (exec (if negb (Nat.eqb (List.length data) 4) then ret tt else ret tt) s)
    with s by (destruct (negb _); reflexivity).
  replace (exec (if address >? 0x28 then ret tt else ret tt) s)
    with s by (destruct (address >? 0x28); reflexivity).
  cbn [eval get_targetID fst exec snd].
  change [page_frame (targetID s) address data]
    with ([page_frame (targetID s) address data] ++ []).
  eapply only_sends_trans; [|apply checkOutput_sends].
  apply writeBuffer_sends.
Qed.

Lemma page_frame_is_write (tid address : Z) (data : list num) :
  is_write_cmd 0xA2 (address mod 256) (page_frame tid address data) = true
  /\ page_writes [page_frame tid address data] = [address mod 256].
Proof.
  unfold page_writes, written_addresses, is_write_cmd, is_write, page_frame, buf_get.
  rewrite makeCommand_layout, concatNumArr_app.
  cbn [flat_map toBuffer map app skipn nth to_uint8].
  change (0xD4 mod 256) with 0xD4. change (0x40 mod 256) with 0x40.
  change (0xA2 mod 256) with 0xA2.
  generalize (tid mod 256) (address mod 256). intros t a.
  cbv iota. rewrite !Z.eqb_refl. split; reflexivity.
Qed.

(** C6: [write4Bytes] sends its write command for every address, also
    above the ceiling [0x28]: the test of the address only reports, and the
    command that follows is an InDataExchange page write targeted at that
    address. *)
Theorem write4Bytes_above_ceiling_is_sent (s : state D) (data : list num) (address : Z) :
  0x28 < address < 0x100 ->
  let frame := page_frame (targetID s) address data in
  sent (exec (VariantB.write4Bytes data address) s) = sent s ++ [frame]
  /\ is_write_cmd 0xA2 address frame = true.
Proof.
  intros Ha frame.
  destruct (write4Bytes_sends data address s) as (_ & _ & _ & Hs).
  split; [exact Hs|].
  destruct (page_frame_is_write (targetID s) address data) as [Hw _].
  rewrite Z.mod_small in Hw by lia. exact Hw.
Qed.

End PagesB.

Lemma write4Bytes_above_ceiling_is_sent_witness :
  0x28 < 0x29 < 0x100
  /\ sent (exec (VariantB.write4Bytes [Num 0; Num 0; Num 0; Num 0] 0x29) card1234)
     = sent card1234 ++ [page_frame 0 0x29 [Num 0; Num 0; Num 0; Num 0]].
Proof.
  assert (Ha : 0x28 < 0x29 < 0x100) by lia.
  split; [exact Ha|].
  exact (proj1 (write4Bytes_above_ceiling_is_sent
                  card1234 [Num 0; Num 0; Num 0; Num 0] 0x29 Ha)).
Defined.

(** A string of the maximum length, 147 characters, makes [writeNDEFText]
    call [write4Bytes] for the pages [0x29], [0x2A] and [0x2B], and each of
    these writes reaches the card. *)
Lemma writeNDEFText_147_writes_past_ceiling :
  skipn 72 (page_writes (sent after_ndef_147)) = [0x28; 0x29; 0x2A; 0x2B]
  /\ card_lookup (card_mem (dev after_ndef_147)) 0x29 = [0x41; 0x41; 0x41; 0x41]
  /\ card_lookup (card_mem (dev after_ndef_147)) 0x2B = [0xFE; 0x00; 0x00; 0x00].
Proof.
  vm_compute. repeat split.
Qed.

Section FormatB.

Context {D : Type} `{Bus D}.
Local Open Scope drv_scope.

Lemma page_writes_app (l1 l2 : list (list Z)) :
  page_writes (l1 ++ l2) = page_writes l1 ++ page_writes l2.
Proof.
  unfold page_writes, written_addresses. apply flat_map_app.
Qed.

Lemma forM_list_write4Bytes (data : list num) (l : list nat) :
  forall s : state D,
    only_sends s
      (exec (forM_list l (fun address _ => VariantB.write4Bytes data (Z.of_nat address)) tt) s)
      (map (fun address => page_frame (targetID s) (Z.of_nat address) data) l).
Proof.
  induction l as [|a l IH]; intros s.
  - apply only_sends_refl.
  - cbn [forM_list map]. rewrite exec_bind.
    pose proof (write4Bytes_sends data (Z.of_nat a) s) as Ha.
    set (s1 := exec (VariantB.write4Bytes data (Z.of_nat a)) s) in *.
    replace (eval (VariantB.write4Bytes data (Z.of_nat a)) s) with tt
      by (now destruct (eval _ s)).
    pose proof (IH s1) as Hl.
    assert (Hid : targetID s1 = targetID s) by apply Ha.
    rewrite Hid in Hl.
    exact (only_sends_trans s s1 _ [_] _ Ha Hl).
Qed.

Lemma open_session_pages (s : state D) :
  page_writes (sent (exec open_session s)) = page_writes (sent s).
Proof.
  unfold open_session. rewrite !exec_bind.
  rewrite eval_get_running, exec_get_running.
  set (s1 := exec (if negb (running s) then wakeup else ret tt) s).
  assert (H1 : page_writes (sent s1) = page_writes (sent s)).
  { unfold s1. destruct (running s); cbn [negb].
    - reflexivity.
    - destruct (wakeup_sends s) as (_ & _ & Hs). rewrite Hs.
      rewrite page_writes_app. cbn. apply app_nil_r. }
  destruct (findPassiveTarget_at_exec 12 s1) as (_ & Hs & _).
  unfold VariantB.findPassiveTarget. rewrite Hs.
  rewrite page_writes_app, H1. cbn. apply app_nil_r.
Qed.

(** The page writes of [formatAsNdef]: pages [0x04] to [0x27] when its
    discovery finds a target, none otherwise. *)
Lemma formatAsNdef_pages (s : state D) :
  page_writes (sent (exec VariantB.formatAsNdef s))
  = page_writes (sent s)
    ++ (if targetID (exec open_session s) =? 1 then map Z.of_nat (seq 4 36) else []).
Proof.
  rewrite <- (open_session_pages s).
  unfold VariantB.formatAsNdef, open_session. rewrite !exec_bind.
  rewrite !eval_get_running, !exec_get_running, eval_get_targetID, exec_get_targetID.
  set (s2 := exec VariantB.findPassiveTarget _).
  destruct (targetID s2 =? 1) eqn:Etid.
  - apply Z.eqb_eq in Etid.
    rewrite !exec_bind.
    pose proof (write4Bytes_sends [Num 3; Num 4; Num 216; Num 0] 4 s2) as H1.
    set (s3 := exec (VariantB.write4Bytes [Num 3; Num 4; Num 216; Num 0] 4) s2) in *.
    pose proof (write4Bytes_sends [Num 0; Num 0; Num 254; Num 0] (4 + 1) s3) as H2.
    set (s4 := exec (VariantB.write4Bytes [Num 0; Num 0; Num 254; Num 0] (4 + 1)) s3) in *.
    pose proof (forM_list_write4Bytes [Num 0; Num 0; Num 0; Num 0]
                  (seq (Z.to_nat (4 + 1 + 1)) (40 - Z.to_nat (4 + 1 + 1))) s4) as H3.
    pose proof (only_sends_trans _ _ _ _ _ (only_sends_trans _ _ _ _ _ H1 H2) H3) as H4.
    destruct H1 as (T1 & _). destruct H2 as (T2 & _).
    rewrite T2, T1, Etid in H4.
    destruct H4 as (_ & _ & _ & Hs).
    unfold forM. rewrite Hs, page_writes_app. f_equal.
  - rewrite exec_ret. now rewrite app_nil_r.
Qed.

(** C5 (amended): a string longer than 147 characters makes [writeNDEFText]
    stop at the length check, so no page of the text record is written; but
    [formatAsNdef] runs before that check.  When the first discovery finds a
    target the run is exactly a run of [formatAsNdef], whose page writes are
    the 36 pages [0x04] to [0x27] when its own discovery finds the target
    again; there are zero page writes only when no target is found. *)
Theorem oversize_write_only_formats (s : state D) (charsToWrite : string) :
  (147 < String.length charsToWrite)%nat ->
  let s1 := exec open_session s in
  let s2 := exec open_session s1 in
  let s' := exec (VariantB.writeNDEFText charsToWrite) s in
  s' = (if targetID s1 =? 1 then exec VariantB.formatAsNdef s1 else s1)
  /\ page_writes (sent s')
     = page_writes (sent s)
       ++ (if (targetID s1 =? 1) && (targetID s2 =? 1)
           then map Z.of_nat (seq 4 36) else []).
Proof.
  intros Hlen s1 s2 s'.
  assert (Hs' : s' = (if targetID s1 =? 1 then exec VariantB.formatAsNdef s1 else s1)).
  { unfold s', s1, VariantB.writeNDEFText, open_session. rewrite !exec_bind.
    rewrite !eval_get_running, !exec_get_running, eval_get_targetID, exec_get_targetID.
    destruct (targetID _ =? 1); [|reflexivity].
    assert (Hlt : (((0x29 - 0x04) * 4 - 1)%nat <? String.length charsToWrite)%nat = true).
    { apply Nat.ltb_lt. simpl. exact Hlen. }
    rewrite exec_bind, Hlt. reflexivity. }
  split; [exact Hs'|].
  rewrite Hs'. destruct (targetID s1 =? 1); cbn [andb].
  - rewrite formatAsNdef_pages. fold s2. unfold s1. rewrite open_session_pages.
    reflexivity.
  - unfold s1. rewrite open_session_pages. now rewrite app_nil_r.
Qed.

End FormatB.

(** C5, as stated, fails: with a card in front of the reader, a string of 148
    characters makes [writeNDEFText] issue 36 page writes, and the pages of
    the card hold the formatting pattern afterwards. *)
Lemma oversize_write_mutates_card :
  (147 < String.length text148)%nat
  /\ page_writes (sent card1234) = []
  /\ page_writes (sent after_ndef_148) = map Z.of_nat (seq 4 36)
  /\ List.length (page_writes (sent after_ndef_148)) = 36%nat
  /\ card_mem (dev card1234) = []
  /\ card_lookup (card_mem (dev after_ndef_148)) 0x04 = [0x03; 0x04; 0xD8; 0x00].
Proof.
  vm_compute. repeat split. lia.
Qed.

Lemma oversize_write_only_formats_witness :
  (147 < String.length text148)%nat
  /\ page_writes (sent (exec (VariantB.writeNDEFText text148) (initial no_card)))
     = page_writes (sent (initial no_card)) ++ [].
Proof.
  assert (Hlen : (147 < String.length text148)%nat) by (vm_compute; lia).
  split; [exact Hlen|].
  exact (proj2 (oversize_write_only_formats (initial no_card) text148 Hlen)).
Defined.

(** * Further properties of the driver *)

(** ** Arrays and frames *)

(** [concatNumArr] returns the elements of the first array followed by those
    of the second, whatever they hold; an empty array on either side gives
    the other array. *)
Theorem concatNumArr_appends (firstArr secondArr : list num) :
  concatNumArr firstArr secondArr = firstArr ++ secondArr
  /\ List.length (concatNumArr firstArr secondArr)
     = (List.length firstArr + List.length secondArr)%nat
  /\ concatNumArr [] secondArr = secondArr
  /\ concatNumArr firstArr [] = firstArr.
Proof.
  rewrite !concatNumArr_app. repeat split.
  - apply length_app.
  - apply app_nil_r.
Qed.

Lemma sum_from_NaN (command : list num) : fold_left nadd command NaN = NaN.
Proof.
  induction command as [|x t IH]; simpl; [reflexivity|exact IH].
Qed.

Lemma sum_with_NaN (command : list num) :
  In NaN command -> forall a, fold_left nadd command a = NaN.
Proof.
  induction command as [|x t IH]; intros Hin a; [contradiction|].
  simpl. destruct Hin as [Hx|Hin].
  - subst x. destruct a; simpl; apply sum_from_NaN.
  - apply IH. exact Hin.
Qed.

(** A frame is seven elements longer than its command, and one element that
    is [undefined] or [NaN] spoils the data checksum: the array holds [NaN]
    there and the byte written to the bus is 0, whatever the other elements
    are. *)
Theorem makeCommand_undefined_element (command : list num) :
  In NaN command ->
  List.length (makeCommand command) = (List.length command + 7)%nat
  /\ arr_get (makeCommand command) (5 + List.length command) = NaN
  /\ buf_get (toBuffer (makeCommand command)) (5 + List.length command) = 0.
Proof.
  intros Hin. rewrite makeCommand_layout.
  assert (Hsum : command_sum command = NaN) by (apply sum_with_NaN; exact Hin).
  rewrite Hsum. cbn [nrem nsub].
  split; [|split].
  - rewrite !length_app. simpl. lia.
  - unfold arr_get.
    rewrite (nth_after NaN [_; _; _; _; _] command _ (5 + List.length command))
      by reflexivity.
    reflexivity.
  - unfold buf_get, toBuffer. rewrite !map_app. cbn [map].
    rewrite (nth_after 0 [_; _; _; _; _] (map to_uint8 command) _
                       (5 + List.length command))
      by (rewrite length_map; reflexivity).
    reflexivity.
Qed.

Lemma makeCommand_undefined_element_witness :
  In NaN [Num 0xD4; Num 0x40; Num 0x01; Num 0xA0; NaN]
  /\ buf_get (toBuffer (makeCommand [Num 0xD4; Num 0x40; Num 0x01; Num 0xA0; NaN])) 10 = 0.
Proof.
  assert (Hin : In NaN [Num 0xD4; Num 0x40; Num 0x01; Num 0xA0; NaN])
    by (simpl; tauto).
  split; [exact Hin|].
  exact (proj2 (proj2 (makeCommand_undefined_element
                         [Num 0xD4; Num 0x40; Num 0x01; Num 0xA0; NaN] Hin))).
Defined.

Lemma read_buffer_length (n : nat) (raw : list Z) : List.length (read_buffer n raw) = n.
Proof.
  unfold read_buffer. rewrite length_firstn, length_app, repeat_length. lia.
Qed.

Lemma skipn_cons_nth {A : Type} (d : A) (l : list A) :
  forall i : nat, (i < List.length l)%nat -> skipn i l = nth i l d :: skipn (S i) l.
Proof.
  induction l as [|x l IH]; intros i Hin; [simpl in Hin; lia|].
  destruct i as [|i]; [reflexivity|].
  simpl in Hin. cbn [skipn nth]. rewrite (IH i) by lia. reflexivity.
Qed.

Section Reads.

Context {D : Type} `{Bus D}.

Lemma eval_i2cReadBuffer_shape (n : nat) (s : state D) :
  List.length (eval (i2cReadBuffer n) s) = n
  /\ Forall is_byte (eval (i2cReadBuffer n) s).
Proof.
  unfold eval, i2cReadBuffer. destruct (bus_read n (dev s)) as [raw d]. simpl.
  split; [apply read_buffer_length|apply read_buffer_bytes].
Qed.

(** [readFrame] returns a prefix of the 64 bytes it reads: the first
    [buffer[4] + 8] of them, so between 8 and 64 bytes, a frame that
    announces more than 56 bytes being cut at the end of the read.  It writes
    nothing to the bus and changes no variable of the driver. *)
Theorem readFrame_returns_prefix (s : state D) :
  let buffer := eval (i2cReadBuffer 64) s in
  let outputFrame := eval readFrame s in
  outputFrame = firstn (Z.to_nat (buf_get buffer 4) + 8) buffer
  /\ List.length outputFrame = Nat.min (Z.to_nat (buf_get buffer 4) + 8) 64
  /\ (8 <= List.length outputFrame <= 64)%nat
  /\ Forall is_byte outputFrame
  /\ only_sends s (exec readFrame s) [].
Proof.
  intros buffer outputFrame.
  destruct (eval_i2cReadBuffer_shape 64 s) as [Hlen Hbytes].
  fold buffer in Hlen, Hbytes.
  assert (Hb4 : is_byte (buf_get buffer 4)) by (apply buf_get_byte; exact Hbytes).
  assert (Hout : outputFrame = firstn (Z.to_nat (buf_get buffer 4) + 8) buffer).
  { unfold outputFrame, readFrame. rewrite eval_bind.
    fold buffer. unfold eval at 1, ret, fst, readFrame_slice, slice.
    cbn [skipn]. f_equal. unfold is_byte in Hb4. lia. }
  assert (Hl : List.length outputFrame = Nat.min (Z.to_nat (buf_get buffer 4) + 8) 64).
  { rewrite Hout, length_firstn, Hlen. reflexivity. }
  split; [exact Hout|]. split; [exact Hl|]. split; [lia|].
  split; [|apply readFrame_sends].
  rewrite Hout. apply Forall_firstn_bytes. exact Hbytes.
Qed.

Lemma checkOutput_loop_true (outputFrame bytes : list Z) :
  forall i : nat,
    checkOutput_loop outputFrame (map Num bytes) i = true
    <-> firstn (List.length bytes) (skipn i (outputFrame ++ repeat 0 (i + List.length bytes)))
        = bytes.
Proof.
  induction bytes as [|b t IH]; intros i.
  - simpl. split; reflexivity.
  - cbn [map checkOutput_loop differs List.length].
    assert (Hsk : skipn i (outputFrame ++ repeat 0 (i + S (List.length t)))
                  = buf_get outputFrame i
                    :: skipn (S i) (outputFrame ++ repeat 0 (S i + List.length t))).
    { replace (i + S (List.length t))%nat with (S i + List.length t)%nat by lia.
      unfold buf_get.
      set (l := outputFrame ++ repeat 0 (S i + List.length t)).
      assert (Hin : (i < List.length l)%nat).
      { unfold l. rewrite length_app, repeat_length. lia. }
      assert (Hnth : nth i l 0 = nth i outputFrame 0).
      { unfold l. destruct (Nat.lt_ge_cases i (List.length outputFrame)) as [Hi|Hi].
        - now rewrite app_nth1.
        - rewrite app_nth2 by exact Hi. rewrite (nth_overflow outputFrame 0 Hi).
          apply nth_repeat. }
      rewrite <- Hnth. apply skipn_cons_nth. exact Hin. }
    rewrite Hsk. cbn [firstn].
    destruct (buf_get outputFrame i =? b) eqn:E; cbn [negb].
    + apply Z.eqb_eq in E. rewrite IH. rewrite E. split.
      * intros Ht. now rewrite Ht.
      * intros Ht. now injection Ht.
    + apply Z.eqb_neq in E. split; [discriminate|].
      intros Ht. injection Ht as Hb _. contradiction.
Qed.

Lemma checkOutput_matches (bytes : list Z) (s : state D) :
  eval (checkOutput (map Num bytes)) s = true
  <-> eval (i2cReadBuffer (List.length bytes)) s = bytes.
Proof.
  unfold checkOutput. rewrite eval_bind, length_map.
  set (outputFrame := eval (i2cReadBuffer (List.length bytes)) s).
  destruct (eval_i2cReadBuffer_shape (List.length bytes) s) as [Hlen _].
  fold outputFrame in Hlen.
  unfold eval at 1, ret, fst.
  rewrite checkOutput_loop_true. cbn [skipn Nat.add].
  rewrite firstn_app, Hlen, Nat.sub_diag.
  rewrite (firstn_all2 outputFrame) by lia. cbn [firstn].
  rewrite app_nil_r. reflexivity.
Qed.

Lemma exec_checkOutput (arr : list num) (s : state D) :
  exec (checkOutput arr) s = exec (i2cReadBuffer (List.length arr)) s.
Proof.
  unfold checkOutput. rewrite exec_bind. reflexivity.
Qed.

(** [checkOutput] answers [true] exactly when the bytes it reads, as many as
    the array has elements, equal the array element by element; a single
    differing byte makes it [false].  It writes nothing to the bus. *)
Theorem checkOutput_true_iff (bytes : list Z) (s : state D) :
  (eval (checkOutput (map Num bytes)) s = true
   <-> eval (i2cReadBuffer (List.length bytes)) s = bytes)
  /\ only_sends s (exec (checkOutput (map Num bytes)) s) [].
Proof.
  split; [apply checkOutput_matches|apply checkOutput_sends].
Qed.

(** [wakeup] writes the priming byte 0 and the 10-byte SAMConfiguration frame
    [00 00 FF 03 FD D4 14 01 17 00], reads 7 and then 9 bytes, and sets
    [running] only when these are the acknowledgement frame and the
    confirmation [01 00 00 FF 02 FE D5 15 16]; otherwise the flag keeps the
    value it had: a failed wake-up never clears it. *)
Theorem wakeup_sets_running (s : state D) :
  let s2 := exec (writeBuffer wakeup_frame) (exec (i2cWriteBuffer [0]) s) in
  let s3 := exec (i2cReadBuffer 7) s2 in
  (running (exec wakeup s) = true
   <-> running s = true
       \/ (eval (i2cReadBuffer 7) s2 = ack_bytes
           /\ eval (i2cReadBuffer 9) s3 = [0x01; 0x00; 0x00; 0xFF; 0x02; 0xFE; 0xD5; 0x15; 0x16]))
  /\ sent (exec wakeup s)
     = sent s ++ [[0]; [0x00; 0x00; 0xFF; 0x03; 0xFD; 0xD4; 0x14; 0x01; 0x17; 0x00]]
  /\ targetID (exec wakeup s) = targetID s
  /\ targetNFCID (exec wakeup s) = targetNFCID s.
Proof.
  intros s2 s3.
  destruct (wakeup_sends s) as (Hid & Huid & Hsent).
  change [0x00; 0x00; 0xFF; 0x03; 0xFD; 0xD4; 0x14; 0x01; 0x17; 0x00]
    with (toBuffer wakeup_frame).
  split; [|auto].
  unfold wakeup. rewrite !exec_bind. fold s2.
  rewrite (exec_checkOutput ACK_FRAME s2). change (List.length ACK_FRAME) with 7%nat.
  fold s3.
  pose proof (checkOutput_matches ack_bytes s2) as Hack.
  pose proof (checkOutput_matches [0x01; 0x00; 0x00; 0xFF; 0x02; 0xFE; 0xD5; 0x15; 0x16] s3)
    as Hok.
  change (map Num ack_bytes) with ACK_FRAME in Hack.
  change (map Num [0x01; 0x00; 0x00; 0xFF; 0x02; 0xFE; 0xD5; 0x15; 0x16])
    with wakeupOK in Hok.
  change (List.length ack_bytes) with 7%nat in Hack.
  change (List.length [0x01; 0x00; 0x00; 0xFF; 0x02; 0xFE; 0xD5; 0x15; 0x16])
    with 9%nat in Hok.
  assert (Hrun : running (exec (checkOutput wakeupOK) s3) = running s).
  { destruct (checkOutput_sends wakeupOK s3) as (_ & _ & Hr & _). rewrite Hr.
    destruct (i2cReadBuffer_sends 7 s2) as (_ & _ & Hr2 & _). fold s3 in Hr2.
    rewrite Hr2. reflexivity. }
  destruct (eval (checkOutput ACK_FRAME) s2) eqn:Ea;
    destruct (eval (checkOutput wakeupOK) s3) eqn:Eo; cbn [andb].
  - split; [intros _; right; split; [apply Hack|apply Hok]; reflexivity|reflexivity].
  - rewrite exec_ret, Hrun. split; [auto|].
    intros [Hr|[_ Hb]]; [exact Hr|]. apply Hok in Hb. discriminate Hb.
  - rewrite exec_ret, Hrun. split; [auto|].
    intros [Hr|[Hb _]]; [exact Hr|]. apply Hack in Hb. discriminate Hb.
  - rewrite exec_ret, Hrun. split; [auto|].
    intros [Hr|[Hb _]]; [exact Hr|]. apply Hack in Hb. discriminate Hb.
Qed.

End Reads.

(** ** Discovery and authentication *)

Section Sessions.

Context {D : Type} `{Bus D}.

(** When the discovery response shows both sentinel bytes, [findPassiveTarget]
    ends with [targetID = 1] and with the four bytes found at offsets 14 to
    17 of the response (variant A) or 12 to 15 (variant B) as UID; each is a
    byte, and [running] is as before. *)
Theorem discovery_records_target (s : state D) :
  shows_target (discovery_response s) ->
  let outputFrame := discovery_response s in
  let sA := exec VariantA.findPassiveTarget s in
  let sB := exec VariantB.findPassiveTarget s in
  targetID sA = 1
  /\ targetNFCID sA = map Num [buf_get outputFrame 14; buf_get outputFrame 15;
                               buf_get outputFrame 16; buf_get outputFrame 17]
  /\ targetID sB = 1
  /\ targetNFCID sB = map Num [buf_get outputFrame 12; buf_get outputFrame 13;
                               buf_get outputFrame 14; buf_get outputFrame 15]
  /\ Forall is_byte outputFrame
  /\ running sA = running s /\ running sB = running s.
Proof.
  intros [H0 H8] outputFrame sA sB.
  assert (Hseen : target_seen outputFrame = true).
  { unfold target_seen. fold outputFrame in H0, H8. rewrite H0, H8. reflexivity. }
  destruct (findPassiveTarget_at_exec 14 s) as (HrA & _ & HidA & HuidA).
  destruct (findPassiveTarget_at_exec 12 s) as (HrB & _ & HidB & HuidB).
  unfold discovery_response in outputFrame. fold outputFrame in HidA, HuidA, HidB, HuidB.
  rewrite Hseen in HidA, HuidA, HidB, HuidB.
  repeat split; try assumption.
  apply eval_inListPassiveTarget_bytes.
Qed.

Lemma buf_get_firstn (buf : list Z) (n i : nat) :
  (i < n)%nat -> buf_get (firstn n buf) i = buf_get buf i.
Proof.
  unfold buf_get. revert n i. induction buf as [|x t IH]; intros n i Hi.
  - rewrite firstn_nil. reflexivity.
  - destruct n as [|n]; [lia|]. destruct i as [|i]; [reflexivity|].
    simpl. apply IH. lia.
Qed.

(** [authenticate] reports success exactly when offset 7 of the 64 bytes it
    reads as response is 0.  In a response frame that offset holds the
    response code, so a frame [.. D5 41 status ..] makes it report failure
    whatever the status at offset 8 is. *)
Theorem authenticate_tests_offset_7 (s : state D) (address : num) :
  let response := eval (i2cReadBuffer 64) (before_auth_response address s) in
  eval (VariantA.authenticate address) s = (buf_get response 7 =? 0x00)
  /\ (buf_get response 7 = 0x41 -> eval (VariantA.authenticate address) s = false).
Proof.
  intros response.
  assert (Hev : eval (VariantA.authenticate address) s = (buf_get response 7 =? 0x00)).
  { unfold VariantA.authenticate. rewrite !eval_bind.
    rewrite eval_get_targetID, exec_get_targetID.
    rewrite eval_get_targetNFCID, exec_get_targetNFCID.
    fold (before_auth_response address s).
    unfold eval at 1, ret, fst.
    unfold readFrame. rewrite eval_bind. fold response.
    unfold eval at 1, ret, fst, readFrame_slice, slice. cbn [skipn].
    rewrite buf_get_firstn; [reflexivity|].
    assert (Hb : is_byte (buf_get response 4)).
    { apply buf_get_byte. apply eval_i2cReadBuffer_shape. }
    unfold is_byte in Hb. lia. }
  split; [exact Hev|].
  intros H41. rewrite Hev, H41. reflexivity.
Qed.

End Sessions.

Lemma discovery_records_target_witness :
  shows_target (discovery_response card1234)
  /\ targetID (exec VariantA.findPassiveTarget card1234) = 1.
Proof.
  assert (Hs : shows_target (discovery_response card1234)) by (split; reflexivity).
  split; [exact Hs|].
  exact (proj1 (discovery_records_target card1234 Hs)).
Defined.

Lemma authenticate_tests_offset_7_witness :
  buf_get (eval (i2cReadBuffer 64) (before_auth_response (Num 0x04) card1234)) 7 = 0x41
  /\ buf_get (eval (i2cReadBuffer 64) (before_auth_response (Num 0x04) card1234)) 8 = 0x00
  /\ eval (VariantA.authenticate (Num 0x04)) card1234 = false.
Proof.
  assert (H7 : buf_get (eval (i2cReadBuffer 64)
                             (before_auth_response (Num 0x04) card1234)) 7 = 0x41)
    by reflexivity.
  split; [exact H7|]. split; [reflexivity|].
  exact (proj2 (authenticate_tests_offset_7 card1234 (Num 0x04)) H7).
Defined.

(** ** Variant A: what is and is not written *)

Lemma is_write_frame (cmd tid : Z) (c address : num) (rest : list num) :
  is_write cmd (toBuffer (makeCommand ([Num 0xD4; Num 0x40; Num tid; c; address] ++ rest)))
  = (to_uint8 c =? cmd).
Proof.
  unfold is_write. rewrite makeCommand_layout.
  cbn [toBuffer map app skipn to_uint8].
  change (0xD4 mod 256) with 0xD4. change (0x40 mod 256) with 0x40.
  generalize (tid mod 256) (to_uint8 c) (to_uint8 address). intros t c' a'.
  reflexivity.
Qed.

Lemma block_writes_app (l1 l2 : list (list Z)) :
  block_writes (l1 ++ l2) = block_writes l1 ++ block_writes l2.
Proof.
  unfold block_writes, written_addresses. apply flat_map_app.
Qed.

Lemma auth_frame_no_block_write (tid : Z) (uid : list num) (address : num) :
  block_writes [auth_frame tid uid address] = [].
Proof.
  unfold block_writes, written_addresses, auth_frame. cbn [flat_map].
  rewrite concatNumArr_app, is_write_frame. reflexivity.
Qed.

Lemma read_frame_no_block_write (address : num) :
  block_writes [read_frame address] = [].
Proof.
  unfold block_writes, written_addresses, read_frame. cbn [flat_map].
  change [Num 212; Num 64; Num 1; Num 48; address]
    with ([Num 212; Num 64; Num 1; Num 48; address] ++ []).
  rewrite is_write_frame. reflexivity.
Qed.

Lemma write_frame_block_write (tid : Z) (address : num) (data : list num) :
  block_writes [write_frame tid address data] = [to_uint8 address].
Proof.
  unfold block_writes, written_addresses, write_frame, buf_get. cbn [flat_map].
  rewrite concatNumArr_app, is_write_frame. cbn [to_uint8].
  change (0xA0 mod 256 =? 0xA0) with true. cbv iota.
  rewrite makeCommand_layout. reflexivity.
Qed.

Section WritesA.

Context {D : Type} `{Bus D}.

Lemma unchanged_ret {A X : Type} (f : state D -> X) (a : A) : unchanged f (ret a).
Proof. intros s. reflexivity. Qed.

Lemma unchanged_bind {A B X : Type} (f : state D -> X) (m : M D A) (k : A -> M D B) :
  unchanged f m -> (forall a, unchanged f (k a)) -> unchanged f (bind m k).
Proof.
  intros Hm Hk s. rewrite exec_bind, Hk. apply Hm.
Qed.

Lemma unchanged_if {A X : Type} (f : state D -> X) (b : bool) (m1 m2 : M D A) :
  unchanged f m1 -> unchanged f m2 -> unchanged f (if b then m1 else m2).
Proof. destruct b; auto. Qed.

Lemma unchanged_forM_list {A X : Type} (f : state D -> X) (body : nat -> A -> M D A)
      (l : list nat) :
  (forall i a, unchanged f (body i a)) -> forall a, unchanged f (forM_list l body a).
Proof.
  intros Hbody. induction l as [|i l IH]; intros a.
  - apply unchanged_ret.
  - simpl. apply unchanged_bind; [apply Hbody|exact IH].
Qed.

Lemma block_log_only_sends (s s' : state D) (frames : list (list Z)) :
  only_sends s s' frames -> block_writes frames = [] -> block_log s' = block_log s.
Proof.
  intros (_ & _ & _ & Hs) Hf. unfold block_log.
  rewrite Hs, block_writes_app, Hf. apply app_nil_r.
Qed.

Lemma wakeup_no_block_write : unchanged block_log wakeup.
Proof.
  intros s. unfold block_log. destruct (wakeup_sends s) as (_ & _ & Hs).
  rewrite Hs, block_writes_app. apply app_nil_r.
Qed.

Lemma findPassiveTarget_no_block_write : unchanged block_log VariantA.findPassiveTarget.
Proof.
  intros s. unfold block_log, VariantA.findPassiveTarget.
  destruct (findPassiveTarget_at_exec 14 s) as (_ & Hs & _).
  rewrite Hs, block_writes_app. apply app_nil_r.
Qed.

Lemma authenticate_no_block_write (address : num) :
  unchanged block_log (VariantA.authenticate address).
Proof.
  intros s. eapply block_log_only_sends; [apply authenticate_sends|].
  apply auth_frame_no_block_write.
Qed.

Lemma read16Bytes_no_block_write (address : num) :
  unchanged block_log (VariantA.read16Bytes address).
Proof.
  intros s. rewrite <- (authenticate_no_block_write address s).
  eapply block_log_only_sends; [apply read16Bytes_sends|].
  apply read_frame_no_block_write.
Qed.

Lemma open_sessionA_no_block_write : unchanged block_log open_sessionA.
Proof.
  unfold open_sessionA.
  apply unchanged_bind; [intros s; reflexivity|intros running].
  apply unchanged_bind; [|intros _; apply findPassiveTarget_no_block_write].
  apply unchanged_if; [apply wakeup_no_block_write|apply unchanged_ret].
Qed.

(** Reading never writes: [readText], [getNFCID], [read16Bytes] and
    [authenticate] send no block-write command, for every device and every
    state; the block writes of the bus log are the same before and after. *)
Theorem reading_sends_no_block_write (address : num) :
  unchanged block_log VariantA.readText
  /\ unchanged block_log VariantA.getNFCID
  /\ unchanged block_log (VariantA.read16Bytes address)
  /\ unchanged block_log (VariantA.authenticate address).
Proof.
  split; [|split; [|split]].
  - unfold VariantA.readText.
    apply unchanged_bind; [intros s; reflexivity|intros running].
    apply unchanged_bind;
      [apply unchanged_if; [apply wakeup_no_block_write|apply unchanged_ret]|intros _].
    apply unchanged_bind; [apply findPassiveTarget_no_block_write|intros _].
    cbv zeta.
    apply unchanged_bind; [intros s; reflexivity|intros tid].
    apply unchanged_if; [|apply unchanged_ret].
    apply unchanged_bind; [apply read16Bytes_no_block_write|intros outputFrame].
    unfold forM. apply unchanged_forM_list. intros j textMessage.
    apply unchanged_bind; [apply read16Bytes_no_block_write|intros messageFrame].
    apply unchanged_ret.
  - unfold VariantA.getNFCID.
    apply unchanged_bind; [apply findPassiveTarget_no_block_write|intros _].
    apply unchanged_bind; [intros s; reflexivity|intros tid].
    apply unchanged_if; [|apply unchanged_ret].
    apply unchanged_bind; [intros s; reflexivity|intros uid].
    apply unchanged_ret.
  - apply read16Bytes_no_block_write.
  - apply authenticate_no_block_write.
Qed.

Lemma open_sessionA_sent (s : state D) :
  sent (exec open_sessionA s)
  = sent s ++ (if running s then [] else [[0]; toBuffer wakeup_frame])
    ++ [toBuffer listTarget].
Proof.
  unfold open_sessionA. rewrite !exec_bind.
  rewrite eval_get_running, exec_get_running.
  destruct (findPassiveTarget_at_exec
              14 (exec (if negb (running s) then wakeup else ret tt) s)) as (_ & Hs & _).
  unfold VariantA.findPassiveTarget. rewrite Hs.
  destruct (running s); cbn [negb].
  - rewrite exec_ret. reflexivity.
  - destruct (wakeup_sends s) as (_ & _ & Hw). rewrite Hw.
    now rewrite <- app_assoc.
Qed.

(** Without a target, [writeText] and [readText] stop after the discovery:
    they end in the state the discovery left, having sent only the wake-up
    frames (when the driver was not running) and the discovery command;
    nothing is authenticated, read or written, and [readText] returns the
    empty string. *)
Theorem without_target_nothing_is_done (s : state D) (message : string) :
  targetID (exec open_sessionA s) <> 1 ->
  exec (VariantA.writeText message) s = exec open_sessionA s
  /\ exec VariantA.readText s = exec open_sessionA s
  /\ eval VariantA.readText s = ""%string
  /\ sent (exec open_sessionA s)
     = sent s ++ (if running s then [] else [[0]; toBuffer wakeup_frame])
       ++ [toBuffer listTarget].
Proof.
  intros Hno. split; [|split; [|split]].
  - revert Hno. unfold VariantA.writeText, open_sessionA. rewrite !exec_bind.
    rewrite !eval_get_running, !exec_get_running, eval_get_targetID, exec_get_targetID.
    intros Hno. destruct (targetID _ =? 1) eqn:E; [|reflexivity].
    apply Z.eqb_eq in E. contradiction.
  - revert Hno. unfold VariantA.readText, open_sessionA. rewrite !exec_bind.
    rewrite !eval_get_running, !exec_get_running, eval_get_targetID, exec_get_targetID.
    intros Hno. destruct (targetID _ =? 1) eqn:E; [|reflexivity].
    apply Z.eqb_eq in E. contradiction.
  - revert Hno. unfold VariantA.readText, open_sessionA. rewrite !exec_bind, !eval_bind.
    rewrite !eval_get_running, !exec_get_running, eval_get_targetID, exec_get_targetID.
    intros Hno. destruct (targetID _ =? 1) eqn:E; [|reflexivity].
    apply Z.eqb_eq in E. contradiction.
  - apply open_sessionA_sent.
Qed.

End WritesA.

Lemma without_target_nothing_is_done_witness :
  targetID (exec open_sessionA (initial no_card)) <> 1
  /\ eval VariantA.readText (initial no_card) = ""%string.
Proof.
  assert (Hno : targetID (exec open_sessionA (initial no_card)) <> 1)
    by (vm_compute; intros Heq; discriminate Heq).
  split; [exact Hno|].
  exact (proj1 (proj2 (proj2 (without_target_nothing_is_done (initial no_card) "" Hno)))).
Defined.

(** ** Variant A: what [writeText] sends *)

Lemma substring_length (s : string) :
  forall n : nat, (n <= String.length s)%nat -> String.length (substring 0 n s) = n.
Proof.
  induction s as [|c s IH]; intros n Hn.
  - simpl in Hn. assert (n = 0%nat) as -> by lia. reflexivity.
  - destruct n as [|n]; [reflexivity|].
    simpl in *. rewrite IH by lia. reflexivity.
Qed.

Lemma upper_bound_unique (P : nat -> Prop) (a b : nat) :
  (forall k, (k < a)%nat <-> P k) -> (forall k, (k < b)%nat <-> P k) -> a = b.
Proof.
  intros Ha Hb.
  destruct (Nat.lt_trichotomy a b) as [Hlt|[Heq|Hgt]]; [|exact Heq|].
  - apply Hb in Hlt. apply Ha in Hlt. lia.
  - apply Ha in Hgt. apply Hb in Hgt. lia.
Qed.

Lemma sixteenths_lt (k n : nat) :
  (0 + inject_Z (Z.of_nat k) < inject_Z (Z.of_nat n) / 16 + 1)%Q
  <-> (16 * k < n + 16)%nat.
Proof.
  assert (Hz : (16 * k < n + 16)%nat <-> (16 * Z.of_nat k < Z.of_nat n + 16)%Z) by lia.
  rewrite Hz, Zlt_Qlt, inject_Z_plus, inject_Z_mult.
  change (inject_Z 16) with 16%Q.
  generalize (inject_Z (Z.of_nat k)) (inject_Z (Z.of_nat n)). intros a b.
  assert (Hdiv : (b / 16 == b * (1 # 16))%Q) by reflexivity.
  split; intros; lra.
Qed.

(** The number of turns of the loops over [blocksNeeded = length/16 + 1]:
    one more than the number of blocks the text occupies. *)
Lemma blocks_count (n : nat) :
  iterations 0 (inject_Z (Z.of_nat n) / 16 + 1) = ((n + 15) / 16 + 1)%nat.
Proof.
  apply (upper_bound_unique (fun k => (16 * k < n + 16)%nat)).
  - intros k. rewrite iterations_spec. apply sixteenths_lt.
  - intros k. pose proof (Nat.div_mod_eq (n + 15) 16) as Hd.
    pose proof (Nat.mod_upper_bound (n + 15) 16 ltac:(lia)) as Hm. lia.
Qed.

Lemma truncated_length (message : string) :
  String.length (if (224 <? String.length message)%nat
                 then substring 0 224 message else message)
  = Nat.min (String.length message) 224.
Proof.
  destruct (224 <? String.length message)%nat eqn:E.
  - apply Nat.ltb_lt in E. rewrite substring_length by lia. lia.
  - apply Nat.ltb_ge in E. lia.
Qed.

Section TextWritesA.

Context {D : Type} `{Bus D}.

(** A message longer than 224 characters is cut without notice to the
    caller: [writeText] does exactly what it does on the first 224
    characters, on every device and from every state. *)
Theorem writeText_truncates (message : string) (s : state D) :
  (224 < String.length message)%nat ->
  VariantA.writeText message s = VariantA.writeText (substring 0 224 message) s.
Proof.
  intros Hlen.
  unfold VariantA.writeText, bind.
  destruct (get_running s) as [r s0].
  destruct ((if negb r then wakeup else ret tt) s0) as [u1 s1].
  destruct (VariantA.findPassiveTarget s1) as [u2 s2].
  destruct (get_targetID s2) as [tid s3].
  destruct (tid =? 1); [|reflexivity].
  change (16 * List.length (VariantA.dataBlocks))%nat with 224%nat.
  assert (E1 : (224 <? String.length message)%nat = true) by (apply Nat.ltb_lt; exact Hlen).
  assert (E2 : (224 <? String.length (substring 0 224 message))%nat = false).
  { apply Nat.ltb_ge. rewrite substring_length by lia. lia. }
  rewrite E1, E2. reflexivity.
Qed.

Lemma write16Bytes_block_log (data : list num) (address : num) (s : state D) :
  block_log (exec (VariantA.write16Bytes data address) s)
  = block_log s ++ [to_uint8 address].
Proof.
  destruct (write16Bytes_sends data address s) as (_ & _ & _ & Hs).
  unfold block_log at 1. rewrite Hs, block_writes_app, write_frame_block_write.
  f_equal. apply authenticate_no_block_write.
Qed.

Lemma forM_list_write16Bytes (data : nat -> list num) (address : nat -> num)
      (l : list nat) :
  forall s : state D,
    block_log (exec (forM_list l (fun j _ => VariantA.write16Bytes (data j) (address j)) tt) s)
    = block_log s ++ map (fun j => to_uint8 (address j)) l.
Proof.
  induction l as [|j l IH]; intros s.
  - simpl. now rewrite app_nil_r.
  - cbn [forM_list map]. rewrite exec_bind.
    replace (eval (VariantA.write16Bytes (data j) (address j)) s) with tt
      by (now destruct (eval _ s)).
    rewrite IH, write16Bytes_block_log. now rewrite <- app_assoc.
Qed.

Lemma data_block_addresses (n : nat) :
  (n <= 15)%nat ->
  map (fun j => to_uint8 (arr_get VariantA.dataBlocks j)) (seq 0 n)
  = firstn n [5; 6; 8; 9; 10; 12; 13; 14; 16; 17; 18; 20; 21; 22; 0].
Proof.
  intros Hn.
  do 16 (destruct n as [|n]; [reflexivity|]). lia.
Qed.

(** With a target, [writeText] writes the header block 4 first and then one
    data block more than the text occupies, in the order of [dataBlocks]: for
    a text of [n] characters (at most 224 after the cut) the block writes go
    to 4 and to the first [(n + 15) / 16 + 1] of 5, 6, 8, 9, 10, 12, 13, 14,
    16, 17, 18, 20, 21, 22, 0.  The empty text still writes block 5, and from
    209 characters on the fifteenth write carries the address byte 0. *)
Theorem writeText_block_writes (message : string) (s : state D) :
  targetID (exec open_sessionA s) = 1 ->
  let n := Nat.min (String.length message) 224 in
  block_log (exec (VariantA.writeText message) s)
  = block_log s
    ++ 4 :: firstn ((n + 15) / 16 + 1)
                   [5; 6; 8; 9; 10; 12; 13; 14; 16; 17; 18; 20; 21; 22; 0].
Proof.
  intros Hfound n.
  rewrite <- (open_sessionA_no_block_write s).
  revert Hfound. unfold VariantA.writeText, open_sessionA. rewrite !exec_bind.
  rewrite !eval_get_running, !exec_get_running, eval_get_targetID, exec_get_targetID.
  intros Hfound. rewrite Hfound. cbn [Z.eqb Pos.eqb]. cbv zeta.
  change (16 * List.length (VariantA.dataBlocks))%nat with 224%nat.
  rewrite exec_bind. unfold forM.
  rewrite forM_list_write16Bytes, write16Bytes_block_log.
  rewrite Nat.sub_0_r, blocks_count, truncated_length. fold n.
  rewrite <- app_assoc. f_equal. cbn [app to_uint8]. f_equal.
  apply data_block_addresses.
  assert (Hn : (n <= 224)%nat) by (unfold n; lia).
  pose proof (Nat.Div0.div_le_mono (n + 15) 239 16 ltac:(lia)) as Hd.
  change (239 / 16)%nat with 14%nat in Hd. lia.
Qed.

End TextWritesA.

Lemma writeText_truncates_witness :
  (224 < String.length text225)%nat
  /\ VariantA.writeText text225 card1234
     = VariantA.writeText (substring 0 224 text225) card1234.
Proof.
  assert (Hlen : (224 < String.length text225)%nat) by (vm_compute; lia).
  split; [exact Hlen|].
  exact (writeText_truncates text225 card1234 Hlen).
Defined.

Lemma writeText_block_writes_witness :
  targetID (exec open_sessionA card1234) = 1
  /\ block_log (exec (VariantA.writeText "" ) card1234) = block_log card1234 ++ [4; 5].
Proof.
  assert (Hf : targetID (exec open_sessionA card1234) = 1) by reflexivity.
  split; [exact Hf|].
  exact (writeText_block_writes "" card1234 Hf).
Defined.

(** ** Variant A: the blocks of a text *)

Lemma last_len_zero (q : Q) : (q - (q / 16 + 1 - 1) * 16 == 0)%Q.
Proof.
  assert (Hdiv : (q / 16 == q * (1 # 16))%Q) by reflexivity.
  lra.
Qed.

Lemma iterations_zero (q : Q) : (q == 0)%Q -> iterations 0 q = 0%nat.
Proof.
  intros Hq. unfold iterations.
  assert (Hc : Qceiling (q - 0) = Qceiling 0).
  { apply Qceiling_comp. rewrite Hq. reflexivity. }
  rewrite Hc. reflexivity.
Qed.

Lemma iterations_from_zero (q : Q) : (q == 0)%Q -> iterations q 16 = 16%nat.
Proof.
  intros Hq. unfold iterations.
  assert (Hc : Qceiling (16 - q) = Qceiling 16).
  { apply Qceiling_comp. rewrite Hq. reflexivity. }
  rewrite Hc. reflexivity.
Qed.

Lemma index_of_zero (q : Q) : (q == 0)%Q -> index_of q = 0%nat.
Proof.
  intros Hq. unfold index_of.
  assert (Hc : Qfloor q = Qfloor 0) by (apply Qfloor_comp; exact Hq).
  rewrite Hc. reflexivity.
Qed.

Lemma full_block_test (j n : nat) :
  Qltb (inject_Z (Z.of_nat j)) (inject_Z (Z.of_nat n) / 16 + 1 - 1)
  = (16 * j <? n)%nat.
Proof.
  unfold Qltb.
  assert (Hiff : Qle_bool (inject_Z (Z.of_nat n) / 16 + 1 - 1) (inject_Z (Z.of_nat j)) = true
                 <-> (n <= 16 * j)%nat).
  { rewrite Qle_bool_iff.
    assert (Hz : (n <= 16 * j)%nat <-> (Z.of_nat n <= 16 * Z.of_nat j)%Z) by lia.
    rewrite Hz, Zle_Qle, inject_Z_mult. change (inject_Z 16) with 16%Q.
    generalize (inject_Z (Z.of_nat j)) (inject_Z (Z.of_nat n)). intros a b.
    assert (Hdiv : (b / 16 == b * (1 # 16))%Q) by reflexivity.
    split; intros; lra. }
  destruct (Qle_bool _ _) eqn:E; cbn [negb]; symmetry.
  - apply Nat.ltb_ge. apply Hiff. reflexivity.
  - apply Nat.ltb_lt. apply Nat.nle_gt. intros Hle. apply Hiff in Hle. discriminate Hle.
Qed.

Lemma firstn_seq_le (k n start : nat) :
  (k <= n)%nat -> firstn k (seq start n) = seq start k.
Proof.
  revert n start. induction k as [|k IH]; intros n start Hk; [reflexivity|].
  destruct n as [|n]; [lia|]. simpl. f_equal. apply IH. lia.
Qed.

Lemma charCodeAt_past_end (message : string) :
  forall i : nat, (String.length message <= i)%nat -> charCodeAt message i = NaN.
Proof.
  unfold charCodeAt.
  induction message as [|c t IH]; intros i Hi; [destruct i; reflexivity|].
  destruct i as [|i]; [simpl in Hi; lia|].
  simpl in *. apply IH. lia.
Qed.

Lemma writeText_data_block (message : string) (i : nat) :
  (let blocksNeeded := (inject_Z (Z.of_nat (String.length message)) / 16 + 1)%Q in
   let blockData : list num := [] in
   let len :=
     (inject_Z (Z.of_nat (String.length message)) - (blocksNeeded - 1) * 16)%Q in
   let len := if Qltb (inject_Z (Z.of_nat i)) (blocksNeeded - 1)%Q then 16%Q else len in
   let blockData :=
     for_upto (iterations 0 len)
       (fun j blockData => arr_set NaN blockData j (charCodeAt message (i * 16 + j)))
       blockData in
   for_upto (iterations len 16)
     (fun k blockData => arr_set NaN blockData (index_of len + k) (Num 0))
     blockData)
  = text_block message i.
Proof.
  cbv zeta. rewrite full_block_test. unfold text_block.
  destruct (16 * i <? String.length message)%nat.
  - change (iterations 0 16) with 16%nat. change (iterations 16 16) with 0%nat.
    unfold for_upto, for_loop. rewrite !Nat.sub_0_r.
    rewrite (fill_from_nil NaN (fun j => charCodeAt message (i * 16 + j)) 16).
    reflexivity.
  - pose proof (last_len_zero (inject_Z (Z.of_nat (String.length message)))) as Hz.
    rewrite (iterations_zero _ Hz), (iterations_from_zero _ Hz), (index_of_zero _ Hz).
    reflexivity.
Qed.

Lemma writeText_data_map (message : string) :
  VariantA.writeText_data message
  = map (text_block message) (seq 0 ((String.length message + 15) / 16 + 1)).
Proof.
  unfold VariantA.writeText_data. cbv zeta. unfold for_upto at 1, for_loop at 1.
  rewrite Nat.sub_0_r, blocks_count.
  etransitivity;
    [apply (fill_from_nil [] (fun i => _) ((String.length message + 15) / 16 + 1))|].
  apply map_ext. intros i. apply writeText_data_block.
Qed.

(** The blocks [writeText] prepares for a text of [n] characters: one block
    more than the text occupies, each of exactly 16 entries; the blocks that
    start inside the text hold the codes of their 16 characters, the block
    after the text holds zeros.  When [n] is not a multiple of 16 the last
    block of text is filled up with [NaN], not with zeros. *)
Theorem writeText_data_blocks (message : string) :
  let n := String.length message in
  VariantA.writeText_data message = map (text_block message) (seq 0 ((n + 15) / 16 + 1))
  /\ Forall (fun blockData => List.length blockData = 16%nat)
            (VariantA.writeText_data message)
  /\ (n mod 16 <> 0 ->
      In NaN (nth (n / 16) (VariantA.writeText_data message) [])
      /\ firstn (n mod 16) (nth (n / 16) (VariantA.writeText_data message) [])
         = map (fun j => charCodeAt message (n / 16 * 16 + j)) (seq 0 (n mod 16)))%nat.
Proof.
  intros n.
  pose proof (writeText_data_map message) as Hdata. fold n in Hdata.
  split; [exact Hdata|]. split.
  - rewrite Hdata. apply Forall_map. apply Forall_forall. intros i _.
    unfold text_block. destruct (_ <? _)%nat.
    + rewrite length_map, length_seq. reflexivity.
    + apply repeat_length.
  - intros Hmod. rewrite Hdata.
    pose proof (Nat.div_mod_eq n 16) as Hd.
    pose proof (Nat.mod_upper_bound n 16 ltac:(lia)) as Hm.
    pose proof (Nat.div_mod_eq (n + 15) 16) as Hd'.
    pose proof (Nat.mod_upper_bound (n + 15) 16 ltac:(lia)) as Hm'.
    rewrite (nth_indep _ [] (text_block message 0))
      by (rewrite length_map, length_seq; lia).
    rewrite map_nth, seq_nth by lia. cbn [Nat.add].
    unfold text_block.
    assert (E : (16 * (n / 16) <? String.length message)%nat = true)
      by (apply Nat.ltb_lt; fold n; lia).
    rewrite E. split.
    + apply in_map_iff. exists 15%nat. split; [|apply in_seq; lia].
      apply charCodeAt_past_end. fold n. lia.
    + rewrite firstn_map. f_equal. apply firstn_seq_le. lia.
Qed.

Lemma writeText_data_blocks_witness :
  (String.length "A" mod 16 <> 0)%nat
  /\ In NaN (nth (String.length "A" / 16) (VariantA.writeText_data "A") []).
Proof.
  assert (Hm : (String.length "A" mod 16 <> 0)%nat) by (vm_compute; lia).
  split; [exact Hm|].
  exact (proj1 (proj2 (proj2 (writeText_data_blocks "A")) Hm)).
Defined.

Lemma flat_map_ext_seq {B : Type} (f g : nat -> list B) (n : nat) :
  (forall j, (j < n)%nat -> f j = g j) ->
  flat_map f (seq 0 n) = flat_map g (seq 0 n).
Proof.
  intros Hfg. induction n as [|n IH]; [reflexivity|].
  rewrite seq_S, !flat_map_app. cbn [flat_map Nat.add].
  rewrite IH by (intros j Hj; apply Hfg; lia).
  rewrite Hfg by lia. reflexivity.
Qed.

Section TextTraceA.

Context {D : Type} `{Bus D}.

Lemma write16Bytes_exchange (data : list num) (address : num) (s : state D) :
  only_sends s (exec (VariantA.write16Bytes data address) s)
             (write_exchange (targetID s) (targetNFCID s) address data).
Proof.
  exact (only_sends_trans _ _ _ [_] [_]
           (authenticate_sends address s) (write16Bytes_sends data address s)).
Qed.

Lemma read16Bytes_exchange (address : num) (s : state D) :
  only_sends s (exec (VariantA.read16Bytes address) s)
             (read_exchange (targetID s) (targetNFCID s) address).
Proof.
  exact (only_sends_trans _ _ _ [_] [_]
           (authenticate_sends address s) (read16Bytes_sends address s)).
Qed.

Lemma forM_list_write_exchanges (data : nat -> list num) (address : nat -> num)
      (l : list nat) :
  forall s : state D,
    only_sends s
      (exec (forM_list l (fun j _ => VariantA.write16Bytes (data j) (address j)) tt) s)
      (flat_map (fun j => write_exchange (targetID s) (targetNFCID s) (address j) (data j)) l).
Proof.
  induction l as [|j l IH]; intros s.
  - apply only_sends_refl.
  - cbn [forM_list flat_map]. rewrite exec_bind.
    replace (eval (VariantA.write16Bytes (data j) (address j)) s) with tt
      by (now destruct (eval _ s)).
    pose proof (write16Bytes_exchange (data j) (address j) s) as Hj.
    pose proof (IH (exec (VariantA.write16Bytes (data j) (address j)) s)) as Hl.
    destruct Hj as (Hid & Huid & Hr & Hs).
    rewrite Hid, Huid in Hl.
    exact (only_sends_trans _ _ _ _ _ (conj Hid (conj Huid (conj Hr Hs))) Hl).
Qed.

(** With a target, [writeText] sends, after the discovery, one
    authentication followed by one write for the header block 4, whose data
    is the length of the stored text followed by 15 zeros, and then, for each
    prepared block in turn, one authentication of its address followed by the
    write of its 16 entries; every write is thus preceded by an
    authentication of the same address, and the session variables stay as the
    discovery left them. *)
Theorem writeText_sends (message : string) (s : state D) :
  targetID (exec open_sessionA s) = 1 ->
  let s1 := exec open_sessionA s in
  let text := stored_text message in
  let n := String.length text in
  only_sends s1 (exec (VariantA.writeText message) s)
    (write_exchange 1 (targetNFCID s1) (Num 0x04)
                    (Num (Z.of_nat n) :: repeat (Num 0) 15)
     ++ flat_map (fun j => write_exchange 1 (targetNFCID s1)
                                          (arr_get VariantA.dataBlocks j)
                                          (text_block text j))
                 (seq 0 ((n + 15) / 16 + 1))).
Proof.
  intros Hfound s1 text n.
  assert (Hrun : exec (VariantA.writeText message) s
                 = exec (forM_list (seq 0 ((n + 15) / 16 + 1))
                           (fun j _ => VariantA.write16Bytes
                                         (nth j (VariantA.writeText_data text) [])
                                         (arr_get VariantA.dataBlocks j)) tt)
                        (exec (VariantA.write16Bytes
                                 (Num (Z.of_nat n) :: repeat (Num 0) 15) (Num 0x04)) s1)).
  { revert Hfound. unfold s1, VariantA.writeText, open_sessionA. rewrite !exec_bind.
    rewrite !eval_get_running, !exec_get_running, eval_get_targetID, exec_get_targetID.
    intros Hfound. rewrite Hfound. cbn [Z.eqb Pos.eqb]. cbv zeta.
    change (16 * List.length (VariantA.dataBlocks))%nat with 224%nat.
    fold (stored_text message). fold text. fold n.
    rewrite exec_bind. unfold forM. rewrite Nat.sub_0_r, blocks_count. fold n.
    reflexivity. }
  rewrite Hrun.
  pose proof (write16Bytes_exchange (Num (Z.of_nat n) :: repeat (Num 0) 15) (Num 0x04) s1)
    as Hh.
  set (s2 := exec (VariantA.write16Bytes
                     (Num (Z.of_nat n) :: repeat (Num 0) 15) (Num 0x04)) s1) in *.
  pose proof (forM_list_write_exchanges
                (fun j => nth j (VariantA.writeText_data text) [])
                (fun j => arr_get VariantA.dataBlocks j)
                (seq 0 ((n + 15) / 16 + 1)) s2) as Hl.
  destruct Hh as (Hid & Huid & Hr & Hs).
  rewrite Hid, Huid in Hl. fold s1 in Hfound. rewrite Hfound in Hl, Hs.
  rewrite (flat_map_ext_seq _
             (fun j => write_exchange 1 (targetNFCID s1)
                                      (arr_get VariantA.dataBlocks j) (text_block text j)))
    in Hl.
  - exact (only_sends_trans _ _ _ _ _ (conj Hid (conj Huid (conj Hr Hs))) Hl).
  - intros j Hj. f_equal.
    pose proof (writeText_data_map text) as Hdata. fold n in Hdata.
    rewrite Hdata.
    rewrite (nth_indep _ [] (text_block text 0))
      by (rewrite length_map, length_seq; exact Hj).
    rewrite map_nth, seq_nth by exact Hj. reflexivity.
Qed.

End TextTraceA.

Lemma writeText_sends_witness :
  targetID (exec open_sessionA card1234) = 1
  /\ targetNFCID (exec (VariantA.writeText "A") card1234)
     = targetNFCID (exec open_sessionA card1234).
Proof.
  assert (Hf : targetID (exec open_sessionA card1234) = 1) by reflexivity.
  split; [exact Hf|].
  exact (proj1 (proj2 (writeText_sends "A" card1234 Hf))).
Defined.

(** ** Variant A: what [readText] reads and returns *)

Lemma append_chars_length (f : nat -> Z) (k : nat) (textMessage : string) :
  String.length (for_upto k (fun i t => (t ++ fromCharCode (f i))%string) textMessage)
  = (String.length textMessage + k)%nat.
Proof.
  unfold for_upto, for_loop. rewrite Nat.sub_0_r.
  induction k as [|k IH]; [simpl; lia|].
  rewrite seq_S, fold_left_app. cbn [fold_left Nat.add].
  rewrite string_length_append, IH. simpl. lia.
Qed.

Lemma taken_total (n : nat) :
  (n < 256)%nat ->
  list_sum (map (taken_from_block (Z.of_nat n)) (seq 0 ((n + 15) / 16 + 1)))
  = (16 * ((n + 15) / 16))%nat.
Proof.
  intros Hn.
  assert (Hall : forallb (fun k => Nat.eqb
                            (list_sum (map (taken_from_block (Z.of_nat k))
                                           (seq 0 ((k + 15) / 16 + 1))))
                            (16 * ((k + 15) / 16)))
                         (seq 0 256) = true) by (vm_compute; reflexivity).
  rewrite forallb_forall in Hall.
  apply Nat.eqb_eq. apply Hall. apply in_seq. lia.
Qed.

Section TextReadsA.

Context {D : Type} `{Bus D}.

Lemma forM_list_read_exchanges {A : Type} (address : nat -> num)
      (k : nat -> list Z -> A -> A) (l : list nat) :
  forall (a : A) (s : state D),
    only_sends s
      (exec (forM_list l (fun j a => bind (VariantA.read16Bytes (address j))
                                          (fun frame => ret (k j frame a))) a) s)
      (flat_map (fun j => read_exchange (targetID s) (targetNFCID s) (address j)) l).
Proof.
  induction l as [|j l IH]; intros a s.
  - apply only_sends_refl.
  - cbn [forM_list flat_map]. rewrite exec_bind.
    assert (Hj : only_sends s
                   (exec (bind (VariantA.read16Bytes (address j))
                               (fun frame => ret (k j frame a))) s)
                   (read_exchange (targetID s) (targetNFCID s) (address j))).
    { rewrite exec_bind, exec_ret. apply read16Bytes_exchange. }
    set (s1 := exec (bind (VariantA.read16Bytes (address j))
                          (fun frame => ret (k j frame a))) s) in *.
    pose proof (IH (eval (bind (VariantA.read16Bytes (address j))
                               (fun frame => ret (k j frame a))) s) s1) as Hl.
    destruct Hj as (Hid & Huid & Hr & Hs).
    rewrite Hid, Huid in Hl.
    exact (only_sends_trans _ _ _ _ _ (conj Hid (conj Huid (conj Hr Hs))) Hl).
Qed.

Lemma forM_list_text_length (address : nat -> num) (taken : nat -> nat) (l : list nat) :
  forall (textMessage : string) (s : state D),
    String.length
      (eval (forM_list l
               (fun j textMessage =>
                  bind (VariantA.read16Bytes (address j))
                       (fun messageFrame =>
                          ret (for_upto (taken j)
                                 (fun i t =>
                                    (t ++ fromCharCode
                                            (buf_get (slice messageFrame 9 16) i))%string)
                                 textMessage)))
               textMessage) s)
    = (String.length textMessage + list_sum (map taken l))%nat.
Proof.
  induction l as [|j l IH]; intros textMessage s.
  - cbn [forM_list map]. unfold eval, ret, fst, list_sum. cbn [fold_right]. lia.
  - cbn [forM_list map]. rewrite eval_bind, IH.
    rewrite eval_bind. unfold eval at 1, ret, fst.
    rewrite append_chars_length. unfold list_sum. cbn [fold_right]. lia.
Qed.

(** With a target, [readText] sends an authentication and a read for the
    header block 4 and then, for a header that announces [n] characters, an
    authentication and a read for each of the first [(n + 15) / 16 + 1]
    entries of [dataBlocks] (entries past its end are [undefined]).  The
    string it returns has [16 * ((n + 15) / 16)] characters: always whole
    blocks of 16, never the announced [n] unless [n] is a multiple of 16. *)
Theorem readText_reads_whole_blocks (s : state D) :
  targetID (exec open_sessionA s) = 1 ->
  let s1 := exec open_sessionA s in
  let n := Z.to_nat (buf_get (eval (VariantA.read16Bytes (Num 0x04)) s1) 9) in
  String.length (eval VariantA.readText s) = (16 * ((n + 15) / 16))%nat
  /\ only_sends s1 (exec VariantA.readText s)
       (read_exchange 1 (targetNFCID s1) (Num 0x04)
        ++ flat_map (fun j => read_exchange 1 (targetNFCID s1)
                                            (arr_get VariantA.dataBlocks j))
                    (seq 0 ((n + 15) / 16 + 1))).
Proof.
  intros Hfound s1 n.
  set (outputFrame := eval (VariantA.read16Bytes (Num 0x04)) s1).
  assert (Hbyte : is_byte (buf_get outputFrame 9)).
  { apply buf_get_byte. unfold outputFrame, VariantA.read16Bytes.
    rewrite !eval_bind. apply eval_readFrame_bytes. }
  assert (Hn : buf_get outputFrame 9 = Z.of_nat n).
  { unfold n. fold outputFrame. unfold is_byte in Hbyte. lia. }
  assert (Hn256 : (n < 256)%nat) by (unfold is_byte in Hbyte; rewrite Hn in Hbyte; lia).
  assert (Hs1 : exec VariantA.findPassiveTarget
                     (exec (if negb (running s) then wakeup else ret tt) s) = s1).
  { unfold s1, open_sessionA. rewrite !exec_bind.
    rewrite eval_get_running, exec_get_running. reflexivity. }
  split.
  - unfold VariantA.readText. rewrite !eval_bind, ?exec_bind.
    rewrite ?eval_get_running, ?exec_get_running, ?eval_get_targetID, ?exec_get_targetID.
    rewrite Hs1. fold s1 in Hfound. rewrite Hfound. cbn [Z.eqb Pos.eqb]. cbv zeta.
    rewrite eval_bind. unfold forM. rewrite Nat.sub_0_r.
    fold outputFrame. rewrite Hn, blocks_count.
    rewrite (forM_list_text_length (fun j => arr_get VariantA.dataBlocks j)
                                   (taken_from_block (Z.of_nat n))).
    rewrite taken_total by exact Hn256. reflexivity.
  - unfold VariantA.readText. rewrite !exec_bind.
    rewrite !eval_get_running, !exec_get_running, eval_get_targetID, exec_get_targetID.
    rewrite Hs1. fold s1 in Hfound. rewrite Hfound. cbn [Z.eqb Pos.eqb]. cbv zeta.
    rewrite exec_bind. unfold forM. rewrite Nat.sub_0_r.
    fold outputFrame. rewrite Hn, blocks_count.
    pose proof (read16Bytes_exchange (Num 0x04) s1) as Hh.
    set (s2 := exec (VariantA.read16Bytes (Num 0x04)) s1) in *.
    pose proof (forM_list_read_exchanges
                  (fun j => arr_get VariantA.dataBlocks j)
                  (fun j messageFrame textMessage =>
                     for_upto (taken_from_block (Z.of_nat n) j)
                       (fun i t =>
                          (t ++ fromCharCode (buf_get (slice messageFrame 9 16) i))%string)
                       textMessage)
                  (seq 0 ((n + 15) / 16 + 1)) ""%string s2) as Hl.
    destruct Hh as (Hid & Huid & Hr & Hs).
    rewrite Hid, Huid, Hfound in Hl. rewrite Hfound in Hs.
    exact (only_sends_trans _ _ _ _ _ (conj Hid (conj Huid (conj Hr Hs))) Hl).
Qed.

End TextReadsA.

Lemma readText_reads_whole_blocks_witness :
  targetID (exec open_sessionA after_write_A) = 1
  /\ String.length (eval VariantA.readText after_write_A) = 16%nat.
Proof.
  assert (Hf : targetID (exec open_sessionA after_write_A) = 1) by reflexivity.
  split; [exact Hf|].
  exact (proj1 (readText_reads_whole_blocks after_write_A Hf)).
Defined.

(** ** Variant B: formatting and the NDEF text record *)

Section RecordB.

Context {D : Type} `{Bus D}.
Local Open Scope drv_scope.

(** [formatAsNdef] with a target writes 36 pages and no other: page 4 with
    [03 04 D8 00], page 5 with [00 00 FE 00] and pages 6 to [0x27] with
    zeros, so it stays below the ceiling [0x28]; without a target it stops
    after the discovery. *)
Theorem formatAsNdef_sends (s : state D) :
  let s1 := exec open_session s in
  (targetID s1 = 1 -> only_sends s1 (exec VariantB.formatAsNdef s) (format_frames 1))
  /\ (targetID s1 <> 1 -> exec VariantB.formatAsNdef s = s1)
  /\ page_writes (format_frames 1) = map Z.of_nat (seq 4 36)
  /\ Forall (fun a => 0x04 <= a < 0x28) (page_writes (format_frames 1)).
Proof.
  intros s1.
  assert (Hrun : exec VariantB.formatAsNdef s
                 = if targetID s1 =? 1
                   then exec (forM 6 0x28
                                (fun address _ =>
                                   VariantB.write4Bytes
                                     [Num 0; Num 0; Num 0; Num 0] (Z.of_nat address)) tt)
                             (exec (VariantB.write4Bytes [Num 0; Num 0; Num 254; Num 0] 5)
                                (exec (VariantB.write4Bytes [Num 3; Num 4; Num 216; Num 0] 4)
                                      s1))
                   else s1).
  { unfold s1, VariantB.formatAsNdef, open_session. rewrite !exec_bind.
    rewrite !eval_get_running, !exec_get_running, eval_get_targetID, exec_get_targetID.
    destruct (targetID _ =? 1); [|reflexivity].
    rewrite !exec_bind. reflexivity. }
  split; [|split; [|split]].
  - intros Hfound. rewrite Hrun, Hfound. cbn [Z.eqb Pos.eqb].
    pose proof (write4Bytes_sends [Num 3; Num 4; Num 216; Num 0] 4 s1) as H1.
    set (s2 := exec (VariantB.write4Bytes [Num 3; Num 4; Num 216; Num 0] 4) s1) in *.
    pose proof (write4Bytes_sends [Num 0; Num 0; Num 254; Num 0] 5 s2) as H2.
    set (s3 := exec (VariantB.write4Bytes [Num 0; Num 0; Num 254; Num 0] 5) s2) in *.
    pose proof (forM_list_write4Bytes [Num 0; Num 0; Num 0; Num 0] (seq 6 34) s3) as H3.
    pose proof (only_sends_trans _ _ _ _ _ (only_sends_trans _ _ _ _ _ H1 H2) H3) as H4.
    destruct H1 as (T1 & _). destruct H2 as (T2 & _).
    rewrite T2, T1, Hfound in H4. exact H4.
  - intros Hno. rewrite Hrun.
    destruct (targetID s1 =? 1) eqn:E; [|reflexivity].
    apply Z.eqb_eq in E. contradiction.
  - reflexivity.
  - assert (Hpages : page_writes (format_frames 1) = map Z.of_nat (seq 4 36)) by reflexivity.
    rewrite Hpages. apply Forall_forall. intros a Hin.
    apply in_map_iff in Hin. destruct Hin as (k & <- & Hk). apply in_seq in Hk. lia.
Qed.

Lemma eval_ret {A : Type} (a : A) (s : state D) : eval (ret a) s = a.
Proof. reflexivity. Qed.

Lemma collect_pages_shape (codes : list num) :
  forall (pageToAdd : list num) (address : Z),
    (List.length pageToAdd < 4)%nat ->
    let bytes := pageToAdd ++ codes in
    let m := (List.length bytes / 4)%nat in
    collect_pages pageToAdd address codes
    = (map (fun i => (address + Z.of_nat i, page_of bytes i)) (seq 0 m),
       (skipn (4 * m) bytes, address + Z.of_nat m)).
Proof.
  induction codes as [|c codes IH]; intros pageToAdd address Hlen bytes m.
  - unfold m, bytes. rewrite app_nil_r.
    rewrite (Nat.div_small (List.length pageToAdd) 4) by exact Hlen.
    cbn. now rewrite Z.add_0_r.
  - cbn [collect_pages].
    destruct (Nat.eqb (List.length (pageToAdd ++ [c])) 4) eqn:E.
    + apply Nat.eqb_eq in E.
      rewrite (IH [] (address + 1) ltac:(simpl; lia)). cbn [app].
      assert (Hbytes : bytes = (pageToAdd ++ [c]) ++ codes)
        by (unfold bytes; now rewrite <- app_assoc).
      assert (Hm : m = S (List.length codes / 4)).
      { unfold m. rewrite Hbytes, length_app, E.
        replace (4 + List.length codes)%nat with (1 * 4 + List.length codes)%nat by lia.
        rewrite Nat.div_add_l by lia. reflexivity. }
      rewrite Hm. cbn [seq map].
      assert (Hskip : forall k, skipn (4 * S k) bytes = skipn (4 * k) codes).
      { intros k. rewrite Hbytes.
        replace (4 * S k)%nat with (List.length (pageToAdd ++ [c]) + 4 * k)%nat by lia.
        rewrite skipn_app.
        rewrite skipn_all2 by lia.
        replace (List.length (pageToAdd ++ [c]) + 4 * k - List.length (pageToAdd ++ [c]))%nat
          with (4 * k)%nat by lia.
        reflexivity. }
      assert (H0 : page_of bytes 0 = pageToAdd ++ [c]).
      { unfold page_of. rewrite Hbytes. change (4 * 0)%nat with 0%nat. cbn [skipn].
        rewrite firstn_app, E, Nat.sub_diag.
        rewrite (firstn_all2 (pageToAdd ++ [c])) by lia.
        rewrite firstn_O. apply app_nil_r. }
      assert (Hmap : map (fun i => (address + Z.of_nat i, page_of bytes i))
                         (seq 1 (List.length codes / 4))
                     = map (fun i => (address + 1 + Z.of_nat i, page_of codes i))
                           (seq 0 (List.length codes / 4))).
      { rewrite <- seq_shift, map_map. apply map_ext. intros i.
        f_equal; [lia|]. unfold page_of. now rewrite Hskip. }
      rewrite H0, Hmap, Hskip.
      replace (address + Z.of_nat 0) with address by lia.
      replace (address + Z.of_nat (S (List.length codes / 4)))
        with (address + 1 + Z.of_nat (List.length codes / 4)) by lia.
      reflexivity.
    + apply Nat.eqb_neq in E.
      assert (Hlt : (List.length (pageToAdd ++ [c]) < 4)%nat).
      { rewrite length_app in *. simpl in *. lia. }
      rewrite (IH (pageToAdd ++ [c]) address Hlt).
      unfold m, bytes. rewrite <- !app_assoc. reflexivity.
Qed.

Lemma writeNDEFText_chars_run (charsToWrite : string) (l : list nat) :
  forall (pageToAdd : list num) (address : Z) (s : state D),
    let run := collect_pages pageToAdd address (map (charCodeAt charsToWrite) l) in
    eval (forM_list l
            (fun posInString st =>
               let '(pageToAdd, address) := st in
               let pageToAdd :=
                 arr_set NaN pageToAdd (List.length pageToAdd)
                         (charCodeAt charsToWrite posInString) in
               if Nat.eqb (List.length pageToAdd) 4 then
                 VariantB.write4Bytes pageToAdd address ;;
                 ret ([], address + 1)
               else ret (pageToAdd, address))
            (pageToAdd, address)) s
    = snd run
    /\ only_sends s
         (exec (forM_list l
                  (fun posInString st =>
                     let '(pageToAdd, address) := st in
                     let pageToAdd :=
                       arr_set NaN pageToAdd (List.length pageToAdd)
                               (charCodeAt charsToWrite posInString) in
                     if Nat.eqb (List.length pageToAdd) 4 then
                       VariantB.write4Bytes pageToAdd address ;;
                       ret ([], address + 1)
                     else ret (pageToAdd, address))
                  (pageToAdd, address)) s)
         (map (fun p => page_frame (targetID s) (fst p) (snd p)) (fst run)).
Proof.
  induction l as [|pos l IH]; intros pageToAdd address s run.
  - split; [reflexivity|apply only_sends_refl].
  - unfold run. cbn [forM_list map collect_pages]. rewrite eval_bind, exec_bind.
    cbv zeta. rewrite arr_set_end.
    destruct (Nat.eqb (List.length (pageToAdd ++ [charCodeAt charsToWrite pos])) 4).
    + rewrite eval_bind, exec_bind, exec_ret, eval_ret.
      pose proof (write4Bytes_sends (pageToAdd ++ [charCodeAt charsToWrite pos]) address s)
        as Hw.
      set (s1 := exec (VariantB.write4Bytes
                         (pageToAdd ++ [charCodeAt charsToWrite pos]) address) s) in *.
      destruct (IH [] (address + 1) s1) as [He Hs].
      destruct (collect_pages [] (address + 1) (map (charCodeAt charsToWrite) l))
        as [pages st].
      cbn [fst snd map] in *. split; [exact He|].
      assert (Hid : targetID s1 = targetID s) by apply Hw.
      rewrite Hid in Hs.
      exact (only_sends_trans _ _ _ [_] _ Hw Hs).
    + rewrite exec_ret, eval_ret.
      apply IH.
Qed.

Lemma pad_page_fills (rest : list num) :
  (List.length rest < 4)%nat ->
  VariantB.pad_page (arr_set NaN rest (List.length rest) (Num 0xFE))
  = firstn 4 (rest ++ [Num 0xFE; Num 0x00; Num 0x00; Num 0x00]).
Proof.
  intros Hlen.
  do 4 (destruct rest as [|? rest]; [reflexivity|]).
  simpl in Hlen. lia.
Qed.

End RecordB.

Lemma page_of_inside (bytes tail : list num) (i : nat) :
  (4 * i + 4 <= List.length bytes)%nat ->
  page_of (bytes ++ tail) i = page_of bytes i.
Proof.
  intros Hi. unfold page_of.
  rewrite skipn_app.
  replace (4 * i - List.length bytes)%nat with 0%nat by lia. cbn [skipn].
  rewrite firstn_app.
  replace (4 - List.length (skipn (4 * i) bytes))%nat with 0%nat
    by (rewrite length_skipn; lia).
  rewrite firstn_O. apply app_nil_r.
Qed.

Lemma page_of_last (bytes tail : list num) (m : nat) :
  (4 * m <= List.length bytes)%nat ->
  page_of (bytes ++ tail) m = firstn 4 (skipn (4 * m) bytes ++ tail).
Proof.
  intros Hm. unfold page_of.
  rewrite skipn_app.
  replace (4 * m - List.length bytes)%nat with 0%nat by lia. reflexivity.
Qed.

Section RecordWriteB.

Context {D : Type} `{Bus D}.
Local Open Scope drv_scope.

Lemma writeNDEFText_record_sends (s : state D) (charsToWrite : string) :
  targetID (exec open_session s) = 1 ->
  (String.length charsToWrite <= 147)%nat ->
  let sf := exec VariantB.formatAsNdef (exec open_session s) in
  only_sends sf (exec (VariantB.writeNDEFText charsToWrite) s)
             (ndef_record_frames (targetID sf) charsToWrite).
Proof.
  intros Hfound Hlen sf.
  set (n := String.length charsToWrite) in *.
  set (codes := map (charCodeAt charsToWrite) (seq 0 n)).
  set (bytes := [Num 0x65] ++ codes).
  set (m := (List.length bytes / 4)%nat).
  assert (Hblen : List.length bytes = (1 + n)%nat).
  { unfold bytes, codes. rewrite length_app, length_map, length_seq. reflexivity. }
  assert (Hm4 : (4 * m <= List.length bytes)%nat).
  { unfold m. pose proof (Nat.div_mod_eq (List.length bytes) 4). lia. }
  assert (Hrest : (List.length (skipn (4 * m) bytes) < 4)%nat).
  { rewrite length_skipn. unfold m.
    pose proof (Nat.div_mod_eq (List.length bytes) 4).
    pose proof (Nat.mod_upper_bound (List.length bytes) 4 ltac:(lia)). lia. }
  assert (Hcount : ((n + 5) / 4 = m + 1)%nat).
  { unfold m. rewrite Hblen.
    replace (n + 5)%nat with (1 * 4 + (1 + n))%nat by lia.
    rewrite Nat.div_add_l by lia. lia. }
  pose proof (write4Bytes_sends
                [Num 0x03; Num (0x07 + Z.of_nat n); Num 0xD1; Num 0x01] 0x04 sf) as H1.
  set (s2 := exec (VariantB.write4Bytes
                     [Num 0x03; Num (0x07 + Z.of_nat n); Num 0xD1; Num 0x01] 0x04) sf) in *.
  pose proof (write4Bytes_sends
                [Num (Z.of_nat n + 0x03); Num 0x54; Num 0x02; Num 0x64] 0x05 s2) as H2.
  set (s3 := exec (VariantB.write4Bytes
                     [Num (Z.of_nat n + 0x03); Num 0x54; Num 0x02; Num 0x64] 0x05) s2) in *.
  destruct (writeNDEFText_chars_run charsToWrite (seq 0 n) [Num 0x65] 6 s3) as [He Hs].
  fold codes in He, Hs.
  rewrite (collect_pages_shape codes [Num 0x65] 6 ltac:(simpl; lia)) in He, Hs.
  fold bytes in He, Hs. fold m in He, Hs. cbn [fst snd] in He, Hs.
  set (loop := forM_list (seq 0 n) _ ([Num 0x65], 6)) in *.
  set (s4 := exec loop s3) in *.
  pose proof (write4Bytes_sends
                (VariantB.pad_page
                   (arr_set NaN (skipn (4 * m) bytes)
                            (List.length (skipn (4 * m) bytes)) (Num 0xFE)))
                (6 + Z.of_nat m) s4) as H5.
  assert (Hrun : exec (VariantB.writeNDEFText charsToWrite) s
                 = exec (VariantB.write4Bytes
                           (VariantB.pad_page
                              (arr_set NaN (skipn (4 * m) bytes)
                                       (List.length (skipn (4 * m) bytes)) (Num 0xFE)))
                           (6 + Z.of_nat m)) s4).
  { assert (Hopen : exec VariantB.findPassiveTarget
                           (exec (if negb (running s) then wakeup else ret tt) s)
                      = exec open_session s).
    { unfold open_session. rewrite !exec_bind.
      rewrite eval_get_running, exec_get_running. reflexivity. }
    unfold VariantB.writeNDEFText. rewrite !exec_bind.
    rewrite !eval_get_running, !exec_get_running, eval_get_targetID, exec_get_targetID.
    rewrite Hopen, Hfound. cbn [Z.eqb Pos.eqb].
    rewrite exec_bind.
    assert (Hle : (((0x29 - 0x04) * 4 - 1)%nat <? String.length charsToWrite)%nat = false).
    { apply Nat.ltb_ge. change ((0x29 - 0x04) * 4 - 1)%nat with 147%nat.
      unfold n in Hlen. lia. }
    rewrite Hle. cbv zeta. rewrite !exec_bind.
    unfold VariantB.writeNDEFText_chars, forM. rewrite Nat.sub_0_r.
    fold n. change (4 + 1 + 1) with 6. change (4 + 1) with 5.
    fold loop.
    match goal with
    | |- context [eval loop ?st] => replace (eval loop st) with
          (skipn (4 * m) bytes, 6 + Z.of_nat m) by (symmetry; exact He)
    end.
    reflexivity. }
  rewrite Hrun.
  pose proof (only_sends_trans _ _ _ _ _
                (only_sends_trans _ _ _ _ _ (only_sends_trans _ _ _ _ _ H1 H2) Hs) H5) as Hall.
  destruct H1 as (T1 & _). destruct H2 as (T2 & _). destruct Hs as (T4 & _).
  rewrite T4, T2, T1 in Hall.
  replace (ndef_record_frames (targetID sf) charsToWrite)
    with ((([page_frame (targetID sf) 4
                        [Num 3; Num (7 + Z.of_nat n); Num 209; Num 1]]
            ++ [page_frame (targetID sf) 5
                           [Num (Z.of_nat n + 3); Num 84; Num 2; Num 100]])
           ++ map (fun p => page_frame (targetID sf) (fst p) (snd p))
                  (map (fun i => (6 + Z.of_nat i, page_of bytes i)) (seq 0 m)))
          ++ [page_frame (targetID sf) (6 + Z.of_nat m)
                (VariantB.pad_page
                   (arr_set NaN (skipn (4 * m) bytes)
                            (List.length (skipn (4 * m) bytes)) (Num 254)))]);
    [exact Hall|].
  unfold ndef_record_frames. fold n. rewrite Hcount, <- !app_assoc. cbn [app].
  do 2 f_equal.
  rewrite Nat.add_1_r, seq_S, map_app, map_map. cbn [map Nat.add fst snd].
  assert (Hpayload : ndef_payload charsToWrite
                     = bytes ++ [Num 0xFE; Num 0x00; Num 0x00; Num 0x00]) by reflexivity.
  rewrite Hpayload. f_equal.
  - apply map_ext_in. intros i Hi. apply in_seq in Hi.
    rewrite page_of_inside by lia. reflexivity.
  - rewrite page_of_last by exact Hm4.
    rewrite pad_page_fills by exact Hrest. reflexivity.
Qed.

(** With a target and a text of [n <= 147] characters, [writeNDEFText]
    formats the tag and then writes the record: page 4 with
    [03, 7 + n, D1, 01], page 5 with [n + 3, 54, 02, 64], and then the bytes
    [65], the text, [FE] and zeros, four at a time, into the [(n + 5) / 4]
    consecutive pages from page 6 on; nothing else is sent. *)
Theorem writeNDEFText_sends (s : state D) (charsToWrite : string) :
  targetID (exec open_session s) = 1 ->
  (String.length charsToWrite <= 147)%nat ->
  let sf := exec VariantB.formatAsNdef (exec open_session s) in
  only_sends sf (exec (VariantB.writeNDEFText charsToWrite) s)
             (ndef_record_frames (targetID sf) charsToWrite).
Proof.
  exact (writeNDEFText_record_sends s charsToWrite).
Qed.

End RecordWriteB.

Lemma page_writes_map (tid : Z) (address : nat -> Z) (data : nat -> list num)
      (l : list nat) :
  page_writes (map (fun i => page_frame tid (address i) (data i)) l)
  = map (fun i => address i mod 256) l.
Proof.
  induction l as [|i l IH]; [reflexivity|].
  cbn [map].
  change (page_frame tid (address i) (data i)
            :: map (fun i0 => page_frame tid (address i0) (data i0)) l)
    with ([page_frame tid (address i) (data i)]
            ++ map (fun i0 => page_frame tid (address i0) (data i0)) l).
  rewrite page_writes_app, IH.
  destruct (page_frame_is_write tid (address i) (data i)) as [_ Hp].
  rewrite Hp. reflexivity.
Qed.

Lemma record_page_writes (tid : Z) (charsToWrite : string) :
  (String.length charsToWrite <= 147)%nat ->
  page_writes (ndef_record_frames tid charsToWrite)
  = 4 :: 5 :: map (fun i => 6 + Z.of_nat i) (seq 0 ((String.length charsToWrite + 5) / 4)).
Proof.
  intros Hlen. unfold ndef_record_frames. cbv zeta.
  rewrite page_writes_app.
  rewrite (page_writes_map tid (fun i => 6 + Z.of_nat i)).
  change [page_frame tid 4 [Num 3; Num (7 + Z.of_nat (String.length charsToWrite));
                            Num 209; Num 1];
          page_frame tid 5 [Num (Z.of_nat (String.length charsToWrite) + 3);
                            Num 84; Num 2; Num 100]]
    with ([page_frame tid 4 [Num 3; Num (7 + Z.of_nat (String.length charsToWrite));
                             Num 209; Num 1]]
          ++ [page_frame tid 5 [Num (Z.of_nat (String.length charsToWrite) + 3);
                                Num 84; Num 2; Num 100]]).
  rewrite page_writes_app.
  rewrite (proj2 (page_frame_is_write tid 4 _)), (proj2 (page_frame_is_write tid 5 _)).
  cbn [app]. do 2 f_equal.
  apply map_ext_in. intros i Hi. apply in_seq in Hi.
  pose proof (Nat.Div0.div_le_mono (String.length charsToWrite + 5) 152 4 ltac:(lia)) as Hd.
  change (152 / 4)%nat with 38%nat in Hd.
  apply Z.mod_small. lia.
Qed.

Section CeilingB.

Context {D : Type} `{Bus D}.

(** The pages of the record written by [writeNDEFText] for a text of
    [n <= 147] characters are 4, 5 and the [(n + 5) / 4] pages from 6 on.
    Up to 138 characters every page is at or below the ceiling [0x28]; from
    139 characters on, although the length check accepts up to 147, page
    [0x29] is written. *)
Theorem writeNDEFText_pages (s : state D) (charsToWrite : string) :
  targetID (exec open_session s) = 1 ->
  (String.length charsToWrite <= 147)%nat ->
  let n := String.length charsToWrite in
  let sf := exec VariantB.formatAsNdef (exec open_session s) in
  let pages := 4 :: 5 :: map (fun i => 6 + Z.of_nat i) (seq 0 ((n + 5) / 4)) in
  page_writes (sent (exec (VariantB.writeNDEFText charsToWrite) s))
  = page_writes (sent sf) ++ pages
  /\ ((n <= 138)%nat -> Forall (fun a => a <= 0x28) pages)
  /\ ((139 <= n)%nat -> In 0x29 pages).
Proof.
  intros Hfound Hlen n sf pages.
  split; [|split].
  - destruct (writeNDEFText_record_sends s charsToWrite Hfound Hlen) as (_ & _ & _ & Hs).
    fold sf in Hs. rewrite Hs, page_writes_app.
    rewrite record_page_writes by exact Hlen. reflexivity.
  - intros Hn. unfold pages.
    repeat (apply Forall_cons; [lia|]).
    apply Forall_forall. intros a Hin.
    apply in_map_iff in Hin. destruct Hin as (i & <- & Hi). apply in_seq in Hi.
    pose proof (Nat.Div0.div_le_mono (n + 5) 143 4 ltac:(lia)) as Hd.
    change (143 / 4)%nat with 35%nat in Hd. lia.
  - intros Hn. unfold pages. right. right.
    apply in_map_iff. exists 35%nat. split; [reflexivity|].
    apply in_seq.
    pose proof (Nat.Div0.div_le_mono 144 (n + 5) 4 ltac:(lia)) as Hd.
    change (144 / 4)%nat with 36%nat in Hd. lia.
Qed.

End CeilingB.

Lemma formatAsNdef_sends_witness :
  targetID (exec open_session card1234) = 1
  /\ only_sends (exec open_session card1234) (exec VariantB.formatAsNdef card1234)
                (format_frames 1).
Proof.
  assert (Hf : targetID (exec open_session card1234) = 1) by reflexivity.
  split; [exact Hf|].
  exact (proj1 (formatAsNdef_sends card1234) Hf).
Defined.

Lemma writeNDEFText_sends_witness :
  targetID (exec open_session card1234) = 1
  /\ (String.length "hello" <= 147)%nat
  /\ running (exec (VariantB.writeNDEFText "hello") card1234)
     = running (exec VariantB.formatAsNdef (exec open_session card1234)).
Proof.
  assert (Hf : targetID (exec open_session card1234) = 1) by reflexivity.
  assert (Hl : (String.length "hello" <= 147)%nat) by (simpl; lia).
  split; [exact Hf|]. split; [exact Hl|].
  exact (proj1 (proj2 (proj2 (writeNDEFText_sends card1234 "hello" Hf Hl)))).
Defined.

Lemma writeNDEFText_pages_witness :
  targetID (exec open_session card1234) = 1
  /\ (String.length text147 <= 147)%nat
  /\ (139 <= String.length text147)%nat
  /\ In 0x29 (4 :: 5 :: map (fun i => 6 + Z.of_nat i)
                            (seq 0 ((String.length text147 + 5) / 4))).
Proof.
  assert (Hf : targetID (exec open_session card1234) = 1) by reflexivity.
  assert (Hl : (String.length text147 <= 147)%nat) by (vm_compute; lia).
  assert (Hn : (139 <= String.length text147)%nat) by (vm_compute; lia).
  split; [exact Hf|]. split; [exact Hl|]. split; [exact Hn|].
  exact (proj2 (proj2 (writeNDEFText_pages card1234 text147 Hf Hl)) Hn).
Defined.

(** ** Variant B: finding the record when reading *)

Lemma scan_loop_result (outputFrame : list Z) (offsets : list nat) :
  readNDEFText_scan_loop outputFrame offsets = (-1, -1)
  /\ Forall (fun l => ~ (buf_get outputFrame l = 0x03 /\ buf_get outputFrame (l + 5) = 0x54))
            offsets
  \/ exists before l after,
      offsets = before ++ l :: after
      /\ Forall (fun l => ~ (buf_get outputFrame l = 0x03
                             /\ buf_get outputFrame (l + 5) = 0x54)) before
      /\ buf_get outputFrame l = 0x03
      /\ buf_get outputFrame (l + 5) = 0x54
      /\ readNDEFText_scan_loop outputFrame offsets
         = (Z.of_nat l + 7 + Z.land (buf_get outputFrame (l + 6)) 0x3F,
            buf_get outputFrame (l + 4) - Z.land (buf_get outputFrame (l + 6)) 0x3F - 1).
Proof.
  induction offsets as [|l offsets IH].
  - left. split; [reflexivity|constructor].
  - cbn [readNDEFText_scan_loop]. cbv zeta.
    destruct (buf_get outputFrame l =? 3) eqn:E3;
      [destruct (buf_get outputFrame (l + 5) =? 84) eqn:E5|]; cbn [andb].
    + right. exists [], l, offsets.
      apply Z.eqb_eq in E3, E5. repeat split; try assumption. constructor.
    + apply Z.eqb_neq in E5.
      destruct IH as [[Hr Hall]|(before & l' & after & Ho & Hb & H3 & H5 & Hr)].
      * left. split; [exact Hr|]. constructor; [|exact Hall]. intros [_ H5]. contradiction.
      * right. exists (l :: before), l', after. subst offsets.
        split; [reflexivity|]. split; [|auto].
        constructor; [|exact Hb]. intros [_ H5']. contradiction.
    + apply Z.eqb_neq in E3.
      destruct IH as [[Hr Hall]|(before & l' & after & Ho & Hb & H3 & H5 & Hr)].
      * left. split; [exact Hr|]. constructor; [|exact Hall]. intros [H3 _]. contradiction.
      * right. exists (l :: before), l', after. subst offsets.
        split; [reflexivity|]. split; [|auto].
        constructor; [|exact Hb]. intros [H3' _]. contradiction.
Qed.

(** The search loop of [readNDEFText] takes the first offset from 9 on that
    holds [03] with [54] five bytes later.  On a frame of bytes it answers
    [(-1, -1)] when there is no such offset below [length - 2]; otherwise the
    start offset is at least 16 and the length is between -64 and 254, so a
    length of 0 or less (an empty text, or a length byte smaller than the
    language code) is possible and makes [readNDEFText] return no text. *)
Theorem readNDEFText_scan_first_match (outputFrame : list Z) :
  Forall is_byte outputFrame ->
  let result := readNDEFText_scan outputFrame in
  (result = (-1, -1)
   /\ forall l, (9 <= l < List.length outputFrame - 2)%nat ->
                ~ (buf_get outputFrame l = 0x03 /\ buf_get outputFrame (l + 5) = 0x54))
  \/ (exists l,
        (9 <= l < List.length outputFrame - 2)%nat
        /\ buf_get outputFrame l = 0x03 /\ buf_get outputFrame (l + 5) = 0x54
        /\ (forall l', (9 <= l' < l)%nat ->
                       ~ (buf_get outputFrame l' = 0x03
                          /\ buf_get outputFrame (l' + 5) = 0x54))
        /\ fst result = Z.of_nat l + 7 + Z.land (buf_get outputFrame (l + 6)) 0x3F
        /\ snd result
           = buf_get outputFrame (l + 4) - Z.land (buf_get outputFrame (l + 6)) 0x3F - 1
        /\ 16 <= fst result /\ -64 <= snd result <= 254).
Proof.
  intros Hb result. unfold result, readNDEFText_scan.
  set (k := (List.length outputFrame - 2 - 9)%nat).
  destruct (scan_loop_result outputFrame (seq 9 k))
    as [[Hr Hall]|(before & l & after & Ho & Hbefore & H3 & H5 & Hr)].
  - left. split; [exact Hr|]. intros l Hl.
    rewrite Forall_forall in Hall. apply Hall. apply in_seq. unfold k. lia.
  - right. exists l.
    assert (Hin : In l (seq 9 k)) by (rewrite Ho; apply in_or_app; right; left; reflexivity).
    apply in_seq in Hin.
    assert (Hlb : List.length before = (l - 9)%nat).
    { assert (Hnth : nth (List.length before) (seq 9 k) 0%nat = l).
      { rewrite Ho, app_nth2 by lia. rewrite Nat.sub_diag. reflexivity. }
      assert (Hlt : (List.length before < k)%nat).
      { assert (Hlen : List.length (seq 9 k) = List.length (before ++ l :: after))
          by (now rewrite Ho).
        rewrite length_seq, length_app in Hlen. simpl in Hlen. lia. }
      rewrite seq_nth in Hnth by exact Hlt. lia. }
    split; [unfold k in Hin; lia|]. split; [exact H3|]. split; [exact H5|].
    split.
    { intros l' Hl'. rewrite Forall_forall in Hbefore. apply Hbefore.
      assert (Hnth : nth (l' - 9) (seq 9 k) 0%nat = l').
      { rewrite seq_nth by lia. lia. }
      rewrite Ho, app_nth1 in Hnth by lia.
      rewrite <- Hnth. apply nth_In. lia. }
    rewrite Hr. cbn [fst snd].
    pose proof (buf_get_byte outputFrame (l + 4) Hb) as B4.
    pose proof (buf_get_byte outputFrame (l + 6) Hb) as B6.
    unfold is_byte in B4, B6.
    assert (Hland : 0 <= Z.land (buf_get outputFrame (l + 6)) 0x3F <= 63).
    { split; [apply Z.land_nonneg; lia|].
      assert (Hlt : Z.land (buf_get outputFrame (l + 6)) 0x3F < 2 ^ 6).
      { destruct (Z.eq_dec (Z.land (buf_get outputFrame (l + 6)) 0x3F) 0) as [E|E];
          [rewrite E; reflexivity|].
        apply Z.log2_lt_pow2; [pose proof (Z.land_nonneg (buf_get outputFrame (l + 6)) 0x3F);
                               lia|].
        eapply Z.le_lt_trans; [apply Z.log2_land; lia|].
        apply Z.min_lt_iff. right. reflexivity. }
      change (2 ^ 6) with 64 in Hlt. lia. }
    repeat split; lia.
Qed.

Lemma readNDEFText_scan_first_match_witness :
  Forall is_byte (repeat 0 27)
  /\ readNDEFText_scan (repeat 0 27) = (-1, -1).
Proof.
  assert (Hb : Forall is_byte (repeat 0 27)).
  { apply Forall_forall. intros b Hin. apply repeat_spec in Hin. subst b.
    unfold is_byte. lia. }
  split; [exact Hb|].
  destruct (readNDEFText_scan_first_match (repeat 0 27) Hb)
    as [[Hr _]|(l & _ & H3 & _)].
  - exact Hr.
  - exfalso. unfold buf_get in H3. rewrite nth_repeat in H3. discriminate H3.
Defined.

(** The header that [writeNDEFText] writes for a text of [n] characters is
    the one the search loop of [readNDEFText] expects: when the 16 bytes
    returned for page 4 start with these two pages, after the 9 leading bytes
    of the response, the loop stops at offset 9 with the length [n] and the
    start offset 18, which is where the first character of the text sits. *)
Theorem readNDEFText_scan_finds_written_header
        (lead rest : list Z) (n : Z) :
  List.length lead = 9%nat ->
  (3 <= List.length rest)%nat ->
  0 <= n <= 147 ->
  readNDEFText_scan (lead ++ ndef_header n ++ rest) = (18, n)
  /\ buf_get (lead ++ ndef_header n ++ rest) 17 = buf_get rest 0
  /\ buf_get (lead ++ ndef_header n ++ rest) 18 = buf_get rest 1.
Proof.
  intros Hlead Hrest Hn.
  do 9 (destruct lead as [|? lead]; [discriminate Hlead|]).
  destruct lead; [|discriminate Hlead].
  unfold ndef_header, toBuffer. cbn [map to_uint8 app].
  rewrite (Z.mod_small (7 + n)) by lia. rewrite (Z.mod_small (n + 3)) by lia.
  split; [|split; reflexivity].
  unfold readNDEFText_scan. cbn [List.length].
  destruct rest as [|r0 [|r1 [|r2 rest]]]; try (simpl in Hrest; lia).
  cbn [List.length Nat.sub seq readNDEFText_scan_loop buf_get nth Nat.add].
  change (3 mod 256 =? 3) with true. change (0x54 mod 256 =? 84) with true.
  cbv iota beta zeta. cbn [andb].
  change (2 mod 256) with 2. change (Z.land 2 63) with 2.
  f_equal; lia.
Qed.

Lemma readNDEFText_scan_finds_written_header_witness :
  List.length (repeat 0 9) = 9%nat
  /\ (3 <= List.length [0x65; 0x41; 0xFE])%nat
  /\ 0 <= 1 <= 147
  /\ readNDEFText_scan (repeat 0 9 ++ ndef_header 1 ++ [0x65; 0x41; 0xFE]) = (18, 1).
Proof.
  assert (H9 : List.length (repeat 0 9) = 9%nat) by reflexivity.
  assert (H3 : (3 <= List.length [0x65; 0x41; 0xFE])%nat) by (simpl; lia).
  assert (Hn : 0 <= 1 <= 147) by lia.
  split; [exact H9|]. split; [exact H3|]. split; [exact Hn|].
  exact (proj1 (readNDEFText_scan_finds_written_header
                  (repeat 0 9) [0x65; 0x41; 0xFE] 1 H9 H3 Hn)).
Defined.

(** ** Hexadecimal printing *)

Lemma hex_parse_digit (r : Z) (s : string) (acc : Z) :
  0 <= r < 16 ->
  hex_parse (nth (Z.to_nat r) chars ""%string ++ s)%string acc
  = hex_parse s (acc * 16 + r).
Proof.
  intros Hr.
  assert (Hcases : r = 0 \/ r = 1 \/ r = 2 \/ r = 3 \/ r = 4 \/ r = 5 \/ r = 6 \/ r = 7
                   \/ r = 8 \/ r = 9 \/ r = 10 \/ r = 11 \/ r = 12 \/ r = 13 \/ r = 14
                   \/ r = 15) by lia.
  repeat (destruct Hcases as [->|Hcases]; [reflexivity|]).
  subst r. reflexivity.
Qed.

Lemma decToHex_loop_parse (fuel : nat) :
  forall (nrCopy : Z) (result out : string),
    0 <= nrCopy ->
    decToHex_loop fuel nrCopy result = Some out ->
    exists k, 0 <= k
              /\ forall acc, hex_parse out acc = hex_parse result (acc * 16 ^ k + nrCopy).
Proof.
  induction fuel as [|fuel IH]; intros nrCopy result out Hpos Hloop.
  - cbn [decToHex_loop] in Hloop. cbv zeta in Hloop. destruct (nrCopy >? 0) eqn:E; [discriminate Hloop|].
    injection Hloop as <-. assert (nrCopy = 0) as ->.
    { destruct (Z.gtb_spec nrCopy 0); [discriminate E|lia]. }
    exists 0. split; [lia|]. intros acc. f_equal. lia.
  - cbn [decToHex_loop] in Hloop. cbv zeta in Hloop. destruct (nrCopy >? 0) eqn:E.
    + apply Z.gtb_lt in E.
      rewrite Z.rem_mod_nonneg in Hloop by lia.
      pose proof (Z.mod_pos_bound nrCopy 16 ltac:(lia)) as Hm.
      pose proof (Z.div_mod nrCopy 16 ltac:(lia)) as Hd.
      assert (Hdiv : (nrCopy - nrCopy mod 16) / 16 = nrCopy / 16).
      { replace (nrCopy - nrCopy mod 16) with (nrCopy / 16 * 16) by lia.
        apply Z.div_mul. lia. }
      rewrite Hdiv in Hloop.
      destruct (IH (nrCopy / 16) _ out ltac:(apply Z.div_pos; lia) Hloop) as (k & Hk & Hp).
      exists (k + 1). split; [lia|]. intros acc.
      rewrite Hp, hex_parse_digit by exact Hm. f_equal.
      rewrite Z.pow_add_r by lia. lia.
    + injection Hloop as <-. assert (nrCopy = 0) as ->.
      { destruct (Z.gtb_spec nrCopy 0); [discriminate E|lia]. }
      exists 0. split; [lia|]. intros acc. f_equal. lia.
Qed.

Lemma digit_length (i : nat) (result : string) :
  (i < 16)%nat ->
  String.length (nth i chars ""%string ++ result)%string = S (String.length result).
Proof.
  intros Hi. do 16 (destruct i as [|i]; [reflexivity|]). lia.
Qed.

Lemma decToHex_loop_length (fuel : nat) :
  forall (nrCopy : Z) (result out : string),
    decToHex_loop fuel nrCopy result = Some out ->
    (String.length result <= String.length out)%nat
    /\ (0 < nrCopy -> (String.length result + 1 <= String.length out)%nat)
    /\ (16 <= nrCopy -> (String.length result + 2 <= String.length out)%nat).
Proof.
  induction fuel as [|fuel IH]; intros nrCopy result out Hloop.
  - cbn [decToHex_loop] in Hloop. cbv zeta in Hloop. destruct (nrCopy >? 0) eqn:E; [discriminate Hloop|].
    injection Hloop as <-.
    destruct (Z.gtb_spec nrCopy 0); [discriminate E|]. repeat split; lia.
  - cbn [decToHex_loop] in Hloop. cbv zeta in Hloop. destruct (nrCopy >? 0) eqn:E.
    + apply Z.gtb_lt in E.
      rewrite Z.rem_mod_nonneg in Hloop by lia.
      pose proof (Z.mod_pos_bound nrCopy 16 ltac:(lia)) as Hm.
      pose proof (Z.div_mod nrCopy 16 ltac:(lia)) as Hd.
      destruct (IH _ _ _ Hloop) as (H0 & H1 & _).
      assert (Hdigit : String.length
                         (nth (Z.to_nat (nrCopy mod 16)) chars ""%string ++ result)%string
                       = S (String.length result)).
      { apply digit_length. lia. }
      rewrite Hdigit in H0, H1.
      repeat split; try lia.
      intros H16. assert (0 < (nrCopy - nrCopy mod 16) / 16).
      { replace (nrCopy - nrCopy mod 16) with (nrCopy / 16 * 16) by lia.
        rewrite Z.div_mul by lia. apply Z.div_str_pos. lia. }
      lia.
    + injection Hloop as <-.
      destruct (Z.gtb_spec nrCopy 0); [discriminate E|]. repeat split; lia.
Qed.

(** [decToHex] prints every non-negative integer as hexadecimal digits that
    read back as the same number, with at least two characters; a negative
    number is printed as the single character [0], and [NaN] or [undefined]
    as the empty string. *)
Theorem decToHex_reads_back (z : Z) :
  (0 <= z -> hex_value (decToHex (Num z)) = Some z
             /\ (2 <= String.length (decToHex (Num z)))%nat)
  /\ (z < 0 -> decToHex (Num z) = "0"%string)
  /\ decToHex NaN = ""%string.
Proof.
  split; [|split; [|reflexivity]].
  - intros Hz.
    pose proof (decToHex_fuel_enough (Num z)) as Hfuel.
    unfold decToHex_fuel in Hfuel.
    destruct (z =? 0) eqn:E0.
    + injection Hfuel as <-. apply Z.eqb_eq in E0. subst z. split; [reflexivity|simpl; lia].
    + apply Z.eqb_neq in E0.
      destruct (decToHex_loop (Z.to_nat z) z ""%string) as [out|] eqn:Eloop;
        [|discriminate Hfuel].
      injection Hfuel as <-.
      destruct (decToHex_loop_parse _ _ _ _ Hz Eloop) as (k & Hk & Hp).
      destruct (decToHex_loop_length _ _ _ _ Eloop) as (_ & H1 & H2).
      simpl String.length in H1, H2.
      destruct (z <? 17) eqn:E17.
      * split.
        -- unfold hex_value.
           assert (H0 : forall acc, hex_parse ("0" ++ out)%string acc
                                    = hex_parse out (acc * 16 + 0))
             by (intros acc; reflexivity).
           rewrite H0, Hp. cbn [hex_parse]. f_equal; lia.
        -- cbn [append String.length]. specialize (H1 ltac:(lia)). lia.
      * apply Z.ltb_ge in E17. split.
        -- unfold hex_value. rewrite Hp. cbn [hex_parse]. f_equal; lia.
        -- specialize (H2 ltac:(lia)). lia.
  - intros Hz. unfold decToHex, decToHex_fuel.
    replace (z =? 0) with false by (symmetry; apply Z.eqb_neq; lia).
    replace (Z.to_nat z) with 0%nat by lia. cbn [decToHex_loop].
    replace (z >? 0) with false by (symmetry; destruct (Z.gtb_spec z 0); [lia|reflexivity]).
    replace (z <? 17) with true by (symmetry; apply Z.ltb_lt; lia).
    reflexivity.
Qed.

Lemma decToHex_byte_chars (b : Z) :
  is_byte b -> String.length (decToHex (Num b)) = if b =? 16 then 3%nat else 2%nat.
Proof.
  intros Hb. destruct (b =? 16) eqn:E.
  - apply Z.eqb_eq in E. subst b. reflexivity.
  - apply Z.eqb_neq in E. apply decToHex_byte_length; assumption.
Qed.

Section IdA.

Context {D : Type} `{Bus D}.

(** After a successful discovery [getNFCID] returns the four UID bytes found
    at offsets 14 to 17 of the response, each printed by [decToHex] and
    joined without separator: two characters per byte, three for a byte equal
    to 16, so 8 characters plus one for each such byte.  After a failed
    discovery it returns the empty string.  It sends the discovery command
    and nothing else. *)
Theorem getNFCID_prints_uid (s : state D) :
  let outputFrame := discovery_response s in
  let uid := [buf_get outputFrame 14; buf_get outputFrame 15;
              buf_get outputFrame 16; buf_get outputFrame 17] in
  (shows_target outputFrame ->
   eval VariantA.getNFCID s
   = (decToHex (Num (buf_get outputFrame 14)) ++ decToHex (Num (buf_get outputFrame 15))
      ++ decToHex (Num (buf_get outputFrame 16)) ++ decToHex (Num (buf_get outputFrame 17))
     )%string
   /\ String.length (eval VariantA.getNFCID s) = (8 + count_occ Z.eq_dec uid 16%Z)%nat)
  /\ (~ shows_target outputFrame -> eval VariantA.getNFCID s = ""%string)
  /\ sent (exec VariantA.getNFCID s) = sent s ++ [toBuffer listTarget].
Proof.
  intros outputFrame uid.
  destruct (getNFCID_result s) as (Hs' & _).
  destruct (findPassiveTarget_at_exec 14 s) as (_ & Hsent & Hid & Huid).
  fold (VariantA.findPassiveTarget (D := D)) in Hsent, Hid, Huid.
  fold (discovery_response s) in Hid, Huid. fold outputFrame in Hid, Huid.
  assert (Hbytes : Forall is_byte outputFrame)
    by apply eval_inListPassiveTarget_bytes.
  assert (Hr : eval VariantA.getNFCID s
               = if negb (targetID (exec VariantA.findPassiveTarget s) =? 0)
                 then for_upto 4
                        (fun i result =>
                           (result ++ decToHex
                                        (arr_get (targetNFCID
                                                    (exec VariantA.findPassiveTarget s)) i)
                           )%string) ""%string
                 else ""%string).
  { unfold VariantA.getNFCID. rewrite !eval_bind.
    rewrite eval_get_targetID, exec_get_targetID.
    destruct (negb _); [|reflexivity].
    rewrite eval_bind. reflexivity. }
  split; [|split].
  - intros [H0 H8].
    assert (Hseen : target_seen outputFrame = true)
      by (unfold target_seen; rewrite H0, H8; reflexivity).
    rewrite Hseen in Hid, Huid. rewrite Hr, Hid, Huid. cbn [Z.eqb negb].
    assert (Hval : for_upto 4
                     (fun i result =>
                        (result ++ decToHex
                                     (arr_get [Num (buf_get outputFrame 14);
                                               Num (buf_get outputFrame (14 + 1));
                                               Num (buf_get outputFrame (14 + 2));
                                               Num (buf_get outputFrame (14 + 3))] i))%string)
                     ""%string
                   = (decToHex (Num (buf_get outputFrame 14))
                      ++ decToHex (Num (buf_get outputFrame 15))
                      ++ decToHex (Num (buf_get outputFrame 16))
                      ++ decToHex (Num (buf_get outputFrame 17)))%string).
    { unfold for_upto, for_loop, arr_get. cbn [seq Nat.sub fold_left nth Nat.add].
      generalize (decToHex (Num (buf_get outputFrame 14)))
                 (decToHex (Num (buf_get outputFrame 15)))
                 (decToHex (Num (buf_get outputFrame 16)))
                 (decToHex (Num (buf_get outputFrame 17))).
      intros a b c d. cbn [append].
      clear. induction a as [|x a IH]; cbn [append]; [|now rewrite IH].
      induction b as [|x b IH]; cbn [append]; [reflexivity|now rewrite IH]. }
    rewrite Hval. split; [reflexivity|].
    rewrite !string_length_append.
    rewrite !decToHex_byte_chars by (apply buf_get_byte; exact Hbytes).
    unfold uid. cbn [count_occ].
    destruct (Z.eq_dec (buf_get outputFrame 14) 16) as [E1|E1];
      [rewrite E1|apply Z.eqb_neq in E1; rewrite E1];
      (destruct (Z.eq_dec (buf_get outputFrame 15) 16) as [E2|E2];
       [rewrite E2|apply Z.eqb_neq in E2; rewrite E2]);
      (destruct (Z.eq_dec (buf_get outputFrame 16) 16) as [E3|E3];
       [rewrite E3|apply Z.eqb_neq in E3; rewrite E3]);
      (destruct (Z.eq_dec (buf_get outputFrame 17) 16) as [E4|E4];
       [rewrite E4|apply Z.eqb_neq in E4; rewrite E4]);
      reflexivity.
  - intros Hno. apply target_seen_false in Hno.
    rewrite Hno in Hid. rewrite Hr, Hid. reflexivity.
  - rewrite Hs'. exact Hsent.
Qed.

End IdA.

Lemma decToHex_reads_back_witness :
  0 <= 16
  /\ hex_value (decToHex (Num 16)) = Some 16.
Proof.
  assert (Hz : 0 <= 16) by lia.
  split; [exact Hz|].
  exact (proj1 (proj1 (decToHex_reads_back 16) Hz)).
Defined.

Lemma getNFCID_prints_uid_witness :
  shows_target (discovery_response card_uid16)
  /\ String.length (eval VariantA.getNFCID card_uid16)
     = (8 + count_occ Z.eq_dec
                      [buf_get (discovery_response card_uid16) 14;
                       buf_get (discovery_response card_uid16) 15;
                       buf_get (discovery_response card_uid16) 16;
                       buf_get (discovery_response card_uid16) 17] 16%Z)%nat.
Proof.
  assert (Hs : shows_target (discovery_response card_uid16)) by (split; reflexivity).
  split; [exact Hs|].
  exact (proj2 (proj1 (getNFCID_prints_uid card_uid16) Hs)).
Defined.

(** ** Data of the wrong length *)

Section WrongLength.

Context {D : Type} `{Bus D}.

(** A wrong number of data bytes is only reported: [write16Bytes] and
    [write4Bytes] send their write command for data of any length, also
    empty, and the length byte and the length checksum of the frame follow
    the data ([5 + length], and its complement modulo 256). *)
Theorem wrong_length_is_still_written (s : state D) (data : list num) (address : Z) :
  let n := List.length data in
  let frameA := write_frame (targetID s) (Num address) data in
  let frameB := page_frame (targetID s) address data in
  sent (exec (VariantA.write16Bytes data (Num address)) s)
  = sent s ++ [auth_frame (targetID s) (targetNFCID s) (Num address); frameA]
  /\ sent (exec (VariantB.write4Bytes data address) s) = sent s ++ [frameB]
  /\ List.length frameA = (n + 12)%nat /\ List.length frameB = (n + 12)%nat
  /\ buf_get frameA 3 = Z.of_nat (5 + n) mod 256
  /\ buf_get frameB 3 = Z.of_nat (5 + n) mod 256
  /\ (buf_get frameA 3 + buf_get frameA 4) mod 256 = 0
  /\ (buf_get frameB 3 + buf_get frameB 4) mod 256 = 0.
Proof.
  intros n frameA frameB.
  destruct (write16Bytes_exchange data (Num address) s) as (_ & _ & _ & HA).
  destruct (write4Bytes_sends data address s) as (_ & _ & _ & HB).
  assert (Hlay : forall c : num,
             let frame := toBuffer (makeCommand
                                      (concatNumArr [Num 0xD4; Num 0x40; Num (targetID s);
                                                     c; Num address] data)) in
             List.length frame = (n + 12)%nat
             /\ buf_get frame 3 = Z.of_nat (5 + n) mod 256
             /\ (buf_get frame 3 + buf_get frame 4) mod 256 = 0).
  { intros c frame. unfold frame. rewrite concatNumArr_app, makeCommand_layout.
    unfold toBuffer, buf_get. rewrite !map_app, !length_app, !length_map.
    cbn [map to_uint8 app nth List.length]. fold n.
    replace (Z.of_nat (S (S (S (S (S n)))))) with (Z.of_nat (5 + n)) by (f_equal; lia).
    split; [lia|]. split; [reflexivity|].
    set (len := Z.of_nat (5 + n)).
    assert (Hlen : 0 <= len) by (unfold len; lia).
    rewrite Z.rem_mod_nonneg by lia.
    rewrite Z.add_mod_idemp_l, Z.add_mod_idemp_r by lia.
    pose proof (Z.div_mod len 256 ltac:(lia)) as Hd.
    replace (len + (256 - len mod 256)) with ((len / 256 + 1) * 256) by lia.
    apply Z.mod_mul. lia. }
  destruct (Hlay (Num 0xA0)) as (LA & A3 & A4).
  destruct (Hlay (Num 0xA2)) as (LB & B3 & B4).
  repeat split; assumption.
Qed.

End WrongLength.

(** ** Variant A on the simulated card: a block comes back as written *)

Lemma sim_dispatch (tid : Z) (c address : num) (rest : list num) (d : pn532) :
  pn532_write (toBuffer (makeCommand ([Num 0xD4; Num 0x40; Num tid; c; address] ++ rest))) d
  = match to_uint8 c with
    | 0x60 => stage d [ack_bytes; response [0xD5; 0x41; 0x00]]
    | 0x30 => stage d [ack_bytes;
                       response ([0xD5; 0x41; 0x00]
                                   ++ card_lookup (card_mem d) (to_uint8 address))]
    | 0xA0 => stage (store d (to_uint8 address)
                           (firstn 16 (toBuffer rest
                                         ++ toBuffer [nsub (Num 0x100)
                                                           (nrem (command_sum
                                                                    ([Num 0xD4; Num 0x40;
                                                                      Num tid; c; address]
                                                                       ++ rest))
                                                                 (Num 0x100));
                                                      Num 0x00])))
                    [ack_bytes; response [0xD5; 0x41; 0x00]]
    | 0xA2 => stage (store d (to_uint8 address)
                           (firstn 4 (toBuffer rest
                                        ++ toBuffer [nsub (Num 0x100)
                                                          (nrem (command_sum
                                                                   ([Num 0xD4; Num 0x40;
                                                                     Num tid; c; address]
                                                                      ++ rest))
                                                                (Num 0x100));
                                                     Num 0x00])))
                    [ack_bytes; response [0xD5; 0x41; 0x00]]
    | _ => d
    end.
Proof.
  unfold pn532_write. rewrite makeCommand_layout.
  unfold toBuffer. rewrite !map_app.
  cbn [map app skipn to_uint8].
  change (0xD4 mod 256) with 0xD4. change (0x40 mod 256) with 0x40.
  generalize (tid mod 256) (to_uint8 c) (to_uint8 address). intros t c' a'.
  reflexivity.
Qed.

Lemma sim_exchange (arr : list num) (s : state pn532) (d' : pn532) (resp : list Z) :
  pn532_write (toBuffer arr) (dev s) = stage d' [ack_bytes; resp] ->
  let s' := exec readFrame (exec (checkOutput ACK_FRAME) (exec (writeBuffer arr) s)) in
  eval readFrame (exec (checkOutput ACK_FRAME) (exec (writeBuffer arr) s))
  = readFrame_slice (read_buffer 64 resp)
  /\ dev s' = stage d' []
  /\ targetID s' = targetID s /\ targetNFCID s' = targetNFCID s.
Proof.
  intros Hw s'.
  destruct (exchange_sends arr s) as (Hid & Huid & _).
  fold s' in Hid, Huid.
  unfold s', readFrame, checkOutput, writeBuffer.
  rewrite !exec_bind, !eval_bind, !exec_ret.
  unfold exec, eval, i2cWriteBuffer, i2cReadBuffer, ret.
  cbn [fst snd dev bus_write bus_read pn532_bus].
  rewrite Hw. cbn [pn532_read staged stage fst snd dev card_present card_uid card_mem].
  repeat split; assumption.
Qed.

Lemma readFrame_slice_of_response (payload : list Z) :
  Forall is_byte payload -> (List.length payload <= 56)%nat ->
  readFrame_slice (read_buffer 64 (response payload))
  = [0x01; 0x00; 0x00; 0xFF; Z.of_nat (List.length payload);
     (0x100 - Z.of_nat (List.length payload)) mod 0x100]
    ++ payload ++ [(0x100 - byte_sum payload mod 0x100) mod 0x100; 0x00].
Proof.
  intros Hb Hlen. unfold response. fold (wire payload).
  set (full := [0x01; 0x00; 0x00; 0xFF; Z.of_nat (List.length payload);
                (0x100 - Z.of_nat (List.length payload)) mod 0x100]
                 ++ payload ++ [(0x100 - byte_sum payload mod 0x100) mod 0x100; 0x00]).
  assert (Hfull : 0x01 :: wire payload = full).
  { rewrite (wire_layout payload Hb).
    rewrite (Z.mod_small (Z.of_nat (List.length payload))) by lia.
    reflexivity. }
  assert (Hflen : List.length full = (List.length payload + 8)%nat).
  { unfold full. rewrite !length_app. simpl. lia. }
  assert (Hbytes : Forall is_byte (0x01 :: wire payload)).
  { apply Forall_cons; [unfold is_byte; lia|]. apply wire_is_bytes. exact Hb. }
  rewrite Hfull in *.
  rewrite (read_buffer_short 64 full Hbytes) by lia.
  unfold readFrame_slice, slice. rewrite skipn_O.
  assert (H4 : buf_get (full ++ repeat 0 (64 - List.length full)) 4
               = Z.of_nat (List.length payload)) by reflexivity.
  rewrite H4.
  replace (Z.to_nat (Z.of_nat (List.length payload) + 8)) with (List.length full) by lia.
  rewrite firstn_app, Nat.sub_diag, firstn_all, firstn_O.
  apply app_nil_r.
Qed.

(** On the simulated card, 16 bytes written by [write16Bytes] to a block are
    what the card then holds in that block, and a following [read16Bytes] of
    the same block returns a frame that carries them at offsets 9 to 24, the
    window [readText] takes. *)
Theorem block_written_is_block_read (s : state pn532) (data : list Z) (address : Z) :
  Forall is_byte data ->
  List.length data = 16%nat ->
  is_byte address ->
  let s1 := exec (VariantA.write16Bytes (map Num data) (Num address)) s in
  card_lookup (card_mem (dev s1)) address = data
  /\ slice (eval (VariantA.read16Bytes (Num address)) s1) 9 16 = data.
Proof.
  intros Hb Hlen Ha s1.
  assert (Hmod : address mod 256 = address) by (apply Z.mod_small; exact Ha).
  (* the write *)
  assert (Hdev1 : exists d1, dev s1 = stage d1 [response [0xD5; 0x41; 0x00]]
                             /\ card_lookup (card_mem d1) address = data).
  { unfold s1, VariantA.write16Bytes. rewrite !exec_bind, exec_ret.
    set (sa := exec (VariantA.authenticate (Num address)) s).
    replace (exec (if negb (Nat.eqb (List.length (map Num data)) 16)
                   then ret tt else ret tt) sa)
      with sa by (destruct (negb _); reflexivity).
    rewrite exec_get_targetID, eval_get_targetID.
    rewrite concatNumArr_app.
    pose proof (sim_dispatch (targetID sa) (Num 0xA0) (Num address) (map Num data) (dev sa))
      as Hw.
    change (to_uint8 (Num 0xA0)) with 0xA0 in Hw. cbv iota in Hw.
    cbn [to_uint8] in Hw. rewrite Hmod in Hw.
    rewrite (toBuffer_bytes data Hb) in Hw.
    rewrite firstn_app, <- Hlen, firstn_all, Nat.sub_diag, firstn_O, app_nil_r in Hw.
    exists (store (dev sa) address data). split.
    - unfold exec at 1, checkOutput, bind, i2cReadBuffer, ret.
      unfold exec at 1, writeBuffer, i2cWriteBuffer.
      cbn [fst snd dev bus_write bus_read pn532_bus List.length].
      rewrite Hw. reflexivity.
    - cbn [store card_mem card_lookup]. rewrite Z.eqb_refl. reflexivity. }
  destruct Hdev1 as (d1 & Hd1 & Hmem).
  split.
  - rewrite Hd1. exact Hmem.
  - (* the read *)
    unfold VariantA.read16Bytes. rewrite !eval_bind.
    set (sa := exec (VariantA.authenticate (Num address)) s1).
    assert (Hsa : dev sa = stage d1 []).
    { unfold sa, VariantA.authenticate. rewrite !exec_bind, exec_ret.
      rewrite !exec_get_targetID, !eval_get_targetID.
      rewrite !exec_get_targetNFCID, !eval_get_targetNFCID.
      rewrite concatNumArr_app.
      pose proof (sim_dispatch (targetID s1) (Num 0x60) (Num address)
                               (concatNumArr VariantA.targetKey (targetNFCID s1)) (dev s1))
        as Hw.
      change (to_uint8 (Num 0x60)) with 0x60 in Hw. cbv iota in Hw.
      destruct (sim_exchange _ s1 (dev s1) _ Hw) as (_ & Hdev & _).
      rewrite Hd1 in Hdev.
      exact Hdev. }
    pose proof (sim_dispatch 1 (Num 0x30) (Num address) [] (dev sa)) as Hw.
    change (to_uint8 (Num 0x30)) with 0x30 in Hw. cbv iota in Hw.
    cbn [to_uint8 app] in Hw. rewrite Hmod in Hw.
    assert (Hcard : card_lookup (card_mem (dev sa)) address = data)
      by (rewrite Hsa; exact Hmem).
    rewrite Hcard in Hw.
    destruct (sim_exchange _ sa (dev sa) _ Hw) as (Hev & _).
    rewrite eval_ret, Hev.
    rewrite readFrame_slice_of_response.
    + cbn [app]. unfold slice. cbn [skipn].
      rewrite firstn_app, <- Hlen, firstn_all, Nat.sub_diag, firstn_O. apply app_nil_r.
    + repeat (apply Forall_cons; [unfold is_byte; lia|]). exact Hb.
    + cbn [app List.length]. rewrite Hlen. lia.
Qed.

Lemma block_written_is_block_read_witness :
  Forall is_byte (repeat 0x41 16)
  /\ List.length (repeat 0x41 16) = 16%nat
  /\ is_byte 0x05
  /\ card_lookup
       (card_mem (dev (exec (VariantA.write16Bytes (map Num (repeat 0x41 16)) (Num 0x05))
                            card1234))) 0x05
     = repeat 0x41 16.
Proof.
  assert (Hb : Forall is_byte (repeat 0x41 16)).
  { apply Forall_forall. intros b Hin. apply repeat_spec in Hin. subst b.
    unfold is_byte. lia. }
  assert (Hl : List.length (repeat 0x41 16) = 16%nat) by reflexivity.
  assert (Ha : is_byte 0x05) by (unfold is_byte; lia).
  split; [exact Hb|]. split; [exact Hl|]. split; [exact Ha|].
  exact (proj1 (block_written_is_block_read card1234 (repeat 0x41 16) 0x05 Hb Hl Ha)).
Defined.
